(** * Hobbly admin panel: authorization gate, activity directory client
      and table pagination

    A shallow embedding of the TypeScript sources

    - [components/common/ProtectedRoute/ProtectedRoute.tsx],
    - [api/activities.api.ts] together with [api/mockData.ts],
    - [components/common/Table] (the [Pagination] component),

    followed by the properties of the specification that concern them.

    Conventions of the embedding.

    - JavaScript strings are [string]s, compared with [String.eqb] where the
      source uses [===]; [toLowerCase] folds the letters A-Z.
    - Integral JavaScript numbers (page numbers, limits, counts, prices,
      epoch milliseconds) are [Z]; a quantity that the source can drive to
      [NaN] or an infinity has type [JS.Number].
    - The module-level array [mockActivities] is threaded through the
      asynchronous operations as an explicit store: an operation takes the
      array and returns its settled promise, together with the array
      afterwards when the operation writes to it.
    - [new Date()], [Date.now()] and [Math.random()] read the environment;
      each value read is an argument of the operation.
    - [simulateApiDelay] and [console.error] change neither the store nor
      the result and are left out. *)

From Stdlib Require Import ZArith String Ascii List QArith Qround Lia.
From Stdlib Require Import DecimalString DecimalPos.
From stdpp Require Import base decidable option list strings numbers gmap.

#[local] Open Scope string_scope.
#[local] Open Scope Z_scope.

(** ** JavaScript built-ins used by the sources *)

Module JS.

(** Numbers that may leave the integers: [parseInt] of a malformed header is
    [NaN], a division by a zero limit is an infinity or [NaN]. *)
Inductive Number : Type :=
| Int (z : Z)
| NaN
| Infinity
| NegInfinity.

(** [Math.ceil(a / b)] for a number [a] and an integer [b]. *)
Definition Math_ceil_div (a : Number) (b : Z) : Number :=
  match a with
  | Int z =>
      if b =? 0 then
        if z =? 0 then NaN else if 0 <? z then Infinity else NegInfinity
      else Int (- ((- z) / b))
  | NaN => NaN
  | Infinity => if b <? 0 then NegInfinity else Infinity
  | NegInfinity => if b <? 0 then Infinity else NegInfinity
  end.

(** [p < n] for an integer [p]; any comparison with [NaN] is false. *)
Definition lt (p : Z) (n : Number) : bool :=
  match n with
  | Int z => p <? z
  | NaN => false
  | Infinity => true
  | NegInfinity => false
  end.

(** [String(n)], [n.toString()] and the interpolation of an integer. *)
Definition numberToString (z : Z) : string :=
  NilZero.string_of_int (Z.to_int z).

(** A string is truthy when it is not empty. *)
Definition truthy (s : string) : bool := negb (String.eqb s "").

Definition lowerChar (c : ascii) : ascii :=
  let n := nat_of_ascii c in
  if (Nat.leb 65 n && Nat.leb n 90)%bool then ascii_of_nat (n + 32) else c.

Fixpoint toLowerCase (s : string) : string :=
  match s with
  | EmptyString => EmptyString
  | String c s' => String (lowerChar c) (toLowerCase s')
  end.

(** [s.substring(0, n)] *)
Definition substring0 (n : nat) (s : string) : string := String.substring 0 n s.

(** [s.split(sep)] for a one-character separator. *)
Fixpoint split (sep : ascii) (s : string) : list string :=
  match s with
  | EmptyString => [EmptyString]
  | String c s' =>
      if Ascii.eqb c sep then EmptyString :: split sep s'
      else match split sep s' with
           | h :: t => String c h :: t
           | [] => [String c EmptyString]
           end
  end.

Definition isWhiteSpace (c : ascii) : bool :=
  let n := nat_of_ascii c in
  (Nat.eqb n 32 || (Nat.leb 9 n && Nat.leb n 13))%bool.

Fixpoint skipWhiteSpace (s : string) : string :=
  match s with
  | String c s' => if isWhiteSpace c then skipWhiteSpace s' else s
  | EmptyString => s
  end.

Definition digitValue (c : ascii) : option Z :=
  let n := nat_of_ascii c in
  if (Nat.leb 48 n && Nat.leb n 57)%bool then Some (Z.of_nat n - 48)
  else if (Nat.leb 97 n && Nat.leb n 122)%bool then Some (Z.of_nat n - 87)
  else if (Nat.leb 65 n && Nat.leb n 90)%bool then Some (Z.of_nat n - 55)
  else None.

(** The longest prefix of digits of the radix; [None] when it is empty. *)
Fixpoint parseDigits (radix : Z) (s : string) (acc : option Z) : option Z :=
  match s with
  | EmptyString => acc
  | String c s' =>
      match digitValue c with
      | Some d =>
          if d <? radix
          then parseDigits radix s' (Some (radix * default 0 acc + d))
          else acc
      | None => acc
      end
  end.

(** [parseInt(s)] without a radix argument: white space, a sign, an optional
    [0x] prefix, then digits. *)
Definition parseInt (s : string) : Number :=
  let s1 := skipWhiteSpace s in
  let '(sign, s2) :=
    match s1 with
    | String "-"%char r => (-1, r)
    | String "+"%char r => (1, r)
    | _ => (1, s1)
    end in
  let '(radix, s3) :=
    match s2 with
    | String "0"%char (String "x"%char r) => (16, r)
    | String "0"%char (String "X"%char r) => (16, r)
    | _ => (10, s2)
    end in
  match parseDigits radix s3 None with
  | Some n => Int (sign * n)
  | None => NaN
  end.

(** [parseInt(x)] where [x] may be [undefined]: the string "undefined" has
    no digits. *)
Definition parseInt_opt (x : option string) : Number :=
  match x with
  | Some s => parseInt s
  | None => NaN
  end.

Section Arrays.
Context {A : Type}.

(** [Array.prototype.slice(start, end)]: a negative index counts from the
    end, both indices are clamped to the array. *)
Definition relativeIndex (len k : Z) : Z :=
  if k <? 0 then Z.max (len + k) 0 else Z.min k len.

Definition slice (l : list A) (start end_ : Z) : list A :=
  let len := Z.of_nat (length l) in
  let k := relativeIndex len start in
  let final := relativeIndex len end_ in
  take (Z.to_nat (final - k)) (drop (Z.to_nat k) l).

(** [Array.prototype.findIndex]: the first index whose element satisfies the
    predicate, or -1. *)
Fixpoint findIndex (p : A -> bool) (l : list A) : Z :=
  match l with
  | [] => -1
  | x :: l' =>
      if p x then 0
      else let i := findIndex p l' in if i =? -1 then -1 else i + 1
  end.

(** [a[i]] for an integer index. *)
Definition get (l : list A) (i : Z) : option A :=
  if i <? 0 then None else l !! Z.to_nat i.

(** [a[i] = x] for an index inside the array. *)
Definition set_at (l : list A) (i : Z) (x : A) : list A :=
  if i <? 0 then l else <[Z.to_nat i := x]> l.

End Arrays.

(** [URLSearchParams]: an ordered list of name/value pairs. *)
Definition URLSearchParams := list (string * string).

(** [params.set(name, value)]: the first pair of that name takes the value
    and the other pairs of that name are removed; without such a pair one is
    appended. *)
Fixpoint URLSearchParams_set (name value : string) (params : URLSearchParams)
  : URLSearchParams :=
  match params with
  | [] => [(name, value)]
  | (k, v) :: rest =>
      if String.eqb k name
      then (k, value) :: List.filter (fun p => negb (String.eqb (fst p) name)) rest
      else (k, v) :: URLSearchParams_set name value rest
  end.

(** [params.getAll(name)] *)
Definition URLSearchParams_getAll (name : string) (params : URLSearchParams)
  : list string :=
  List.map snd (List.filter (fun p => String.eqb (fst p) name) params).

End JS.

(** ** Entities of [types]

    The declarations of [types] are not among the sources; the records below
    carry the fields that the sources read and write. An optional field is
    an [option]. *)

(** A [Date] as its accessors show it: epoch milliseconds and the calendar
    fields that [getUserActivityStats] compares. *)
Module Date.
Record t : Type := mk {
  getTime : Z;
  getFullYear : Z;
  getMonth : Z
}.
End Date.

(** Modelled from the spec: the enumeration [UserRole] of [types], which is
    not among the sources; the specification lists the roles user, organizer
    and admin. *)
Module UserRole.
Definition USER : string := "user".
Definition ORGANIZER : string := "organizer".
Definition ADMIN : string := "admin".
End UserRole.

Module User.
Record t : Type := mk {
  id : string;
  email : string;
  role : option string;
  fullName : option string;
  organizationName : option string;
  phone : option string;
  createdAt : Date.t;
  updatedAt : Date.t
}.
End User.

Inductive ActivityType : Type :=
| ACTIVITY
| EVENT
| HOBBY_OPPORTUNITY
| CLUB
| COMPETITION.

Module Category.
Record t : Type := mk {
  id : string;
  name : string;
  icon : option string;
  description : option string
}.
End Category.

Module Tag.
Record t : Type := mk {
  id : string;
  name : string;
  color : option string
}.
End Tag.

Module Activity.
Record t : Type := mk {
  id : string;
  title : string;
  description : string;
  shortDescription : option string;
  type : ActivityType;
  categoryId : string;
  category : option Category.t;
  location : string;
  address : option string;
  price : Z;
  currency : string;
  imageUrl : option string;
  userId : string;
  organizer : option User.t;
  tags : list Tag.t;
  startDate : option Date.t;
  endDate : option Date.t;
  maxParticipants : option Z;
  minAge : option Z;
  maxAge : option Z;
  contactEmail : option string;
  contactPhone : option string;
  externalLink : option string;
  isDeleted : bool;
  createdAt : Date.t;
  updatedAt : Date.t
}.
End Activity.

(** An uploaded image, known by its name only. *)
Inductive File : Type := mkFile (name : string).

Module ActivityFormData.
Record t : Type := mk {
  title : string;
  description : string;
  type : ActivityType;
  categoryId : string;
  location : string;
  address : option string;
  price : option Z;
  image : option File;
  tags : option (list string);
  startDate : option Date.t;
  endDate : option Date.t;
  maxParticipants : option Z;
  minAge : option Z;
  maxAge : option Z;
  contactEmail : option string;
  contactPhone : option string;
  externalLink : option string
}.
End ActivityFormData.

Module ActivityFilters.
Record t : Type := mk {
  type : option ActivityType;
  categoryId : option string;
  location : option string;
  minPrice : option Z;
  maxPrice : option Z;
  search : option string
}.
(** The default argument [{}] of [getActivities]. *)
Definition empty : t := mk None None None None None None.
End ActivityFilters.

(** ** The authorization gate: [ProtectedRoute.tsx] *)

Module ProtectedRoute.

(** What the component returns: the loading screen, a [<Navigate>] to a
    path, or its children. *)
Inductive Element : Type :=
| LoadingScreen
| Navigate (to : string)
| Children.

(** [requiredRole ? [requiredRole] : requiredRoles || []] *)
Definition rolesToCheck (requiredRoles : option (list string))
  (requiredRole : option string) : list string :=
  match requiredRole with
  | Some r => if JS.truthy r then [r] else default [] requiredRoles
  | None => default [] requiredRoles
  end.

(** The callback of [rolesToCheck.some]; [userRole] is
    [user.role?.toLowerCase()]. *)
Definition roleGrants (userRole : option string) (role : string) : bool :=
  let requiredRoleNormalized := JS.toLowerCase role in
  if bool_decide (userRole = Some "admin") then true
  else if (bool_decide (userRole = Some "organizer")
           && (String.eqb requiredRoleNormalized "organizer"
               || String.eqb requiredRoleNormalized "user"))%bool then true
  else bool_decide (userRole = Some requiredRoleNormalized).

Definition hasRequiredRole (user : User.t) (roles : list string) : bool :=
  let userRole := JS.toLowerCase <$> User.role user in
  existsb (roleGrants userRole) roles.

(** The component. [user] and [loading] are what [useAuth()] returns; the
    other arguments are the props, [redirectTo] defaulting to "/login". *)
Definition ProtectedRoute (user : option User.t) (loading : bool)
  (requiredRoles : option (list string)) (requiredRole : option string)
  (redirectTo : option string) : Element :=
  if loading then LoadingScreen
  else match user with
       | None => Navigate (default "/login" redirectTo)
       | Some u =>
           let roles := rolesToCheck requiredRoles requiredRole in
           if 0 <? Z.of_nat (length roles) then
             if negb (hasRequiredRole u roles) then Navigate "/unauthorized"
             else Children
           else Children
       end.

(** The decisions of the specification's gate. *)
Definition Render : Element := Children.
Definition RedirectToUnauthorized : Element := Navigate "/unauthorized".

(** The specification's formula for [allowed], word for word: the role is
    admin, or it is organizer and every required role is organizer or user,
    or it is one of the required roles; comparisons fold case. *)
Definition allowed_spec (role : option string) (requiredRoles : list string)
  : bool :=
  let r := JS.toLowerCase <$> role in
  let required := JS.toLowerCase <$> requiredRoles in
  (bool_decide (r = Some "admin")
   || (bool_decide (r = Some "organizer")
       && forallb (fun q => String.eqb q "organizer" || String.eqb q "user")
            required)
   || existsb (fun q => bool_decide (r = Some q)) required)%bool.

End ProtectedRoute.

(** ** Mock data: [api/mockData.ts] *)

Module MockData.

Definition date (time year month : Z) : Date.t := Date.mk time year month.

Definition mockCategories : list Category.t :=
  [ Category.mk "1" "Спорт и физическая активность" (Some "⚽")
      (Some "Спортивные мероприятия и активности");
    Category.mk "2" "Музыка и исполнительское искусство" (Some "🎵")
      (Some "Музыкальные мероприятия");
    Category.mk "3" "Ремесла и искусство" (Some "🎨")
      (Some "Творческие мастерские и курсы");
    Category.mk "4" "Наука и технологии" (Some "🔬")
      (Some "Научные и технические мероприятия");
    Category.mk "5" "Игры и киберспорт" (Some "🎮")
      (Some "Игровые турниры и события") ].

Definition mockTags : list Tag.t :=
  [ Tag.mk "1" "Бесплатно" (Some "#65FF81");
    Tag.mk "2" "Открыто для всех" (Some "#F5FF65");
    Tag.mk "3" "Подходит для начинающих" (Some "#73B3FF");
    Tag.mk "4" "Постоянное событие" (Some "#FF9473");
    Tag.mk "5" "Онлайн" (Some "#B473FF") ].

Definition mockUsers : list User.t :=
  [ User.mk "user-1" "organizer@example.com" (Some UserRole.ORGANIZER)
      (Some "Иван Петров") (Some "Спортивный клуб Энергия")
      (Some "+358401234567")
      (date 1705276800000 2024 0) (date 1705276800000 2024 0);
    User.mk "user-2" "admin@hobbly.fi" (Some UserRole.ADMIN)
      (Some "Анна Админова") (Some "Hobbly Technologies Oy")
      (Some "+358409876543")
      (date 1704067200000 2024 0) (date 1704067200000 2024 0) ].

(** The initial contents of the array [mockActivities]. Times are read in
    UTC. *)
Definition mockActivities : list Activity.t :=
  [ Activity.mk "activity-1" "Йога для начинающих"
      "Занятия йогой для людей без опыта. Включает базовые позы и дыхательные упражнения. Инструктор поможет освоить основы и создать правильную практику."
      (Some "Йога для новичков с базовыми позами")
      ACTIVITY "1" (mockCategories !! 0%nat) "Хельсинки"
      (Some "Центральный парк, павильон A") 15 "EUR"
      (Some "https://images.unsplash.com/photo-1544367567-0f2fcb009e0b?w=400")
      "user-1" (mockUsers !! 0%nat)
      (omap (fun i => mockTags !! i) [0%nat; 2%nat])
      (Some (date 1706810400000 2024 1)) (Some (date 1706815800000 2024 1))
      (Some 20) (Some 16) (Some 65)
      (Some "contact@energyclub.fi") (Some "+358401234567")
      (Some "https://energyclub.fi/yoga")
      false (date 1705314600000 2024 0) (date 1705314600000 2024 0);
    Activity.mk "activity-2" "Мастер-класс по керамике"
      "Изучите основы работы с глиной. Создайте свою первую керамическую посуду под руководством опытного мастера."
      (Some "Основы керамики и создание посуды")
      EVENT "3" (mockCategories !! 2%nat) "Тампере"
      (Some "Студия керамики, ул. Художников 15") 45 "EUR"
      (Some "https://images.unsplash.com/photo-1578662996442-48f60103fc96?w=400")
      "user-1" (mockUsers !! 0%nat)
      (omap (fun i => mockTags !! i) [2%nat; 4%nat])
      (Some (date 1707573600000 2024 1)) (Some (date 1707584400000 2024 1))
      (Some 12) (Some 18) None
      (Some "pottery@example.com") (Some "+358407654321")
      None
      false (date 1705760400000 2024 0) (date 1705760400000 2024 0);
    Activity.mk "activity-3" "Футбольный турнир для детей"
      "Дружеский турнир для юных футболистов 8-14 лет. Возможность попробовать свои силы в команде и найти новых друзей."
      (Some "Детский футбольный турнир 8-14 лет")
      COMPETITION "1" (mockCategories !! 0%nat) "Турку"
      (Some "Спортивный комплекс Турку, поле №3") 0 "EUR"
      (Some "https://images.unsplash.com/photo-1431324155629-1a6deb1dec8d?w=400")
      "user-1" (mockUsers !! 0%nat)
      (omap (fun i => mockTags !! i) [0%nat; 3%nat])
      (Some (date 1707991200000 2024 1)) (Some (date 1708012800000 2024 1))
      (Some 48) (Some 8) (Some 14)
      (Some "football@energyclub.fi") (Some "+358401234567")
      None
      false (date 1706174100000 2024 0) (date 1706174100000 2024 0);
    Activity.mk "activity-4" "Программирование для подростков"
      "Курс основ программирования на Python для подростков 13-17 лет. Изучим основы алгоритмов и создадим простые игры."
      (Some "Python для подростков 13-17 лет")
      CLUB "4" (mockCategories !! 3%nat) "Эспоо"
      (Some "IT-центр Эспоо, класс 201") 80 "EUR"
      (Some "https://images.unsplash.com/photo-1461749280684-dccba630e2f6?w=400")
      "user-2" (mockUsers !! 1%nat)
      (omap (fun i => mockTags !! i) [1%nat; 2%nat])
      (Some (date 1708444800000 2024 1)) (Some (date 1708452000000 2024 1))
      (Some 15) (Some 13) (Some 17)
      (Some "coding@hobbly.fi") (Some "+358409876543")
      (Some "https://hobbly.fi/coding-course")
      false (date 1706442300000 2024 0) (date 1706442300000 2024 0);
    Activity.mk "activity-5" "Игровой турнир по Counter-Strike"
      "Киберспортивный турнир по CS:GO для игроков всех уровней. Призы для победителей и отличная атмосфера."
      (Some "CS:GO турнир для всех уровней")
      COMPETITION "5" (mockCategories !! 4%nat) "Вантаа"
      (Some "Игровой центр Galaxy, зал 3") 25 "EUR"
      (Some "https://images.unsplash.com/photo-1542751371-adc38448a05e?w=400")
      "user-1" (mockUsers !! 0%nat)
      (omap (fun i => mockTags !! i) [1%nat; 4%nat])
      (Some (date 1709661600000 2024 2)) (Some (date 1709679600000 2024 2))
      (Some 32) (Some 16) None
      (Some "esports@energyclub.fi") (Some "+358401234567")
      None
      false (date 1706805000000 2024 1) (date 1706805000000 2024 1) ].

End MockData.

(** ** The activity directory client: [api/activities.api.ts] *)

Module ActivitiesApi.
Import MockData.

(** [new Error(message)] *)
Inductive Error : Type := mkError (message : string).

(** A settled promise. *)
Inductive Outcome (A : Type) : Type :=
| Resolved (value : A)
| Rejected (error : Error).
Arguments Resolved {A} value.
Arguments Rejected {A} error.

Definition USE_MOCK_DATA : bool := true.

Module RawActivityData.
Record t : Type := mk {
  id : string;
  title : string;
  description : string;
  short_description : option string;
  type : ActivityType;
  category_id : string;
  location : string;
  price : Z;
  currency : string;
  date_time : string;
  duration : Z;
  max_participants : Z;
  current_participants : Z;
  difficulty_level : string;
  is_active : bool;
  requires_equipment : bool;
  age_restriction : option Z;
  organizer_id : string;
  contact_email : string;
  contact_phone : option string;
  image_urls : option (list string);
  tags : option (list string);
  created_at : string;
  updated_at : string;
  categories : option (string * string);
  user_profiles : option (string * string * string)
}.
End RawActivityData.

(** The response of [apiClient.get]: the body and the headers. *)
Record Response : Type := mkResponse {
  data : option (list RawActivityData.t);
  headers : list (string * string)
}.

Definition header (name : string) (r : Response) : option string :=
  snd <$> List.find (fun p => String.eqb (fst p) name) (headers r).

(** What the client takes from its surroundings: [apiClient] and
    [buildPaginationConfig] of [./config], the string values of the
    enumeration [ActivityType], the parsing [new Date(string)] and
    [URL.createObjectURL]. *)
Class Collaborators : Type := {
  RequestConfig : Type;
  buildPaginationConfig : Z -> Z -> RequestConfig;
  apiClient_get : string -> JS.URLSearchParams -> RequestConfig -> Outcome Response;
  ActivityType_value : ActivityType -> string;
  Date_parse : string -> Date.t;
  createObjectURL : File -> string
}.

Record Pagination : Type := mkPagination {
  page : Z;
  limit : Z;
  total : JS.Number;
  totalPages : JS.Number;
  hasNext : bool;
  hasPrevious : bool
}.

Record Listing : Type := mkListing {
  activities : list Activity.t;
  pagination : Pagination
}.

Record Stats : Type := mkStats {
  total_activities : Z;
  active_activities : Z;
  pending_activities : Z;
  total_participants : Z;
  this_month_activities : Z
}.

(** The pagination object that both listings build from the total count. *)
Definition paginationOf (page limit : Z) (totalCount : JS.Number) : Pagination :=
  let totalPages := JS.Math_ceil_div totalCount limit in
  {| page := page;
     limit := limit;
     total := totalCount;
     totalPages := totalPages;
     hasNext := JS.lt page totalPages;
     hasPrevious := 1 <? page |}.

Section Client.
Context `{Collaborators}.

Definition transformRawActivity (now : Date.t) (rawData : RawActivityData.t)
  : Activity.t :=
  {| Activity.id := RawActivityData.id rawData;
     Activity.title := RawActivityData.title rawData;
     Activity.description := RawActivityData.description rawData;
     Activity.shortDescription := RawActivityData.short_description rawData;
     Activity.type := RawActivityData.type rawData;
     Activity.categoryId := RawActivityData.category_id rawData;
     Activity.category :=
       (fun c => Category.mk (fst c) (snd c) None None)
         <$> RawActivityData.categories rawData;
     Activity.location := RawActivityData.location rawData;
     Activity.address := None;
     Activity.price := RawActivityData.price rawData;
     Activity.currency := RawActivityData.currency rawData;
     Activity.imageUrl := RawActivityData.image_urls rawData ≫= head;
     Activity.userId := RawActivityData.organizer_id rawData;
     Activity.organizer :=
       (fun p => let '(id, full_name, email) := p in
                 User.mk id email (Some UserRole.ORGANIZER) (Some full_name)
                   None None now now)
         <$> RawActivityData.user_profiles rawData;
     Activity.tags :=
       (fun tagName => Tag.mk tagName tagName None)
         <$> default [] (RawActivityData.tags rawData);
     Activity.startDate := Some (Date_parse (RawActivityData.date_time rawData));
     Activity.endDate := None;
     Activity.maxParticipants := Some (RawActivityData.max_participants rawData);
     Activity.minAge := None;
     Activity.maxAge := None;
     Activity.contactEmail := Some (RawActivityData.contact_email rawData);
     Activity.contactPhone := RawActivityData.contact_phone rawData;
     Activity.externalLink := None;
     Activity.isDeleted := false;
     Activity.createdAt := Date_parse (RawActivityData.created_at rawData);
     Activity.updatedAt := Date_parse (RawActivityData.updated_at rawData) |}.

(** [if (x) queryParams.set(name, f(x))] for an optional string [x]. *)
Definition setIfTruthy (name : string) (x : option string)
  (value : string -> string) (q : JS.URLSearchParams) : JS.URLSearchParams :=
  match x with
  | Some s => if JS.truthy s then JS.URLSearchParams_set name (value s) q else q
  | None => q
  end.

(** The query parameters that [getActivities] has built when it calls
    [apiClient.get]. A value of the enumeration [ActivityType] is a
    non-empty string, hence truthy. *)
Definition getActivities_queryParams (filters : ActivityFilters.t)
  (page limit : Z) : JS.URLSearchParams :=
  let q := [] in
  let q := JS.URLSearchParams_set "select"
             "*,category:categories(*),organizer:users(full_name,organization_name,email)" q in
  let q := match ActivityFilters.type filters with
           | Some t => JS.URLSearchParams_set "type" ("eq." ++ ActivityType_value t) q
           | None => q
           end in
  let q := setIfTruthy "category_id" (ActivityFilters.categoryId filters)
             (fun s => "eq." ++ s) q in
  let q := setIfTruthy "location" (ActivityFilters.location filters)
             (fun s => "ilike.*" ++ s ++ "*") q in
  let q := match ActivityFilters.minPrice filters with
           | Some p => JS.URLSearchParams_set "price" ("gte." ++ JS.numberToString p) q
           | None => q
           end in
  let q := match ActivityFilters.maxPrice filters with
           | Some p => JS.URLSearchParams_set "price" ("lte." ++ JS.numberToString p) q
           | None => q
           end in
  let q := setIfTruthy "or" (ActivityFilters.search filters)
             (fun s => "(title.ilike.*" ++ s ++ "*,description.ilike.*" ++ s ++ "*)") q in
  let q := JS.URLSearchParams_set "is_deleted" "eq.false" q in
  let q := JS.URLSearchParams_set "order" "created_at.desc" q in
  let offset := (page - 1) * limit in
  let q := JS.URLSearchParams_set "limit" (JS.numberToString limit) q in
  let q := JS.URLSearchParams_set "offset" (JS.numberToString offset) q in
  q.

(** The listing built from a response: the transformed body and the
    pagination, whose total is read after the slash of the [Content-Range]
    header and is the number of returned activities without that header. *)
Definition listingOfResponse (now : Date.t) (page limit : Z)
  (response : Response) : Listing :=
  let activities :=
    default [] (List.map (transformRawActivity now) <$> data response) in
  let contentRange := header "content-range" response in
  let totalCount :=
    match contentRange with
    | Some cr =>
        if JS.truthy cr then JS.parseInt_opt (JS.split "/" cr !! 1%nat)
        else JS.Int (Z.of_nat (length activities))
    | None => JS.Int (Z.of_nat (length activities))
    end in
  {| activities := activities;
     pagination := paginationOf page limit totalCount |}.

Definition getActivities (now : Date.t) (filters : ActivityFilters.t)
  (page limit : Z) : Outcome Listing :=
  let queryParams := getActivities_queryParams filters page limit in
  let paginationConfig := buildPaginationConfig page limit in
  match apiClient_get "/activities" queryParams paginationConfig with
  | Resolved response => Resolved (listingOfResponse now page limit response)
  | Rejected error => Rejected error
  end.

Definition getActivityById (mockActivities : list Activity.t) (id : string)
  : Outcome Activity.t :=
  if USE_MOCK_DATA then
    match List.find (fun a => String.eqb (Activity.id a) id) mockActivities with
    | Some activity => Resolved activity
    | None => Rejected (mkError "Activity not found")
    end
  else Rejected (mkError "Real Supabase implementation not available yet").

Definition getUserActivities (now : Date.t) (mockActivities : list Activity.t)
  (organizerId : string) (page limit : Z) : Outcome Listing :=
  if USE_MOCK_DATA then
    let userActivities :=
      List.filter (fun activity =>
                     String.eqb (Activity.userId activity) organizerId
                     || String.eqb organizerId "current-user")
        mockActivities in
    let userActivities :=
      if Z.of_nat (length userActivities) =? 0 then mockActivities
      else userActivities in
    let offset := (page - 1) * limit in
    let paginatedActivities := JS.slice userActivities offset (offset + limit) in
    let totalCount := JS.Int (Z.of_nat (length userActivities)) in
    Resolved {| activities := paginatedActivities;
                pagination := paginationOf page limit totalCount |}
  else
    let q := [] in
    let q := JS.URLSearchParams_set "select"
               "*,category:categories(*),organizer:users(full_name,organization_name,email)" q in
    let q := JS.URLSearchParams_set "user_id" ("eq." ++ organizerId) q in
    let q := JS.URLSearchParams_set "order" "created_at.desc" q in
    let offset := (page - 1) * limit in
    let q := JS.URLSearchParams_set "limit" (JS.numberToString limit) q in
    let q := JS.URLSearchParams_set "offset" (JS.numberToString offset) q in
    let paginationConfig := buildPaginationConfig page limit in
    match apiClient_get "/activities" q paginationConfig with
    | Resolved response => Resolved (listingOfResponse now page limit response)
    | Rejected error => Rejected error
    end.

(** [createActivity] reads the clock three times: [dateNow] is the value of
    [Date.now()] that names the record, [created] and [updated] are the two
    [new Date()] of its time stamps, in the order of the object literal. *)
Definition createActivity (dateNow : Z) (created updated : Date.t)
  (mockActivities : list Activity.t)
  (formData : ActivityFormData.t) (organizerId : string)
  : Outcome Activity.t * list Activity.t :=
  if USE_MOCK_DATA then
    let newActivity : Activity.t :=
      {| Activity.id := "activity-" ++ JS.numberToString dateNow;
         Activity.title := ActivityFormData.title formData;
         Activity.description := ActivityFormData.description formData;
         Activity.shortDescription :=
           Some (JS.substring0 100 (ActivityFormData.description formData));
         Activity.type := ActivityFormData.type formData;
         Activity.categoryId := ActivityFormData.categoryId formData;
         Activity.category :=
           List.find (fun c => String.eqb (Category.id c)
                                 (ActivityFormData.categoryId formData))
             mockCategories;
         Activity.location := ActivityFormData.location formData;
         Activity.address := ActivityFormData.address formData;
         Activity.price := default 0 (ActivityFormData.price formData);
         Activity.currency := "EUR";
         Activity.imageUrl := createObjectURL <$> ActivityFormData.image formData;
         Activity.userId := organizerId;
         Activity.organizer :=
           List.find (fun u => String.eqb (User.id u) organizerId) mockUsers;
         Activity.tags :=
           match ActivityFormData.tags formData with
           | Some tids =>
               omap (fun tid =>
                       List.find (fun t => String.eqb (Tag.id t) tid) mockTags)
                 tids
           | None => []
           end;
         Activity.startDate := ActivityFormData.startDate formData;
         Activity.endDate := ActivityFormData.endDate formData;
         Activity.maxParticipants := ActivityFormData.maxParticipants formData;
         Activity.minAge := ActivityFormData.minAge formData;
         Activity.maxAge := ActivityFormData.maxAge formData;
         Activity.contactEmail := ActivityFormData.contactEmail formData;
         Activity.contactPhone := ActivityFormData.contactPhone formData;
         Activity.externalLink := ActivityFormData.externalLink formData;
         Activity.isDeleted := false;
         Activity.createdAt := created;
         Activity.updatedAt := updated |} in
    (Resolved newActivity, (mockActivities ++ [newActivity])%list)
  else
    (Rejected (mkError "Real Supabase implementation not available yet"),
     mockActivities).

Definition updateActivity (now : Date.t) (mockActivities : list Activity.t)
  (id : string) (formData : ActivityFormData.t) (organizerId : string)
  : Outcome Activity.t * list Activity.t :=
  if USE_MOCK_DATA then
    let activityIndex :=
      JS.findIndex (fun a => String.eqb (Activity.id a) id) mockActivities in
    if activityIndex =? -1 then
      (Rejected (mkError "Activity not found"), mockActivities)
    else
      match JS.get mockActivities activityIndex with
      | None =>
          (* not reached: findIndex returns -1 or an index of the array;
             reading [userId] of [undefined] would throw *)
          (Rejected (mkError "TypeError: Cannot read properties of undefined"),
           mockActivities)
      | Some existingActivity =>
          if negb (String.eqb (Activity.userId existingActivity) organizerId)
          then
            (Rejected
               (mkError "Access denied: You can only edit your own activities"),
             mockActivities)
          else
            let updatedActivity : Activity.t :=
              {| Activity.id := Activity.id existingActivity;
                 Activity.title := ActivityFormData.title formData;
                 Activity.description := ActivityFormData.description formData;
                 Activity.shortDescription :=
                   Some (JS.substring0 100
                           (ActivityFormData.description formData));
                 Activity.type := ActivityFormData.type formData;
                 Activity.categoryId := ActivityFormData.categoryId formData;
                 Activity.category :=
                   List.find (fun c => String.eqb (Category.id c)
                                         (ActivityFormData.categoryId formData))
                     mockCategories;
                 Activity.location := ActivityFormData.location formData;
                 Activity.address := ActivityFormData.address formData;
                 Activity.price := default 0 (ActivityFormData.price formData);
                 Activity.currency := Activity.currency existingActivity;
                 Activity.imageUrl :=
                   createObjectURL <$> ActivityFormData.image formData;
                 Activity.userId := Activity.userId existingActivity;
                 Activity.organizer := Activity.organizer existingActivity;
                 Activity.tags :=
                   match ActivityFormData.tags formData with
                   | Some tids =>
                       omap (fun tid =>
                               List.find (fun t => String.eqb (Tag.id t) tid)
                                 mockTags)
                         tids
                   | None => []
                   end;
                 Activity.startDate := ActivityFormData.startDate formData;
                 Activity.endDate := ActivityFormData.endDate formData;
                 Activity.maxParticipants :=
                   ActivityFormData.maxParticipants formData;
                 Activity.minAge := ActivityFormData.minAge formData;
                 Activity.maxAge := ActivityFormData.maxAge formData;
                 Activity.contactEmail := ActivityFormData.contactEmail formData;
                 Activity.contactPhone := ActivityFormData.contactPhone formData;
                 Activity.externalLink := ActivityFormData.externalLink formData;
                 Activity.isDeleted := Activity.isDeleted existingActivity;
                 Activity.createdAt := Activity.createdAt existingActivity;
                 Activity.updatedAt := now |} in
            (Resolved updatedActivity,
             JS.set_at mockActivities activityIndex updatedActivity)
      end
  else
    (Rejected (mkError "Real Supabase implementation not available yet"),
     mockActivities).

End Client.

(** [{ ...activity, isDeleted: true, updatedAt: new Date() }] *)
Definition markDeleted (now : Date.t) (activity : Activity.t) : Activity.t :=
  {| Activity.id := Activity.id activity;
     Activity.title := Activity.title activity;
     Activity.description := Activity.description activity;
     Activity.shortDescription := Activity.shortDescription activity;
     Activity.type := Activity.type activity;
     Activity.categoryId := Activity.categoryId activity;
     Activity.category := Activity.category activity;
     Activity.location := Activity.location activity;
     Activity.address := Activity.address activity;
     Activity.price := Activity.price activity;
     Activity.currency := Activity.currency activity;
     Activity.imageUrl := Activity.imageUrl activity;
     Activity.userId := Activity.userId activity;
     Activity.organizer := Activity.organizer activity;
     Activity.tags := Activity.tags activity;
     Activity.startDate := Activity.startDate activity;
     Activity.endDate := Activity.endDate activity;
     Activity.maxParticipants := Activity.maxParticipants activity;
     Activity.minAge := Activity.minAge activity;
     Activity.maxAge := Activity.maxAge activity;
     Activity.contactEmail := Activity.contactEmail activity;
     Activity.contactPhone := Activity.contactPhone activity;
     Activity.externalLink := Activity.externalLink activity;
     Activity.isDeleted := true;
     Activity.createdAt := Activity.createdAt activity;
     Activity.updatedAt := now |}.

Definition deleteActivity (now : Date.t) (mockActivities : list Activity.t)
  (id : string) (organizerId : string) : Outcome unit * list Activity.t :=
  if USE_MOCK_DATA then
    let activityIndex :=
      JS.findIndex (fun a => String.eqb (Activity.id a) id) mockActivities in
    if activityIndex =? -1 then
      (Rejected (mkError "Activity not found"), mockActivities)
    else
      match JS.get mockActivities activityIndex with
      | None =>
          (* not reached: findIndex returns -1 or an index of the array;
             reading [userId] of [undefined] would throw *)
          (Rejected (mkError "TypeError: Cannot read properties of undefined"),
           mockActivities)
      | Some activity =>
          if negb (String.eqb (Activity.userId activity) organizerId)
             && negb (String.eqb organizerId "admin-user")
          then
            (Rejected
               (mkError "You do not have permission to delete this activity"),
             mockActivities)
          else
            (Resolved tt,
             JS.set_at mockActivities activityIndex (markDeleted now activity))
      end
  else (Rejected (mkError "Real API not implemented yet"), mockActivities).

(** [getUserActivityStats] catches its own errors and resolves with zeros,
    so its promise always resolves; [random] is the value of
    [Math.random()]. *)
Definition getUserActivityStats (now : Date.t) (random : Q)
  (mockActivities : list Activity.t) (organizerId : string) : Stats :=
  if USE_MOCK_DATA then
    let userActivities :=
      List.filter (fun activity =>
                     String.eqb (Activity.userId activity) organizerId
                     || String.eqb organizerId "current-user")
        mockActivities in
    let activities :=
      if 0 <? Z.of_nat (length userActivities) then userActivities
      else mockActivities in
    let total := Z.of_nat (length activities) in
    let active :=
      Z.of_nat (length (List.filter (fun a => negb (Activity.isDeleted a))
                          activities)) in
    let thisMonth :=
      Z.of_nat (length (List.filter
                          (fun a =>
                             let activityDate := Activity.createdAt a in
                             (Date.getMonth activityDate =? Date.getMonth now)
                             && (Date.getFullYear activityDate
                                 =? Date.getFullYear now))
                          activities)) in
    {| total_activities := total;
       active_activities := active;
       pending_activities := 2;
       total_participants := Qfloor (random * 200) + 50;
       this_month_activities := thisMonth |}
  else
    {| total_activities := 0;
       active_activities := 0;
       pending_activities := 0;
       total_participants := 0;
       this_month_activities := 0 |}.

(** The error classes of the specification, as the messages thrown. *)
Definition NotFound : Error := mkError "Activity not found".
Definition PermissionDenied_update : Error :=
  mkError "Access denied: You can only edit your own activities".
Definition PermissionDenied_delete : Error :=
  mkError "You do not have permission to delete this activity".

End ActivitiesApi.

(** ** The page-number window of [Pagination]: [components/common/Table] *)

Module Table.

(** The loop [for (let i = start; i <= end; i++) pages.push(i)]; [fuel]
    bounds the number of iterations. *)
Fixpoint pushPages (fuel : nat) (i end_ : Z) (pages : list Z) : list Z :=
  match fuel with
  | O => pages
  | S fuel' =>
      if i <=? end_ then pushPages fuel' (i + 1) end_ (pages ++ [i])%list
      else pages
  end.

(** [getPageNumbers] of the component, [maxPageButtons] defaulting to 5.
    The loop runs [end - start + 1] times when that is positive, and not at
    all otherwise. *)
Definition getPageNumbers (currentPage totalPages maxPageButtons : Z) : list Z :=
  let pages := [] in
  let halfRange := maxPageButtons / 2 in
  let start := Z.max 1 (currentPage - halfRange) in
  let end_ := Z.min totalPages (start + maxPageButtons - 1) in
  let start :=
    if end_ - start + 1 <? maxPageButtons
    then Z.max 1 (end_ - maxPageButtons + 1)
    else start in
  pushPages (Z.to_nat (end_ - start + 1)) start end_ pages.

Definition defaultMaxPageButtons : Z := 5.

(** The [disabled] attributes of the Previous and Next buttons. *)
Definition previousDisabled (currentPage : Z) : bool := currentPage =? 1.
Definition nextDisabled (currentPage totalPages : Z) : bool :=
  currentPage =? totalPages.

End Table.

(** ** Vocabulary of the properties *)

Module Props.
Import ActivitiesApi.

(** [c] is the ceiling of [total / limit], for a positive [limit]. *)
Definition isCeiling (total limit c : Z) : Prop :=
  (c - 1) * limit < total <= c * limit.

(** The number of items on a 1-based page when [total] items are cut into
    pages of [limit]: [min(limit, total - (page - 1) * limit)], not below
    0. *)
Definition pageLength (total page limit : Z) : Z :=
  Z.max 0 (Z.min limit (total - (page - 1) * limit)).

(** What the gate computes with [some]: the role is admin, or it is
    organizer and one of the required roles is organizer or user, or it is
    one of the required roles; [userRole] is already in lower case. *)
Definition allowed (userRole : option string) (roles : list string) : Prop :=
  userRole = Some "admin"
  \/ (userRole = Some "organizer"
      /\ exists r, In r roles
           /\ (JS.toLowerCase r = "organizer" \/ JS.toLowerCase r = "user"))
  \/ (exists r, In r roles /\ userRole = Some (JS.toLowerCase r)).

(** The records of the store that [organizerId] owns. *)
Definition ownedBy (organizerId : string) (store : list Activity.t)
  : list Activity.t :=
  List.filter (fun a => String.eqb (Activity.userId a) organizerId) store.

(** The stored record that an operation on [id] addresses: the first one
    with that id, as [findIndex] and [find] select it. *)
Definition stored (id : string) (store : list Activity.t) : option Activity.t :=
  List.find (fun a => String.eqb (Activity.id a) id) store.

(** The records that the owner's listing pages over: every record for the
    literal id current-user, else the owner's records, or every record when
    the owner has none. *)
Definition selectedFor (organizerId : string) (store : list Activity.t)
  : list Activity.t :=
  if String.eqb organizerId "current-user" then store
  else match ownedBy organizerId store with
       | [] => store
       | owned => owned
       end.

(** The character [c] occurs in [s]. *)
Fixpoint occurs (c : ascii) (s : string) : bool :=
  match s with
  | EmptyString => false
  | String c' s' => Ascii.eqb c' c || occurs c s'
  end.

(** The listing that pages over the records [selected]. *)
Definition pageOver (selected : list Activity.t) (page limit : Z) : Listing :=
  {| activities := JS.slice selected ((page - 1) * limit) ((page - 1) * limit + limit);
     pagination := paginationOf page limit (JS.Int (Z.of_nat (length selected))) |}.

End Props.

(** ** Concrete surroundings and inputs for the examples *)

Module Examples.
Import ActivitiesApi.

Definition typeValue (t : ActivityType) : string :=
  match t with
  | ACTIVITY => "activity"
  | EVENT => "event"
  | HOBBY_OPPORTUNITY => "hobby_opportunity"
  | CLUB => "club"
  | COMPETITION => "competition"
  end.

Definition epoch : Date.t := Date.mk 0 1970 0.

(** A backend that answers every request with the given outcome. *)
Definition backend (answer : Outcome Response) : Collaborators :=
  {| RequestConfig := unit;
     buildPaginationConfig := fun _ _ => tt;
     apiClient_get := fun _ _ _ => answer;
     ActivityType_value := typeValue;
     Date_parse := fun _ => epoch;
     createObjectURL := fun f => match f with mkFile name => "blob:" ++ name end |}.

Definition offline : Collaborators := backend (Rejected (mkError "Network Error")).

Definition rawYoga : RawActivityData.t :=
  {| RawActivityData.id := "a-2";
     RawActivityData.title := "Yoga Basics";
     RawActivityData.description := "Yoga for beginners";
     RawActivityData.short_description := None;
     RawActivityData.type := ACTIVITY;
     RawActivityData.category_id := "1";
     RawActivityData.location := "Helsinki";
     RawActivityData.price := 15;
     RawActivityData.currency := "EUR";
     RawActivityData.date_time := "2024-02-01T18:00:00Z";
     RawActivityData.duration := 90;
     RawActivityData.max_participants := 20;
     RawActivityData.current_participants := 0;
     RawActivityData.difficulty_level := "beginner";
     RawActivityData.is_active := true;
     RawActivityData.requires_equipment := false;
     RawActivityData.age_restriction := None;
     RawActivityData.organizer_id := "user-1";
     RawActivityData.contact_email := "contact@energyclub.fi";
     RawActivityData.contact_phone := None;
     RawActivityData.image_urls := None;
     RawActivityData.tags := None;
     RawActivityData.created_at := "2024-01-15T10:30:00Z";
     RawActivityData.updated_at := "2024-01-15T10:30:00Z";
     RawActivityData.categories := None;
     RawActivityData.user_profiles := None |}.

(** A backend that returns one record and no [Content-Range] header. *)
Definition headerless : Collaborators :=
  backend (Resolved {| data := Some [rawYoga]; headers := [] |}).

(** A backend that returns one record and the header of items 3-3 of 4. *)
Definition ranged : Collaborators :=
  backend (Resolved {| data := Some [rawYoga];
                       headers := [("content-range", "3-3/4")] |}).

Definition march2024 : Date.t := Date.mk 1710000000000 2024 2.
Definition april2024 : Date.t := Date.mk 1712000000000 2024 3.

Definition organizerUser : User.t :=
  User.mk "user-1" "organizer@example.com" (Some "organizer") None None None
    epoch epoch.

Definition chessForm : ActivityFormData.t :=
  {| ActivityFormData.title := "Chess club";
     ActivityFormData.description := "Weekly chess evenings";
     ActivityFormData.type := CLUB;
     ActivityFormData.categoryId := "5";
     ActivityFormData.location := "Espoo";
     ActivityFormData.address := None;
     ActivityFormData.price := None;
     ActivityFormData.image := None;
     ActivityFormData.tags := Some ["1"; "9"];
     ActivityFormData.startDate := None;
     ActivityFormData.endDate := None;
     ActivityFormData.maxParticipants := Some 16;
     ActivityFormData.minAge := None;
     ActivityFormData.maxAge := None;
     ActivityFormData.contactEmail := None;
     ActivityFormData.contactPhone := None;
     ActivityFormData.externalLink := None |}.

Definition priceRange : ActivityFilters.t :=
  {| ActivityFilters.type := None;
     ActivityFilters.categoryId := None;
     ActivityFilters.location := None;
     ActivityFilters.minPrice := Some 10;
     ActivityFilters.maxPrice := Some 50;
     ActivityFilters.search := None |}.

End Examples.

(** ** The routes of [App.tsx] *)

Module App.

(** The element of the route [/admin/*]: the admin panel behind
    [<ProtectedRoute requiredRole="organizer">]. *)
Definition adminRoute (user : option User.t) (loading : bool)
  : ProtectedRoute.Element :=
  ProtectedRoute.ProtectedRoute user loading None (Some "organizer") None.

End App.

(** ** The side bar: [components/layout/Sidebar/Sidebar.tsx] *)

Module Sidebar.

Record MenuItem : Type := mkMenuItem {
  id : string;
  label : string;
  icon : string;
  path : string;
  isBottom : option bool
}.

Definition defaultMenuItems : list MenuItem :=
  [ mkMenuItem "dashboard" "Dashboard" "dashboard" "/admin/dashboard" None;
    mkMenuItem "activities" "Activities" "activities" "/admin/activities" None;
    mkMenuItem "users" "Users" "user" "/admin/users" None;
    mkMenuItem "personal" "Personal info" "user" "/admin/personal-info" None ].

Definition bottomMenuItems : list MenuItem :=
  [ mkMenuItem "trash" "Trash bin" "trash" "/admin/trash" (Some true) ].

(** [isActive(path)]; [pathname] is [location.pathname]. *)
Definition isActive (pathname path : string) : bool :=
  String.eqb pathname path || String.prefix (path ++ "/") pathname.

(** The items that the side bar renders, top section first, and those it
    highlights. *)
Definition renderedItems (menuItems : option (list MenuItem)) : list MenuItem :=
  (default defaultMenuItems menuItems ++ bottomMenuItems)%list.

Definition activeItems (pathname : string) (menuItems : option (list MenuItem))
  : list MenuItem :=
  List.filter (fun item => isActive pathname (path item))
    (renderedItems menuItems).

End Sidebar.

(** ** The activities page: [pages/Activities/Activities.tsx] *)

Module ActivitiesPage.
Import ActivitiesApi.

(** [ActivityStatus] *)
Module Status.
Inductive t : Type :=
| Approved
| Pending
| Rejected.
End Status.

Record ActivityDisplay : Type := mkDisplay {
  id : string;
  category : string;
  type : string;
  date : string;
  address : string;
  price : string;
  status : Status.t;
  icon : option string
}.

Definition getActivityTypeIcon (t : ActivityType) : string :=
  match t with
  | CLUB => "👥"
  | EVENT => "🎉"
  | COMPETITION => "🏆"
  | ACTIVITY => "📅"
  | HOBBY_OPPORTUNITY => "⭐"
  end.

Definition getActivityTypeDisplayName (t : ActivityType) : string :=
  match t with
  | CLUB => "Клуб"
  | EVENT => "Мероприятие"
  | COMPETITION => "Соревнование"
  | ACTIVITY => "Активность"
  | HOBBY_OPPORTUNITY => "Возможность"
  end.

(** [x || fallback] for an optional string [x]. *)
Definition orElse (x : option string) (fallback : string) : string :=
  match x with
  | Some s => if JS.truthy s then s else fallback
  | None => fallback
  end.

(** The state of the component, one field per [useState]. *)
Record State : Type := mkState {
  activities : list ActivityDisplay;
  rawActivities : list Activity.t;
  currentPage : Z;
  totalPages : JS.Number;
  isLoading : bool;
  logoutLoading : bool;
  error : string;
  searchQuery : string;
  filters : ActivityFilters.t
}.

Definition initialState : State :=
  {| activities := [];
     rawActivities := [];
     currentPage := 1;
     totalPages := JS.Int 1;
     isLoading := true;
     logoutLoading := false;
     error := "";
     searchQuery := "";
     filters := ActivityFilters.empty |}.

Section Page.
Context `{Collaborators}.
(** [date.toLocaleDateString('ru-RU')] *)
Variable toLocaleDateString : Date.t -> string.

Definition transformActivityForDisplay (activity : Activity.t)
  : ActivityDisplay :=
  {| id := Activity.id activity;
     category := orElse (Category.name <$> Activity.category activity)
                   "Без категории";
     type := getActivityTypeDisplayName (Activity.type activity);
     date := orElse (toLocaleDateString <$> Activity.startDate activity) "TBA";
     address := Activity.location activity;
     price := if 0 <? Activity.price activity
              then JS.numberToString (Activity.price activity) ++ "€"
              else "Бесплатно";
     status := if Activity.isDeleted activity then Status.Rejected
               else Status.Approved;
     icon := Some (getActivityTypeIcon (Activity.type activity)) |}.

(** [user?.id], when truthy. *)
Definition userId (user : option User.t) : option string :=
  match user with
  | Some u => if JS.truthy (User.id u) then Some (User.id u) else None
  | None => None
  end.

(** [loadActivities], from its call to the state after its [finally]. *)
Definition loadActivities (now : Date.t) (user : option User.t)
  (mockActivities : list Activity.t) (st : State) : State :=
  match userId user with
  | None => st
  | Some uid =>
      match getUserActivities now mockActivities uid (currentPage st) 5 with
      | Resolved result =>
          {| activities :=
               List.map transformActivityForDisplay
                 (ActivitiesApi.activities result);
             rawActivities := ActivitiesApi.activities result;
             currentPage := currentPage st;
             totalPages := ActivitiesApi.totalPages (pagination result);
             isLoading := false;
             logoutLoading := logoutLoading st;
             error := "";
             searchQuery := searchQuery st;
             filters := filters st |}
      | Rejected (mkError message) =>
          {| activities := activities st;
             rawActivities := rawActivities st;
             currentPage := currentPage st;
             totalPages := totalPages st;
             isLoading := false;
             logoutLoading := logoutLoading st;
             error := orElse (Some message) "Ошибка загрузки активностей";
             searchQuery := searchQuery st;
             filters := filters st |}
      end
  end.

Definition setCurrentPage (page : Z) (st : State) : State :=
  {| activities := activities st;
     rawActivities := rawActivities st;
     currentPage := page;
     totalPages := totalPages st;
     isLoading := isLoading st;
     logoutLoading := logoutLoading st;
     error := error st;
     searchQuery := searchQuery st;
     filters := filters st |}.

(** [handlePageChange]: it sets the page number and loads nothing. *)
Definition handlePageChange (page : Z) (st : State) : State :=
  setCurrentPage page st.




(** [handleDeleteActivity]; [confirmed] is the answer to [window.confirm],
    [now] the time of the deletion and [now'] that of the reload. *)
Definition handleDeleteActivity (now now' : Date.t) (user : option User.t)
  (confirmed : bool) (mockActivities : list Activity.t)
  (activityId : string) (st : State) : State * list Activity.t :=
  match userId user with
  | None => (st, mockActivities)
  | Some uid =>
      if confirmed then
        match deleteActivity now mockActivities activityId uid with
        | (Resolved _, store) => (loadActivities now' user store st, store)
        | (Rejected (mkError message), store) =>
            ({| activities := activities st;
                rawActivities := rawActivities st;
                currentPage := currentPage st;
                totalPages := totalPages st;
                isLoading := false;
                logoutLoading := logoutLoading st;
                error := orElse (Some message) "Ошибка удаления активности";
                searchQuery := searchQuery st;
                filters := filters st |},
             store)
        end
      else (st, mockActivities)
  end.

(** The condition under which the page renders [<Pagination>], and the
    page numbers it then shows. *)
Definition showsPagination (st : State) : bool :=
  negb (isLoading st) && (0 <? Z.of_nat (length (activities st))).

End Page.
End ActivitiesPage.

(** ** More vocabulary *)

Module Props2.
Import ActivitiesApi.

(** The items of pages [first], [first + 1], ... ([count] pages) of the
    owner's listing, one after the other. *)
Fixpoint itemsOfPages `{Collaborators} (now : Date.t)
  (store : list Activity.t) (organizerId : string) (limit : Z)
  (first : Z) (count : nat) : list Activity.t :=
  match count with
  | O => []
  | S count' =>
      (match getUserActivities now store organizerId first limit with
       | Resolved l => activities l
       | Rejected _ => []
       end ++ itemsOfPages now store organizerId limit (first + 1) count')%list
  end.

(** Two activities that differ at most in [isDeleted] and [updatedAt]. *)
Definition sameButDeletion (a b : Activity.t) : Prop :=
  b = {| Activity.id := Activity.id a;
         Activity.title := Activity.title a;
         Activity.description := Activity.description a;
         Activity.shortDescription := Activity.shortDescription a;
         Activity.type := Activity.type a;
         Activity.categoryId := Activity.categoryId a;
         Activity.category := Activity.category a;
         Activity.location := Activity.location a;
         Activity.address := Activity.address a;
         Activity.price := Activity.price a;
         Activity.currency := Activity.currency a;
         Activity.imageUrl := Activity.imageUrl a;
         Activity.userId := Activity.userId a;
         Activity.organizer := Activity.organizer a;
         Activity.tags := Activity.tags a;
         Activity.startDate := Activity.startDate a;
         Activity.endDate := Activity.endDate a;
         Activity.maxParticipants := Activity.maxParticipants a;
         Activity.minAge := Activity.minAge a;
         Activity.maxAge := Activity.maxAge a;
         Activity.contactEmail := Activity.contactEmail a;
         Activity.contactPhone := Activity.contactPhone a;
         Activity.externalLink := Activity.externalLink a;
         Activity.isDeleted := Activity.isDeleted b;
         Activity.createdAt := Activity.createdAt a;
         Activity.updatedAt := Activity.updatedAt b |}.

End Props2.

(** ** Text typed into the forms: strings of UTF-16 code units

    A JavaScript string is a sequence of 16-bit code units; [length],
    [trim], [===] and the character classes of a regular expression without
    the [u] flag all work on code units. The text of the sign-up and login
    forms is modelled as such a sequence, so that a letter outside ASCII
    counts for one unit (two for a surrogate pair), as it does in the
    browser. *)

Module UTF16.

Definition t : Type := list Z.

(** The code unit of an ASCII character, and the string of an ASCII
    literal of the sources. *)
Definition code (c : ascii) : Z := Z.of_nat (nat_of_ascii c).

Definition ofAscii (s : string) : t := code <$> list_ascii_of_string s.

(** [s.length] *)
Definition length (s : t) : Z := Z.of_nat (List.length s).

(** A string is truthy when it is not empty. *)
Definition truthy (s : t) : bool :=
  match s with
  | [] => false
  | _ :: _ => true
  end.

(** [s === s'] *)
Definition eqb (s s' : t) : bool := bool_decide (s = s').

(** The white space and the line terminators of ECMAScript, which [trim]
    strips and [\s] matches: TAB, LF, VT, FF, CR, SP, NBSP, U+1680,
    U+2000 to U+200A, LS, PS, U+202F, U+205F, U+3000 and ZWNBSP. *)
Definition isWhiteSpace (c : Z) : bool :=
  ((9 <=? c) && (c <=? 13))
  || (c =? 32) || (c =? 160) || (c =? 5760)
  || ((8192 <=? c) && (c <=? 8202))
  || (c =? 8232) || (c =? 8233) || (c =? 8239) || (c =? 8287)
  || (c =? 12288) || (c =? 65279).

(** [s.trimStart()], [s.trimEnd()] and [s.trim()] *)
Fixpoint trimStart (s : t) : t :=
  match s with
  | c :: s' => if isWhiteSpace c then trimStart s' else s
  | [] => []
  end.

Fixpoint trimEnd (s : t) : t :=
  match s with
  | [] => []
  | c :: s' =>
      match trimEnd s' with
      | [] => if isWhiteSpace c then [] else [c]
      | rest => c :: rest
      end
  end.

Definition trim (s : t) : t := trimEnd (trimStart s).

(** [\d] *)
Definition isDigit (c : Z) : bool := (48 <=? c) && (c <=? 57).

(** [s.replace(/[class]/g, '')] *)
Definition removeAll (class : Z -> bool) (s : t) : t :=
  List.filter (fun c => negb (class c)) s.

(** [/[class]/.test(s)]: some code unit of [s] is in the class. *)
Definition containsClass (class : Z -> bool) (s : t) : bool :=
  existsb class s.

End UTF16.

(** ** More built-ins: searching in a message *)

Module JSMore.

(** [s.includes(pattern)] *)
Fixpoint includes (pattern s : string) : bool :=
  String.prefix pattern s
  || match s with
     | EmptyString => false
     | String _ s' => includes pattern s'
     end.

End JSMore.

(** Regular expressions over code units, matched by derivatives. A pattern
    written between [^] and [$] must match the whole string. *)
Module Regex.

Inductive t : Type :=
| Fail
| Eps
| Class (class : Z -> bool)
| Seq (r s : t)
| Alt (r s : t)
| Star (r : t).

Fixpoint nullable (r : t) : bool :=
  match r with
  | Fail => false
  | Eps => true
  | Class _ => false
  | Seq r s => nullable r && nullable s
  | Alt r s => nullable r || nullable s
  | Star _ => true
  end.

Fixpoint deriv (c : Z) (r : t) : t :=
  match r with
  | Fail => Fail
  | Eps => Fail
  | Class class => if class c then Eps else Fail
  | Seq r s =>
      if nullable r then Alt (Seq (deriv c r) s) (deriv c s)
      else Seq (deriv c r) s
  | Alt r s => Alt (deriv c r) (deriv c s)
  | Star r => Seq (deriv c r) (Star r)
  end.

(** [/^r$/.test(s)] *)
Fixpoint test (r : t) (s : UTF16.t) : bool :=
  match s with
  | [] => nullable r
  | c :: s' => test (deriv c r) s'
  end.

Definition char (c : ascii) : t := Class (Z.eqb (UTF16.code c)).
(** [r+], [r?] and [r{1,n+1}] *)
Definition plus (r : t) : t := Seq r (Star r).
Definition opt (r : t) : t := Alt Eps r.
Fixpoint upTo (n : nat) (r : t) : t :=
  match n with
  | O => Eps
  | S n' => opt (Seq r (upTo n' r))
  end.

(** [[^\s@]] *)
Definition notSpaceNorAt (c : Z) : bool :=
  negb (UTF16.isWhiteSpace c || (c =? UTF16.code "@")).

(** [/^[^\s@]+@[^\s@]+\.[^\s@]+$/], the pattern of both forms for an
    email address. *)
Definition emailRegex : t :=
  Seq (plus (Class notSpaceNorAt))
    (Seq (char "@")
       (Seq (plus (Class notSpaceNorAt))
          (Seq (char ".") (plus (Class notSpaceNorAt))))).

(** [/^[+]?[1-9]\d{1,14}$/] *)
Definition phoneRegex : t :=
  Seq (opt (char "+"))
    (Seq (Class (fun c => UTF16.isDigit c && negb (c =? UTF16.code "0")))
       (Seq (Class UTF16.isDigit) (upTo 13 (Class UTF16.isDigit)))).

End Regex.

(** ** The sign-up form: [pages/SignUp] *)

Module SignUp.

Record FormData : Type := mkForm {
  fullName : UTF16.t;
  email : UTF16.t;
  password : UTF16.t;
  confirmPassword : UTF16.t;
  organizationName : option UTF16.t;
  phone : UTF16.t;
  agreeToTerms : bool;
  address : UTF16.t;
  phoneNumber : UTF16.t;
  organizationAddress : UTF16.t;
  organizationNumber : UTF16.t;
  profilePhoto : option File
}.

(** [newErrors]: a message per field that failed. *)
Record Errors : Type := mkErrors {
  fullNameError : option string;
  emailError : option string;
  passwordError : option string;
  confirmPasswordError : option string;
  phoneNumberError : option string;
  organizationNameError : option string;
  agreeToTermsError : option string
}.

(** The class of special characters in the password pattern; the double
    quote is given by its code, 34. *)
Definition isSpecial (c : Z) : bool :=
  existsb (Z.eqb c) (UTF16.ofAscii "!@#$%^&*()_+-=[]{};':\|,.<>/?")
  || (c =? 34).

(** [[\s\-()]] *)
Definition isPhoneSeparator (c : Z) : bool :=
  UTF16.isWhiteSpace c
  || (c =? UTF16.code "-") || (c =? UTF16.code "(") || (c =? UTF16.code ")").

Definition validationErrors (formData : FormData) : Errors :=
  {| fullNameError :=
       if negb (UTF16.truthy (UTF16.trim (fullName formData)))
       then Some "Full name is required"
       else if UTF16.length (UTF16.trim (fullName formData)) <? 2
       then Some "Full name must be at least 2 characters"
       else None;
     emailError :=
       if negb (UTF16.truthy (UTF16.trim (email formData)))
       then Some "Email is required"
       else if negb (Regex.test Regex.emailRegex (email formData))
       then Some "Please enter a valid email address"
       else None;
     passwordError :=
       if negb (UTF16.truthy (password formData))
       then Some "Password is required"
       else if UTF16.length (password formData) <? 8
       then Some "Password must be at least 8 characters"
       else if negb (UTF16.containsClass UTF16.isDigit (password formData))
       then Some "Password must contain at least one number"
       else if negb (UTF16.containsClass isSpecial (password formData))
       then Some "Password must contain at least one special character"
       else None;
     confirmPasswordError :=
       if negb (UTF16.truthy (confirmPassword formData))
       then Some "Confirm password is required"
       else if negb (UTF16.eqb (password formData) (confirmPassword formData))
       then Some "Passwords do not match"
       else None;
     phoneNumberError :=
       if UTF16.truthy (phoneNumber formData)
          && UTF16.truthy (UTF16.trim (phoneNumber formData))
       then
         if negb (Regex.test Regex.phoneRegex
                    (UTF16.removeAll isPhoneSeparator (phoneNumber formData)))
         then Some "Please enter a valid phone number"
         else None
       else None;
     organizationNameError :=
       let hasOrgData :=
         UTF16.truthy (organizationAddress formData)
         || UTF16.truthy (organizationNumber formData) in
       if hasOrgData
          && match organizationName formData with
             | Some name => negb (UTF16.truthy name)
                            || negb (UTF16.truthy (UTF16.trim name))
             | None => true
             end
       then Some "Organization name is required when providing organization details"
       else None;
     agreeToTermsError :=
       if negb (agreeToTerms formData)
       then Some "You must agree to the Terms of Service to continue"
       else None |}.

(** [Object.keys(newErrors).length === 0] *)
Definition noErrors (errors : Errors) : bool :=
  match errors with
  | mkErrors None None None None None None None => true
  | _ => false
  end.

(** [validateForm]: the errors it sets and the boolean it returns. *)
Definition validateForm (formData : FormData) : Errors * bool :=
  let newErrors := validationErrors formData in
  (newErrors, noErrors newErrors).

(** The argument of [signUp]. *)
Record SignUpData : Type := mkData {
  dataFullName : UTF16.t;
  dataEmail : UTF16.t;
  dataPassword : UTF16.t;
  dataConfirmPassword : UTF16.t;
  dataPhone : option UTF16.t;
  dataOrganizationName : option UTF16.t;
  dataAgreeToTerms : bool
}.

(** [x || undefined] for a string [x]. *)
Definition orUndefined (x : UTF16.t) : option UTF16.t :=
  if UTF16.truthy x then Some x else None.

(** [handleSubmit] up to its call of [signUp]: the data it passes, or
    nothing when the validation fails and [signUp] is not called.
    [toLowerCase] is the built-in [String.prototype.toLowerCase], whose
    Unicode case mapping is left to the surroundings. *)
Definition handleSubmit_request (toLowerCase : UTF16.t -> UTF16.t)
  (formData : FormData) : option SignUpData :=
  if negb (snd (validateForm formData)) then None
  else Some {| dataFullName := UTF16.trim (fullName formData);
               dataEmail := toLowerCase (UTF16.trim (email formData));
               dataPassword := password formData;
               dataConfirmPassword := confirmPassword formData;
               dataPhone := orUndefined (UTF16.trim (phoneNumber formData));
               dataOrganizationName :=
                 organizationName formData
                   ≫= (fun name => orUndefined (UTF16.trim name));
               dataAgreeToTerms := agreeToTerms formData |}.

End SignUp.

(** ** The login form: [pages/Login/Login.tsx] *)

Module Login.
Import ActivitiesApi.

Record FormData : Type := mkForm {
  email : UTF16.t;
  password : UTF16.t;
  rememberMe : bool
}.

Record State : Type := mkState {
  formData : FormData;
  isLoading : bool;
  error : string
}.

Definition initialState : State :=
  {| formData := mkForm [] [] false; isLoading := false; error := "" |}.

(** The message shown for an error of [signIn]. *)
Definition errorMessageOf (message : string) : string :=
  if JSMore.includes "Invalid login credentials" message
  then "Invalid email or password"
  else if JSMore.includes "Email not confirmed" message
  then "Please check your email and confirm your account"
  else if JSMore.includes "Too many requests" message
  then "Too many login attempts. Please try again later"
  else if JS.truthy message then message
  else "An error occurred during login".

(** [handleSubmit]; [signIn] is the operation of the authentication context
    and [localStorage] the storage of the browser, from the keys that the
    form uses to the strings stored under them. *)
Definition handleSubmit (signIn : UTF16.t -> UTF16.t -> Outcome unit)
  (localStorage : gmap string UTF16.t) (st : State)
  : State * gmap string UTF16.t :=
  let form := formData st in
  if negb (UTF16.truthy (email form)) || negb (UTF16.truthy (password form))
  then
    ({| formData := form; isLoading := isLoading st;
        error := "Please fill in all fields" |}, localStorage)
  else if negb (Regex.test Regex.emailRegex (email form)) then
    ({| formData := form; isLoading := isLoading st;
        error := "Please enter a valid email address" |}, localStorage)
  else
    match signIn (email form) (password form) with
    | Resolved _ =>
        ({| formData := form; isLoading := false; error := "" |},
         if rememberMe form
         then <["hobbly_email" := email form]>
                (<["hobbly_remember_me" := UTF16.ofAscii "true"]> localStorage)
         else delete "hobbly_email" (delete "hobbly_remember_me" localStorage))
    | Rejected (mkError message) =>
        ({| formData := form; isLoading := false;
            error := errorMessageOf message |}, localStorage)
    end.

(** The effect that runs when the form mounts. *)
Definition loadRemembered (localStorage : gmap string UTF16.t) (st : State)
  : State :=
  let rememberMe := localStorage !! "hobbly_remember_me" in
  let savedEmail := localStorage !! "hobbly_email" in
  match savedEmail with
  | Some saved =>
      if bool_decide (rememberMe = Some (UTF16.ofAscii "true"))
         && UTF16.truthy saved
      then {| formData := mkForm saved (password (formData st)) true;
              isLoading := isLoading st;
              error := error st |}
      else st
  | None => st
  end.

End Login.

(** ** The authentication context: [contexts/AuthContext] *)

Module AuthContext.
Import ActivitiesApi.

(** The user of the authentication service, with the fields that the mock
    user fills. *)
Record SessionUser : Type := mkSessionUser {
  id : string;
  aud : string;
  role : string;
  email : string;
  email_confirmed_at : string;
  phone : string;
  confirmed_at : string;
  last_sign_in_at : string;
  app_metadata : string * list string;
  user_metadata : string * string * string;
  identities : list unit;
  created_at : string;
  updated_at : string
}.

(** A row of [user_profiles]. *)
Record Profile : Type := mkProfile {
  profile_id : string;
  profile_email : string;
  profile_role : option string;
  full_name : option string;
  organization_name : option string;
  profile_phone : option string;
  profile_created_at : string;
  profile_updated_at : string
}.

(** [nowISO] is [new Date().toISOString()]. *)
Definition MOCK_USER (nowISO : string) : SessionUser :=
  {| id := "user-1";
     aud := "authenticated";
     role := "authenticated";
     email := "organizer@example.com";
     email_confirmed_at := "2024-01-15T00:00:00Z";
     phone := "+358401234567";
     confirmed_at := "2024-01-15T00:00:00Z";
     last_sign_in_at := nowISO;
     app_metadata := ("email", ["email"]);
     user_metadata := ("Иван Петров", "Спортивный клуб Энергия", "organizer");
     identities := [];
     created_at := "2024-01-15T00:00:00Z";
     updated_at := nowISO |}.

Definition MOCK_PROFILE (nowISO : string) : Profile :=
  {| profile_id := "user-1";
     profile_email := "organizer@example.com";
     profile_role := Some "organizer";
     full_name := Some "Иван Петров";
     organization_name := Some "Спортивный клуб Энергия";
     profile_phone := Some "+358401234567";
     profile_created_at := "2024-01-15T00:00:00Z";
     profile_updated_at := nowISO |}.

(** The three pieces of state of [AuthProvider]. *)
Record State : Type := mkState {
  user : option SessionUser;
  profile : option Profile;
  loading : bool
}.

Definition initialState : State := mkState None None true.

(** What changes the state: the synchronous part of [initAuth], whose
    [finally] clears the loading flag; the timer that installs the mock
    user; a notification of the authentication service, with the user of
    its session if any; and the arrival of a profile that was asked for,
    [None] when it could not be fetched. *)
Inductive Event : Type :=
| InitAuth
| MockTimer (nowISO : string)
| AuthStateChange (sessionUser : option SessionUser)
| ProfileFetched (fetched : option Profile).

Definition step (st : State) (event : Event) : State :=
  match event with
  | InitAuth => mkState (user st) (profile st) false
  | MockTimer nowISO =>
      mkState (Some (MOCK_USER nowISO)) (Some (MOCK_PROFILE nowISO)) false
  | AuthStateChange (Some sessionUser) =>
      mkState (Some sessionUser) (profile st) false
  | AuthStateChange None => mkState None None false
  | ProfileFetched fetched => mkState (user st) fetched (loading st)
  end.

Definition run (events : list Event) (st : State) : State :=
  fold_left step events st.

Section Value.
Context `{Collaborators}.

(** The [user] of the context value. *)
Definition contextUser (st : State) : option User.t :=
  match profile st with
  | Some p =>
      Some {| User.id :=
                match user st with
                | Some u => if JS.truthy (id u) then id u else ""
                | None => ""
                end;
              User.email := profile_email p;
              User.role := profile_role p;
              User.organizationName := organization_name p;
              User.fullName := full_name p;
              User.phone := profile_phone p;
              User.createdAt := Date_parse (profile_created_at p);
              User.updatedAt := Date_parse (profile_updated_at p) |}
  | None => None
  end.

(** [ProtectedRoute] under the provider: [useAuth()] gives the context
    user and the loading flag. *)
Definition guarded (st : State) (requiredRoles : option (list string))
  (requiredRole redirectTo : option string) : ProtectedRoute.Element :=
  ProtectedRoute.ProtectedRoute (contextUser st) (loading st) requiredRoles
    requiredRole redirectTo.

End Value.
End AuthContext.

(** * Properties *)

(** ** Sanity checks of the embedding *)

Example toLowerCase_Admin : JS.toLowerCase "AdMiN" = "admin".
Proof. reflexivity. Qed.

Example parseInt_content_range :
  JS.parseInt_opt (JS.split "/" "0-9/57" !! 1%nat) = JS.Int 57.
Proof. reflexivity. Qed.

Example parseInt_star : JS.parseInt_opt (JS.split "/" "0-9/*" !! 1%nat) = JS.NaN.
Proof. reflexivity. Qed.

Example slice_middle : JS.slice [1; 2; 3; 4; 5] 1 3 = [2; 3].
Proof. reflexivity. Qed.

Example slice_past_end : JS.slice [1; 2; 3] 5 10 = @nil Z.
Proof. reflexivity. Qed.

Example ceil_7_2 : JS.Math_ceil_div (JS.Int 7) 2 = JS.Int 4.
Proof. reflexivity. Qed.

Example set_replaces :
  JS.URLSearchParams_set "a" "3" [("a", "1"); ("b", "2"); ("a", "4")]
  = [("a", "3"); ("b", "2")].
Proof. reflexivity. Qed.

Example getPageNumbers_5_of_10 : Table.getPageNumbers 5 10 5 = [3; 4; 5; 6; 7].
Proof. reflexivity. Qed.

Example getPageNumbers_last : Table.getPageNumbers 10 10 5 = [6; 7; 8; 9; 10].
Proof. reflexivity. Qed.

Example getPageNumbers_short : Table.getPageNumbers 2 3 5 = [1; 2; 3].
Proof. reflexivity. Qed.

(** The specification's scenario: organizer u1 creates A; the owner's first
    page holds exactly A when u1 owns nothing else. *)
Example listForOwner_after_create :
  let '(_, store) :=
    ActivitiesApi.createActivity (H := Examples.offline) 1710000000000
      Examples.march2024 Examples.march2024 [] Examples.chessForm "u1" in
  (fun l =>
     match l with
     | ActivitiesApi.Resolved l =>
         (length (ActivitiesApi.activities l),
          ActivitiesApi.total (ActivitiesApi.pagination l),
          ActivitiesApi.totalPages (ActivitiesApi.pagination l),
          ActivitiesApi.hasNext (ActivitiesApi.pagination l))
     | ActivitiesApi.Rejected _ => (0%nat, JS.NaN, JS.NaN, true)
     end)
    (ActivitiesApi.getUserActivities (H := Examples.offline)
       Examples.march2024 store "u1" 1 10)
  = (1%nat, JS.Int 1, JS.Int 1, false).
Proof. vm_compute. reflexivity. Qed.

(** The gate while the session loads, without an identity, and for an
    organizer when no role is required. *)
Example ProtectedRoute_other_branches :
  ProtectedRoute.ProtectedRoute None true None (Some "organizer") None
  = ProtectedRoute.LoadingScreen
  /\ ProtectedRoute.ProtectedRoute None false None (Some "organizer") None
     = ProtectedRoute.Navigate "/login"
  /\ ProtectedRoute.ProtectedRoute (Some Examples.organizerUser) false None
       None None = ProtectedRoute.Children.
Proof. repeat split. Qed.

(** ** The authorization gate *)

Section Gate.
Import ProtectedRoute.

Lemma roleGrants_true (userRole : option string) (role : string) :
  roleGrants userRole role = true <->
  userRole = Some "admin"
  \/ (userRole = Some "organizer"
      /\ (JS.toLowerCase role = "organizer" \/ JS.toLowerCase role = "user"))
  \/ userRole = Some (JS.toLowerCase role).
Proof.
  unfold roleGrants.
  destruct (decide (userRole = Some "admin")) as [Ha | Ha].
  - rewrite (bool_decide_eq_true_2 _ Ha). tauto.
  - rewrite (bool_decide_eq_false_2 _ Ha). cbn [andb].
    destruct (decide (userRole = Some "organizer")) as [Ho | Ho].
    + rewrite (bool_decide_eq_true_2 _ Ho). cbn [andb].
      destruct (String.eqb_spec (JS.toLowerCase role) "organizer") as [E1 | E1];
        cbn [orb]; [tauto |].
      destruct (String.eqb_spec (JS.toLowerCase role) "user") as [E2 | E2];
        [tauto |].
      rewrite bool_decide_eq_true. tauto.
    + rewrite (bool_decide_eq_false_2 _ Ho). cbn [andb].
      rewrite bool_decide_eq_true. tauto.
Qed.

Lemma hasRequiredRole_allowed (user : User.t) (roles : list string) :
  roles <> [] ->
  hasRequiredRole user roles = true <->
  Props.allowed (JS.toLowerCase <$> User.role user) roles.
Proof.
  intros Hne. unfold hasRequiredRole, Props.allowed.
  rewrite existsb_exists. split.
  - intros (r & Hin & Hr). apply roleGrants_true in Hr.
    destruct Hr as [Ha | [[Ho Hr] | Hr]]; [tauto | right; left | right; right];
      eauto.
  - intros [Ha | [[Ho (r & Hin & Hr)] | (r & Hin & Hr)]].
    + destruct roles as [| r roles']; [congruence |].
      exists r. split; [left; reflexivity | apply roleGrants_true; tauto].
    + exists r. split; [assumption | apply roleGrants_true; tauto].
    + exists r. split; [assumption | apply roleGrants_true; tauto].
Qed.

(** C1, as the code decides it. For every non-loading call with a present
    identity and a non-empty list of roles to check, the gate renders its
    children exactly when the identity's role is admin, or is organizer
    while SOME required role is organizer or user, or is one of the required
    roles (all compared in lower case); otherwise it navigates to
    /unauthorized. In particular an admin is rendered for every such list. *)
Theorem ProtectedRoute_decision (user : User.t)
  (requiredRoles : option (list string)) (requiredRole redirectTo : option string) :
  let roles := rolesToCheck requiredRoles requiredRole in
  let userRole := JS.toLowerCase <$> User.role user in
  let decision :=
    ProtectedRoute (Some user) false requiredRoles requiredRole redirectTo in
  roles <> [] ->
  (Props.allowed userRole roles -> decision = Render)
  /\ (~ Props.allowed userRole roles -> decision = RedirectToUnauthorized)
  /\ (userRole = Some "admin" -> decision = Render).
Proof.
  intros roles userRole decision Hne.
  assert (Hlen : (0 <? Z.of_nat (length roles)) = true).
  { destruct roles; [congruence | reflexivity]. }
  pose proof (hasRequiredRole_allowed user roles Hne) as Hiff.
  fold userRole in Hiff.
  assert (Hyes : Props.allowed userRole roles -> decision = Render).
  { intros Hal. apply Hiff in Hal. subst decision. unfold ProtectedRoute.
    fold roles. rewrite Hlen, Hal. reflexivity. }
  split; [exact Hyes | split].
  - intros Hno. subst decision. unfold ProtectedRoute. fold roles.
    rewrite Hlen.
    destruct (hasRequiredRole user roles) eqn:Hh; [| reflexivity].
    exfalso. apply Hno, Hiff. reflexivity.
  - intros Hadmin. apply Hyes. left. exact Hadmin.
Qed.

(** The gate at a route that requires the organizer role, as [App.tsx]
    declares it, for the mock organizer. *)
Lemma ProtectedRoute_decision_witness :
  ProtectedRoute (Some Examples.organizerUser) false None (Some "organizer") None
  = Render.
Proof.
  refine (proj1 (ProtectedRoute_decision Examples.organizerUser None
                   (Some "organizer") None _) _).
  - discriminate.
  - right. right. exists "organizer". split; [left |]; reflexivity.
Defined.

(** C1, as the specification words it, fails: an organizer meets a route
    that accepts admin or user. One required role is user, so the gate
    renders; but the required roles are not all within organizer and user,
    and organizer is not among them, so the specification's formula denies. *)
Lemma allowed_spec_counterexample :
  ProtectedRoute (Some Examples.organizerUser) false (Some ["admin"; "user"])
    None None = Render
  /\ allowed_spec (User.role Examples.organizerUser) ["admin"; "user"] = false.
Proof. split; reflexivity. Qed.

End Gate.

(** ** The page-number window *)

Section Window.
Import Table.

Lemma pushPages_seqZ (fuel : nat) :
  forall (i end_ : Z) (pages : list Z),
    i + Z.of_nat fuel - 1 <= end_ ->
    pushPages fuel i end_ pages = (pages ++ seqZ i (Z.of_nat fuel))%list.
Proof.
  induction fuel as [| fuel IH]; intros i end_ pages Hle.
  - cbn. rewrite app_nil_r. reflexivity.
  - cbn [pushPages].
    replace (i <=? end_) with true by (symmetry; apply Z.leb_le; lia).
    rewrite IH by lia.
    rewrite (seqZ_cons i (Z.of_nat (S fuel))) by lia.
    rewrite <- app_assoc. cbn [app].
    replace (Z.pred (Z.of_nat (S fuel))) with (Z.of_nat fuel) by lia.
    reflexivity.
Qed.

(** The loop never stops for lack of fuel: more fuel adds no page. *)
Lemma pushPages_fuel_enough (fuel extra : nat) (i end_ : Z) (pages : list Z) :
  end_ - i + 1 <= Z.of_nat fuel ->
  pushPages (fuel + extra) i end_ pages = pushPages fuel i end_ pages.
Proof.
  revert i pages. induction fuel as [| fuel IH]; intros i pages Hle.
  - destruct extra as [| extra]; [reflexivity |]. cbn.
    replace (i <=? end_) with false by (symmetry; apply Z.leb_gt; lia).
    reflexivity.
  - cbn [Nat.add pushPages]. destruct (i <=? end_); [| reflexivity].
    apply IH. lia.
Qed.

(** C8. For 1 <= currentPage <= totalPages and a window size w >= 1, the
    page numbers of [Pagination] are the run from [start] to [end], where
    start0 = max(1, currentPage - floor(w/2)),
    end = min(totalPages, start0 + w - 1) and start = max(1, end - w + 1).
    The run is consecutive, has at most w numbers, lies within
    [1, totalPages] and contains currentPage. *)
Theorem getPageNumbers_window (currentPage totalPages w : Z) :
  1 <= currentPage <= totalPages ->
  1 <= w ->
  let start0 := Z.max 1 (currentPage - w / 2) in
  let end_ := Z.min totalPages (start0 + w - 1) in
  let start := Z.max 1 (end_ - w + 1) in
  let pages := getPageNumbers currentPage totalPages w in
  pages = seqZ start (end_ - start + 1)
  /\ Z.of_nat (length pages) <= w
  /\ (forall p, In p pages -> 1 <= p <= totalPages)
  /\ In currentPage pages.
Proof.
  intros Hcur Hw start0 end_ start pages.
  assert (Hhalf : 0 <= w / 2 <= w - 1).
  { split; [apply Z.div_pos; lia |].
    assert (w / 2 < w) by (apply Z.div_lt; lia). lia. }
  assert (Hstart : 1 <= start <= currentPage) by lia.
  assert (Hend : currentPage <= end_ <= totalPages) by lia.
  assert (Hsize : end_ - start + 1 <= w) by lia.
  assert (Hpages : pages = seqZ start (end_ - start + 1)).
  { subst pages. unfold getPageNumbers. fold start0. fold end_.
    assert (Hs : (if end_ - start0 + 1 <? w
                  then Z.max 1 (end_ - w + 1) else start0) = start).
    { destruct (Z.ltb_spec (end_ - start0 + 1) w); [reflexivity | lia]. }
    rewrite Hs, pushPages_seqZ by lia.
    cbn [app]. f_equal. lia. }
  split; [exact Hpages |].
  rewrite Hpages. split; [| split].
  - rewrite length_seqZ. lia.
  - intros p Hp. apply list_elem_of_In, elem_of_seqZ in Hp. lia.
  - apply list_elem_of_In, elem_of_seqZ. lia.
Qed.

(** The window of the activities page on page 4 of 9, five buttons. *)
Lemma getPageNumbers_window_witness :
  getPageNumbers 4 9 defaultMaxPageButtons = seqZ 2 5
  /\ In 4 (getPageNumbers 4 9 defaultMaxPageButtons).
Proof.
  pose proof (getPageNumbers_window 4 9 defaultMaxPageButtons
                ltac:(lia) ltac:(unfold defaultMaxPageButtons; lia)) as H.
  cbv zeta in H. destruct H as (Hrun & _ & _ & Hin).
  split; [exact Hrun | exact Hin].
Defined.

End Window.

(** ** Arrays, ceilings and query parameters *)

Section Helpers.
Context {A : Type}.

Lemma findIndex_find (p : A -> bool) (l : list A) :
  match List.find p l with
  | Some x => 0 <= JS.findIndex p l /\ JS.get l (JS.findIndex p l) = Some x
  | None => JS.findIndex p l = -1
  end.
Proof.
  induction l as [| h t IH]; cbn [List.find JS.findIndex]; [reflexivity |].
  destruct (p h); [split; [lia | reflexivity] |].
  destruct (List.find p t) as [x |].
  - destruct IH as [Hpos Hget].
    replace (JS.findIndex p t =? -1) with false
      by (symmetry; apply Z.eqb_neq; lia).
    split; [lia |]. unfold JS.get in *.
    replace (JS.findIndex p t + 1 <? 0) with false
      by (symmetry; apply Z.ltb_ge; lia).
    replace (JS.findIndex p t <? 0) with false in Hget
      by (symmetry; apply Z.ltb_ge; lia).
    replace (Z.to_nat (JS.findIndex p t + 1))
      with (S (Z.to_nat (JS.findIndex p t))) by lia.
    exact Hget.
  - rewrite IH. reflexivity.
Qed.

Lemma find_none_iff (p : A -> bool) (l : list A) :
  List.find p l = None <-> forall x, In x l -> p x = false.
Proof.
  split; [intros H x Hin; exact (find_none p l H x Hin) |].
  induction l as [| h t IH]; intros H; cbn; [reflexivity |].
  rewrite (H h (or_introl eq_refl)). apply IH. intros x Hx. apply H. now right.
Qed.

(** Writing at the index that [findIndex] returned, an element that still
    satisfies the predicate, leaves it the first one found. *)
Lemma find_set_at_findIndex (p : A -> bool) (l : list A) (x y : A) :
  List.find p l = Some x ->
  p y = true ->
  List.find p (JS.set_at l (JS.findIndex p l) y) = Some y
  /\ JS.findIndex p (JS.set_at l (JS.findIndex p l) y) = JS.findIndex p l.
Proof.
  intros Hfind Hy. revert Hfind.
  induction l as [| h t IH]; cbn [List.find JS.findIndex]; [discriminate |].
  destruct (p h) eqn:Hh.
  - intros _. unfold JS.set_at. simpl. rewrite Hy. split; reflexivity.
  - intros Hfind. specialize (IH Hfind).
    pose proof (findIndex_find p t) as Hidx. rewrite Hfind in Hidx.
    destruct Hidx as [Hpos _].
    replace (JS.findIndex p t =? -1) with false
      by (symmetry; apply Z.eqb_neq; lia).
    unfold JS.set_at in *.
    replace (JS.findIndex p t + 1 <? 0) with false
      by (symmetry; apply Z.ltb_ge; lia).
    replace (JS.findIndex p t <? 0) with false in IH
      by (symmetry; apply Z.ltb_ge; lia).
    replace (Z.to_nat (JS.findIndex p t + 1))
      with (S (Z.to_nat (JS.findIndex p t))) by lia.
    change (<[S (Z.to_nat (JS.findIndex p t)) := y]> (h :: t))
      with (h :: <[Z.to_nat (JS.findIndex p t) := y]> t).
    cbn [List.find JS.findIndex]. rewrite Hh.
    destruct IH as [IH1 IH2]. rewrite IH1, IH2.
    replace (JS.findIndex p t =? -1) with false
      by (symmetry; apply Z.eqb_neq; lia).
    split; reflexivity.
Qed.

Lemma slice_In (l : list A) (start end_ : Z) (x : A) :
  In x (JS.slice l start end_) -> In x l.
Proof.
  unfold JS.slice. intros H.
  apply list_elem_of_In in H. apply list_elem_of_In.
  apply elem_of_take in H as (i & Hi & _).
  rewrite lookup_drop in Hi. eapply list_elem_of_lookup_2, Hi.
Qed.

(** The length of a page cut by [slice] at a non-negative offset. *)
Lemma slice_page_length (l : list A) (offset limit : Z) :
  0 <= offset -> 1 <= limit ->
  Z.of_nat (length (JS.slice l offset (offset + limit)))
  = Z.max 0 (Z.min limit (Z.of_nat (length l) - offset)).
Proof.
  intros Hoff Hlim. unfold JS.slice, JS.relativeIndex.
  replace (offset <? 0) with false by (symmetry; apply Z.ltb_ge; lia).
  replace (offset + limit <? 0) with false by (symmetry; apply Z.ltb_ge; lia).
  rewrite length_take, length_drop.
  set (n := length l). lia.
Qed.

Lemma slice_whole (l : list A) (limit : Z) :
  Z.of_nat (length l) <= limit -> JS.slice l 0 (0 + limit) = l.
Proof.
  intros Hle. unfold JS.slice, JS.relativeIndex.
  replace (0 + limit <? 0) with false by (symmetry; apply Z.ltb_ge; lia).
  change (0 <? 0) with false. cbv iota.
  replace (Z.to_nat (Z.min 0 (Z.of_nat (length l)))) with 0%nat by lia.
  rewrite drop_0. apply firstn_all2. lia.
Qed.

(** A page cut by [slice] holds every element whose index lies in its
    range. *)
Lemma slice_covers (l : list A) (offset limit : Z) (i : nat) (x : A) :
  0 <= offset ->
  l !! i = Some x ->
  offset <= Z.of_nat i < offset + limit ->
  In x (JS.slice l offset (offset + limit)).
Proof.
  intros Hoff Hi Hrange. pose proof (lookup_lt_Some l i x Hi) as Hlen.
  unfold JS.slice, JS.relativeIndex.
  replace (offset <? 0) with false by (symmetry; apply Z.ltb_ge; lia).
  replace (offset + limit <? 0) with false by (symmetry; apply Z.ltb_ge; lia).
  apply list_elem_of_In.
  apply (list_elem_of_lookup_2 _ (i - Z.to_nat offset)%nat).
  set (n := length l) in *.
  rewrite lookup_take_lt by lia.
  rewrite lookup_drop.
  replace (Z.to_nat (Z.min offset (Z.of_nat n)) + (i - Z.to_nat offset))%nat
    with i by lia.
  exact Hi.
Qed.

Lemma filter_all (p : A -> bool) (l : list A) :
  (forall x, p x = true) -> List.filter p l = l.
Proof.
  intros Hp. induction l as [| h t IH]; [reflexivity |].
  cbn. rewrite Hp, IH. reflexivity.
Qed.

End Helpers.

Lemma Math_ceil_div_isCeiling (total limit : Z) :
  1 <= limit ->
  exists c, JS.Math_ceil_div (JS.Int total) limit = JS.Int c
            /\ Props.isCeiling total limit c.
Proof.
  intros Hlim. exists (- (- total / limit)). unfold JS.Math_ceil_div.
  replace (limit =? 0) with false by (symmetry; apply Z.eqb_neq; lia).
  split; [reflexivity |]. unfold Props.isCeiling.
  pose proof (Z.mul_div_le (- total) limit ltac:(lia)).
  pose proof (Z.mul_succ_div_gt (- total) limit ltac:(lia)).
  nia.
Qed.

Lemma isCeiling_unique (total limit c c' : Z) :
  1 <= limit ->
  Props.isCeiling total limit c -> Props.isCeiling total limit c' -> c = c'.
Proof. unfold Props.isCeiling. intros. nia. Qed.

Lemma isCeiling_formula (total limit : Z) :
  1 <= limit -> Props.isCeiling total limit ((total + limit - 1) / limit).
Proof.
  intros Hlim. unfold Props.isCeiling.
  pose proof (Z.mul_div_le (total + limit - 1) limit ltac:(lia)).
  pose proof (Z.mul_succ_div_gt (total + limit - 1) limit ltac:(lia)).
  nia.
Qed.

Lemma getAll_filter_other (name : string) (q : JS.URLSearchParams) :
  JS.URLSearchParams_getAll name
    (List.filter (fun p => negb (String.eqb (fst p) name)) q) = [].
Proof.
  unfold JS.URLSearchParams_getAll.
  induction q as [| [k v] q IH]; [reflexivity |]. cbn [List.filter fst].
  destruct (String.eqb k name) eqn:E; cbn [negb]; [exact IH |].
  cbn [List.filter fst]. rewrite E. exact IH.
Qed.

Lemma getAll_filter_ne (name name' : string) (q : JS.URLSearchParams) :
  name <> name' ->
  JS.URLSearchParams_getAll name
    (List.filter (fun p => negb (String.eqb (fst p) name')) q)
  = JS.URLSearchParams_getAll name q.
Proof.
  intros Hne. unfold JS.URLSearchParams_getAll.
  induction q as [| [k v] q IH]; [reflexivity |]. cbn [List.filter fst].
  destruct (String.eqb_spec k name') as [-> | Hk]; cbn [negb].
  - rewrite IH. replace (String.eqb name' name) with false; [reflexivity |].
    symmetry. apply String.eqb_neq. congruence.
  - cbn [List.filter fst]. destruct (String.eqb k name); cbn; rewrite IH;
      reflexivity.
Qed.

(** After [set(name, value)] the parameter has exactly that value. *)
Lemma getAll_set_same (name value : string) (q : JS.URLSearchParams) :
  JS.URLSearchParams_getAll name (JS.URLSearchParams_set name value q) = [value].
Proof.
  induction q as [| [k v] q IH].
  - unfold JS.URLSearchParams_getAll. cbn. rewrite String.eqb_refl. reflexivity.
  - cbn [JS.URLSearchParams_set]. destruct (String.eqb k name) eqn:E.
    + pose proof (getAll_filter_other name q) as Hf.
      unfold JS.URLSearchParams_getAll in *. cbn [List.filter fst].
      rewrite E. cbn [List.map snd]. rewrite Hf. reflexivity.
    + unfold JS.URLSearchParams_getAll in *. cbn [List.filter fst].
      rewrite E. exact IH.
Qed.

(** [set] on another name leaves the values of a parameter alone. *)
Lemma getAll_set_other (name name' value : string) (q : JS.URLSearchParams) :
  name <> name' ->
  JS.URLSearchParams_getAll name (JS.URLSearchParams_set name' value q)
  = JS.URLSearchParams_getAll name q.
Proof.
  intros Hne. induction q as [| [k v] q IH].
  - unfold JS.URLSearchParams_getAll. cbn.
    replace (String.eqb name' name) with false; [reflexivity |].
    symmetry. apply String.eqb_neq. congruence.
  - cbn [JS.URLSearchParams_set].
    destruct (String.eqb_spec k name') as [-> | Hk].
    + pose proof (getAll_filter_ne name name' q Hne) as Hf.
      unfold JS.URLSearchParams_getAll in *. cbn [List.filter fst].
      replace (String.eqb name' name) with false
        by (symmetry; apply String.eqb_neq; congruence).
      exact Hf.
    + unfold JS.URLSearchParams_getAll in *. cbn [List.filter fst].
      destruct (String.eqb k name); cbn [List.map]; rewrite IH; reflexivity.
Qed.

(** ** Decimal numerals: [parseInt] reads what [String(n)] prints *)

Section Decimal.

Lemma parseDigits_acc (d : Decimal.uint) (p : positive) :
  JS.parseDigits 10 (NilEmpty.string_of_uint d) (Some (Z.pos p))
  = Some (Z.pos (Pos.of_uint_acc d p)).
Proof.
  revert p.
  induction d as [| d IH | d IH | d IH | d IH | d IH | d IH | d IH | d IH
                 | d IH | d IH]; intros p;
    [reflexivity | ..];
    cbn [NilEmpty.string_of_uint JS.parseDigits Pos.of_uint_acc];
    match goal with
    | |- context [JS.digitValue ?c] =>
        let v := eval vm_compute in (JS.digitValue c) in
        change (JS.digitValue c) with v
    end;
    cbv beta iota; cbn [default id];
    match goal with
    | |- context [?k <? 10] =>
        change (k <? 10) with true
    end;
    cbv iota; rewrite <- IH; do 2 f_equal; lia.
Qed.

Lemma parseDigits_zero (d : Decimal.uint) :
  JS.parseDigits 10 (NilEmpty.string_of_uint d) (Some 0)
  = Some (Z.of_N (Pos.of_uint d)).
Proof.
  induction d as [| d IH | d IH | d IH | d IH | d IH | d IH | d IH | d IH
                 | d IH | d IH];
    [reflexivity | exact IH | ..];
    cbn [NilEmpty.string_of_uint JS.parseDigits Pos.of_uint];
    match goal with
    | |- context [JS.digitValue ?c] =>
        let v := eval vm_compute in (JS.digitValue c) in
        change (JS.digitValue c) with v
    end;
    cbv beta iota; cbn [default id];
    match goal with
    | |- context [?k <? 10] =>
        change (k <? 10) with true
    end;
    cbv iota; apply (parseDigits_acc d).
Qed.

Lemma occurs_digits (c : ascii) (d : Decimal.uint) :
  JS.digitValue c = None -> Props.occurs c (NilEmpty.string_of_uint d) = false.
Proof.
  intros Hc.
  induction d; cbn [NilEmpty.string_of_uint Props.occurs]; [reflexivity | ..];
    rewrite IHd, orb_false_r; apply Ascii.eqb_neq; intros <-; discriminate Hc.
Qed.

Lemma parseInt_numberToString (n : Z) :
  0 <= n -> JS.parseInt (JS.numberToString n) = JS.Int n.
Proof.
  intros Hn. destruct n as [| p | p]; [reflexivity | | lia].
  unfold JS.numberToString. cbn [Z.to_int NilZero.string_of_int].
  pose proof (DecimalPos.Unsigned.of_to p) as Hval.
  destruct (Pos.to_uint p) as [| d | d | d | d | d | d | d | d | d | d] eqn:E.
  1: discriminate Hval.
  1: { unfold JS.parseInt, NilZero.string_of_uint.
    cbn [NilEmpty.string_of_uint JS.skipWhiteSpace].
    change (JS.isWhiteSpace "0") with false. cbv iota.
    assert (Hparse : JS.parseDigits 10 (String "0" (NilEmpty.string_of_uint d)) None
                     = Some (Z.pos p)).
    { change (String "0" (NilEmpty.string_of_uint d))
        with (NilEmpty.string_of_uint (Decimal.D0 d)).
      cbn [NilEmpty.string_of_uint JS.parseDigits].
      change (JS.digitValue "0") with (Some 0). cbv beta iota.
      change (0 <? 10) with true. cbv iota. cbn [default id].
      change (10 * 0 + 0) with 0. rewrite parseDigits_zero.
      cbn [Pos.of_uint] in Hval. rewrite Hval. reflexivity. }
    destruct d; cbn [NilEmpty.string_of_uint] in *; rewrite Hparse;
      reflexivity. }
  all: unfold JS.parseInt, NilZero.string_of_uint;
    cbn [NilEmpty.string_of_uint JS.skipWhiteSpace];
    match goal with
    | |- context [JS.isWhiteSpace ?c] => change (JS.isWhiteSpace c) with false
    end; cbv iota;
    match goal with
    | |- context [JS.parseDigits 10 ?s None] =>
        assert (Hparse : JS.parseDigits 10 s None = Some (Z.pos p))
    end;
    [ cbn [JS.parseDigits];
      match goal with
      | |- context [JS.digitValue ?c] =>
          let v := eval vm_compute in (JS.digitValue c) in
          change (JS.digitValue c) with v
      end;
      cbv beta iota; cbn [default id];
      match goal with
      | |- context [?k <? 10] => change (k <? 10) with true
      end;
      cbv iota;
      match goal with
      | |- context [Some (10 * 0 + ?k)] =>
          let v := eval vm_compute in (10 * 0 + k) in
          change (10 * 0 + k) with v
      end;
      rewrite (parseDigits_acc d); cbn [Pos.of_uint] in Hval;
      injection Hval as ->; reflexivity
    | rewrite Hparse; reflexivity ].
Qed.

Lemma split_free (sep : ascii) (s : string) :
  Props.occurs sep s = false -> JS.split sep s = [s].
Proof.
  induction s as [| c s IH]; [reflexivity |]. cbn [Props.occurs JS.split].
  intros Hfree. apply orb_false_iff in Hfree as [Hc Hs].
  rewrite Hc, (IH Hs). reflexivity.
Qed.

Lemma split_app (sep : ascii) (a b : string) :
  Props.occurs sep a = false ->
  JS.split sep (a ++ String sep b) = a :: JS.split sep b.
Proof.
  induction a as [| c a IH]; simpl.
  - intros _. rewrite Ascii.eqb_refl. reflexivity.
  - intros Hfree. apply orb_false_iff in Hfree as [Hc Ha].
    rewrite Hc, (IH Ha). reflexivity.
Qed.

Lemma contentRange_total (range : string) (n : Z) :
  0 <= n ->
  Props.occurs "/" range = false ->
  JS.parseInt_opt (JS.split "/" (range ++ "/" ++ JS.numberToString n) !! 1%nat)
  = JS.Int n.
Proof.
  intros Hn Hfree.
  change (range ++ "/" ++ JS.numberToString n)
    with (range ++ String "/" (JS.numberToString n)).
  rewrite (split_app "/" range _ Hfree), split_free.
  - cbn [lookup list_lookup JS.parseInt_opt]. simpl.
    apply parseInt_numberToString, Hn.
  - unfold JS.numberToString. destruct n as [| p | p]; [reflexivity | | lia].
    cbn [Z.to_int NilZero.string_of_int]. unfold NilZero.string_of_uint.
    destruct (Pos.to_uint p) eqn:E; try reflexivity;
      rewrite <- E; apply occurs_digits; reflexivity.
Qed.
End Decimal.

(** ** Updating and soft-deleting activities *)

Section Mutations.
Import ActivitiesApi.
Context `{Collaborators}.

Lemma stored_none (id : string) (store : list Activity.t) :
  (forall a, In a store -> Activity.id a <> id) -> Props.stored id store = None.
Proof.
  intros Habsent. unfold Props.stored. apply find_none_iff. intros a Hin.
  apply String.eqb_neq, Habsent, Hin.
Qed.



(** C5. [deleteActivity] rejects with the permission error whenever the
    caller's id differs from the record's organizerId and is not the admin
    id; the store is then exactly as before, so the record keeps every
    field, its [isDeleted] flag included. *)
Theorem deleteActivity_denied (now : Date.t) (store : list Activity.t)
  (id callerId : string) (a : Activity.t) :
  Props.stored id store = Some a ->
  Activity.userId a <> callerId ->
  callerId <> "admin-user" ->
  deleteActivity now store id callerId = (Rejected PermissionDenied_delete, store)
  /\ getActivityById (snd (deleteActivity now store id callerId)) id = Resolved a.
Proof.
  intros Hfind Hother Hnotadmin. unfold Props.stored in Hfind.
  pose proof (findIndex_find (fun a => String.eqb (Activity.id a) id) store)
    as Hidx.
  rewrite Hfind in Hidx. destruct Hidx as [Hpos Hget].
  assert (Hdel : deleteActivity now store id callerId
                 = (Rejected PermissionDenied_delete, store)).
  { unfold deleteActivity, USE_MOCK_DATA.
    replace (JS.findIndex _ store =? -1) with false
      by (symmetry; apply Z.eqb_neq; lia).
    rewrite Hget.
    replace (String.eqb (Activity.userId a) callerId) with false
      by (symmetry; apply String.eqb_neq; exact Hother).
    replace (String.eqb callerId "admin-user") with false
      by (symmetry; apply String.eqb_neq; exact Hnotadmin).
    reflexivity. }
  split; [exact Hdel |].
  rewrite Hdel. unfold getActivityById, USE_MOCK_DATA. cbn [snd].
  rewrite Hfind. reflexivity.
Qed.

Lemma deleteActivity_authorized (now : Date.t) (store : list Activity.t)
  (id callerId : string) (a : Activity.t) :
  Props.stored id store = Some a ->
  Activity.userId a = callerId \/ callerId = "admin-user" ->
  deleteActivity now store id callerId
  = (Resolved tt,
     JS.set_at store
       (JS.findIndex (fun a => String.eqb (Activity.id a) id) store)
       (markDeleted now a)).
Proof.
  intros Hfind Hauth. unfold Props.stored in Hfind.
  pose proof (findIndex_find (fun a => String.eqb (Activity.id a) id) store)
    as Hidx.
  rewrite Hfind in Hidx. destruct Hidx as [Hpos Hget].
  unfold deleteActivity, USE_MOCK_DATA.
  replace (JS.findIndex _ store =? -1) with false
    by (symmetry; apply Z.eqb_neq; lia).
  rewrite Hget.
  destruct Hauth as [Hown | Hadmin].
  - rewrite Hown, String.eqb_refl. reflexivity.
  - rewrite Hadmin, (String.eqb_refl "admin-user"), andb_false_r. reflexivity.
Qed.

Lemma deleteActivity_stored (now : Date.t) (store : list Activity.t)
  (id callerId : string) (a : Activity.t) :
  Props.stored id store = Some a ->
  Activity.userId a = callerId \/ callerId = "admin-user" ->
  Props.stored id (snd (deleteActivity now store id callerId))
  = Some (markDeleted now a).
Proof.
  intros Hfind Hauth.
  rewrite (deleteActivity_authorized now store id callerId a Hfind Hauth).
  cbn [snd]. unfold Props.stored in *.
  apply find_set_at_findIndex with (x := a); [exact Hfind |].
  apply find_some in Hfind. exact (proj2 Hfind).
Qed.

(** C6. Soft deletion is idempotent. When the caller is authorized for the
    stored record, the first call resolves and so does a second call on the
    store that the first one left; the record has [isDeleted = true] after
    each call, and after the second call its [updatedAt] is the time of that
    second call, hence later than after the first call when the clock has
    advanced. *)
Theorem deleteActivity_twice (now1 now2 : Date.t) (store : list Activity.t)
  (id callerId : string) (a : Activity.t) :
  Props.stored id store = Some a ->
  Activity.userId a = callerId \/ callerId = "admin-user" ->
  let first := deleteActivity now1 store id callerId in
  let second := deleteActivity now2 (snd first) id callerId in
  fst first = Resolved tt
  /\ fst second = Resolved tt
  /\ exists a1 a2,
       Props.stored id (snd first) = Some a1
       /\ Props.stored id (snd second) = Some a2
       /\ Activity.isDeleted a1 = true
       /\ Activity.isDeleted a2 = true
       /\ Activity.updatedAt a1 = now1
       /\ Activity.updatedAt a2 = now2
       /\ (Date.getTime now1 < Date.getTime now2 ->
           Date.getTime (Activity.updatedAt a1)
           < Date.getTime (Activity.updatedAt a2)).
Proof.
  intros Hfind Hauth first second.
  pose proof (deleteActivity_stored now1 store id callerId a Hfind Hauth)
    as Hfirst.
  fold first in Hfirst.
  assert (Hauth1 : Activity.userId (markDeleted now1 a) = callerId
                   \/ callerId = "admin-user") by exact Hauth.
  pose proof (deleteActivity_stored now2 (snd first) id callerId
                (markDeleted now1 a) Hfirst Hauth1) as Hsecond.
  fold second in Hsecond.
  split; [| split].
  - subst first.
    rewrite (deleteActivity_authorized now1 store id callerId a Hfind Hauth).
    reflexivity.
  - subst second.
    rewrite (deleteActivity_authorized now2 (snd first) id callerId
               (markDeleted now1 a) Hfirst Hauth1).
    reflexivity.
  - exists (markDeleted now1 a), (markDeleted now2 (markDeleted now1 a)).
    repeat split; try assumption. cbn. intros Hclock. exact Hclock.
Qed.

End Mutations.


(** C4, as the specification words it for every stored record, fails on a
    store that holds two records under one id. user-1 and user-2 each create
    an activity while [Date.now()] reads the same millisecond. The record of
    user-2 is then stored, user-1 is not its owner, and yet the update that
    user-1 asks for under its id resolves: it edits the record of user-1,
    the first with that id. *)
Lemma updateActivity_shadowed_record :
  let first :=
    ActivitiesApi.createActivity (H := Examples.offline) 1710000000000
      Examples.march2024 Examples.march2024 MockData.mockActivities
      Examples.chessForm "user-1" in
  let second :=
    ActivitiesApi.createActivity (H := Examples.offline) 1710000000000
      Examples.march2024 Examples.march2024 (snd first) Examples.chessForm
      "user-2" in
  exists a a',
    fst second = ActivitiesApi.Resolved a
    /\ In a (snd second)
    /\ Activity.userId a = "user-2"
    /\ Activity.userId a <> "user-1"
    /\ fst (ActivitiesApi.updateActivity (H := Examples.offline)
              Examples.april2024 (snd second) (Activity.id a)
              Examples.chessForm "user-1")
       = ActivitiesApi.Resolved a'
    /\ Activity.userId a' = "user-1".
Proof.
  cbv zeta. eexists. eexists.
  split; [vm_compute; reflexivity |].
  split; [do 6 right; left; reflexivity |].
  split; [reflexivity | split; [discriminate |]].
  split; [vm_compute; reflexivity | reflexivity].
Qed.

(** The specification's scenario: the record belongs to user-2, and user-1,
    who is not the admin id, asks for its deletion. *)
Lemma deleteActivity_denied_witness :
  ActivitiesApi.deleteActivity Examples.march2024 MockData.mockActivities
    "activity-4" "user-1"
  = (ActivitiesApi.Rejected ActivitiesApi.PermissionDenied_delete,
     MockData.mockActivities)
  /\ (exists a, ActivitiesApi.getActivityById
                  (snd (ActivitiesApi.deleteActivity Examples.march2024
                          MockData.mockActivities "activity-4" "user-1"))
                  "activity-4" = ActivitiesApi.Resolved a
                /\ Activity.isDeleted a = false).
Proof.
  destruct (deleteActivity_denied Examples.march2024 MockData.mockActivities
              "activity-4" "user-1" _ eq_refl ltac:(discriminate)
              ltac:(discriminate)) as [Hdenied Hkept].
  split; [exact Hdenied |].
  eexists. split; [exact Hkept | reflexivity].
Defined.

(** The owner deletes activity-1 in March and again in April. *)
Lemma deleteActivity_twice_witness :
  let first :=
    ActivitiesApi.deleteActivity Examples.march2024 MockData.mockActivities
      "activity-1" "user-1" in
  let second :=
    ActivitiesApi.deleteActivity Examples.april2024 (snd first)
      "activity-1" "user-1" in
  fst second = ActivitiesApi.Resolved tt
  /\ exists a2, Props.stored "activity-1" (snd second) = Some a2
       /\ Activity.isDeleted a2 = true
       /\ Activity.updatedAt a2 = Examples.april2024.
Proof.
  destruct (deleteActivity_twice Examples.march2024 Examples.april2024
              MockData.mockActivities "activity-1" "user-1" _ eq_refl
              (or_introl eq_refl))
    as (_ & Hsecond & a1 & a2 & _ & Hstored & _ & Hdeleted & _ & Hupdated & _).
  split; [exact Hsecond |].
  exists a2. split; [exact Hstored | split; [exact Hdeleted | exact Hupdated]].
Defined.

(** ** Listings *)

Section Listings.
Import ActivitiesApi.
Context `{Collaborators}.

(** The owner's listing is a page over the selected records. *)
Lemma getUserActivities_pageOver (now : Date.t) (store : list Activity.t)
  (organizerId : string) (page limit : Z) :
  getUserActivities now store organizerId page limit
  = Resolved (Props.pageOver (Props.selectedFor organizerId store) page limit).
Proof.
  unfold getUserActivities, USE_MOCK_DATA, Props.pageOver, Props.selectedFor,
    Props.ownedBy.
  destruct (String.eqb organizerId "current-user").
  - rewrite filter_all by (intros x; apply orb_true_r).
    assert (Hsel : (if Z.of_nat (length store) =? 0 then store else store)
                   = store) by (destruct (_ =? _); reflexivity).
    rewrite Hsel. reflexivity.
  - rewrite (List.filter_ext
               (fun activity =>
                  String.eqb (Activity.userId activity) organizerId || false)
               (fun a => String.eqb (Activity.userId a) organizerId))
      by (intros a; apply orb_false_r).
    destruct (List.filter _ store) as [| a owned]; reflexivity.
Qed.

Lemma selectedFor_In (organizerId : string) (store : list Activity.t)
  (a : Activity.t) :
  In a (Props.selectedFor organizerId store) -> In a store.
Proof.
  unfold Props.selectedFor, Props.ownedBy.
  destruct (String.eqb organizerId "current-user"); [tauto |].
  destruct (List.filter _ store) as [| b owned] eqn:E; [tauto |].
  rewrite <- E. intros Hin. apply List.filter_In in Hin. tauto.
Qed.

(** C2, as the code lists. The owner's listing applies no [isDeleted]
    filter, whatever the organizerId, the page and the limit: its items are
    the records of the page's range among those selected for the organizer,
    each as it is stored, flag included. So every item is a selected record
    of the store; every selected record whose index lies in the range of
    the page is an item, soft-deleted or not; on a first page that is long
    enough the items are all the selected records; and the items all have
    [isDeleted = false] when no stored record is soft-deleted. *)
Theorem getUserActivities_lists_stored (now : Date.t) (store : list Activity.t)
  (organizerId : string) (page limit : Z) :
  exists l,
    getUserActivities now store organizerId page limit = Resolved l
    /\ activities l
       = JS.slice (Props.selectedFor organizerId store)
           ((page - 1) * limit) ((page - 1) * limit + limit)
    /\ (forall a, In a (activities l) ->
          In a (Props.selectedFor organizerId store) /\ In a store)
    /\ (1 <= page -> 1 <= limit ->
        forall (i : nat) a,
          Props.selectedFor organizerId store !! i = Some a ->
          (page - 1) * limit <= Z.of_nat i < page * limit ->
          In a (activities l))
    /\ (page = 1 ->
        Z.of_nat (length (Props.selectedFor organizerId store)) <= limit ->
        activities l = Props.selectedFor organizerId store)
    /\ ((forall a, In a store -> Activity.isDeleted a = false) ->
        forall a, In a (activities l) -> Activity.isDeleted a = false).
Proof.
  eexists. split; [apply getUserActivities_pageOver |].
  cbn [activities Props.pageOver].
  assert (Hsub : forall a,
             In a (JS.slice (Props.selectedFor organizerId store)
                     ((page - 1) * limit) ((page - 1) * limit + limit)) ->
             In a (Props.selectedFor organizerId store) /\ In a store).
  { intros a Hin. apply slice_In in Hin.
    split; [exact Hin | exact (selectedFor_In organizerId store a Hin)]. }
  split; [reflexivity | split; [exact Hsub | split; [| split]]].
  - intros Hpage Hlimit i a Hi Hrange.
    apply (slice_covers _ _ _ i); [nia | exact Hi | lia].
  - intros -> Hfit. change ((1 - 1) * limit) with 0. apply slice_whole.
    exact Hfit.
  - intros Hclean a Hin. apply Hclean, (Hsub a Hin).
Qed.

(** C7, as the code selects. When no stored record belongs to the
    organizerId, the listing pages over every record. When some record
    belongs to it and the id is not the literal current-user, the listing
    pages over that owner's records only. For the id current-user it pages
    over every record, whoever owns them. *)
Theorem getUserActivities_selection (now : Date.t) (store : list Activity.t)
  (organizerId : string) (page limit : Z) :
  (Props.ownedBy organizerId store = [] ->
   getUserActivities now store organizerId page limit
   = Resolved (Props.pageOver store page limit))
  /\ (Props.ownedBy organizerId store <> [] ->
      organizerId <> "current-user" ->
      exists l,
        getUserActivities now store organizerId page limit = Resolved l
        /\ l = Props.pageOver (Props.ownedBy organizerId store) page limit
        /\ forall a, In a (activities l) -> Activity.userId a = organizerId)
  /\ (organizerId = "current-user" ->
      getUserActivities now store organizerId page limit
      = Resolved (Props.pageOver store page limit)).
Proof.
  rewrite getUserActivities_pageOver. unfold Props.selectedFor.
  split; [| split].
  - intros Hnone. rewrite Hnone.
    destruct (String.eqb organizerId "current-user"); reflexivity.
  - intros Hsome Hid.
    replace (String.eqb organizerId "current-user") with false
      by (symmetry; apply String.eqb_neq; exact Hid).
    destruct (Props.ownedBy organizerId store) as [| b owned] eqn:E;
      [congruence |].
    eexists. split; [reflexivity | split; [reflexivity |]].
    intros a Hin. cbn [activities Props.pageOver] in Hin.
    apply slice_In in Hin. rewrite <- E in Hin.
    apply List.filter_In in Hin. apply String.eqb_eq. tauto.
  - intros ->. reflexivity.
Qed.

(** C3, for the in-memory listing and for the remote one. With
    [page >= 1] and [limit >= 1], [getUserActivities] returns a page whose
    total is the number of selected records, whose [totalPages] is the
    ceiling of total / limit, with [hasNext = (page < totalPages)],
    [hasPrevious = (page > 1)] and
    [min(limit, total - (page - 1) * limit)] items, not below 0, hence at
    most [limit]. [getActivities] returns the records of the response as
    they came. Its total is read from the [Content-Range] header, as the
    number after the slash: a header [<range>/<n>] gives the total n. Without
    that header, or with an empty one, the total is the number of returned
    records. Whenever the total is a number, [totalPages], [hasNext] and
    [hasPrevious] obey the same three equations. *)
Theorem listing_pagination (now : Date.t) (store : list Activity.t)
  (organizerId : string) (page limit : Z) :
  1 <= page ->
  1 <= limit ->
  (exists l total c,
     getUserActivities now store organizerId page limit = Resolved l
     /\ total = Z.of_nat (length (Props.selectedFor organizerId store))
     /\ pagination l
        = mkPagination page limit (JS.Int total) (JS.Int c) (page <? c)
            (1 <? page)
     /\ Props.isCeiling total limit c
     /\ Z.of_nat (length (activities l)) = Props.pageLength total page limit
     /\ Z.of_nat (length (activities l)) <= limit)
  /\ (forall filters response,
        apiClient_get "/activities"
          (getActivities_queryParams filters page limit)
          (buildPaginationConfig page limit) = Resolved response ->
        exists l,
          getActivities now filters page limit = Resolved l
          /\ activities l
             = default [] (List.map (transformRawActivity now) <$> data response)
          /\ (header "content-range" response = None
              \/ header "content-range" response = Some "" ->
              total (pagination l) = JS.Int (Z.of_nat (length (activities l))))
          /\ (forall contentRange,
                header "content-range" response = Some contentRange ->
                contentRange <> "" ->
                total (pagination l)
                = JS.parseInt_opt (JS.split "/" contentRange !! 1%nat))
          /\ (forall range n,
                header "content-range" response
                = Some (range ++ "/" ++ JS.numberToString n) ->
                Props.occurs "/" range = false ->
                0 <= n ->
                total (pagination l) = JS.Int n)
          /\ forall total,
               ActivitiesApi.total (pagination l) = JS.Int total ->
               exists c,
                 Props.isCeiling total limit c
                 /\ totalPages (pagination l) = JS.Int c
                 /\ hasNext (pagination l) = (page <? c)
                 /\ hasPrevious (pagination l) = (1 <? page)).
Proof.
  intros Hpage Hlimit. split.
  - set (selected := Props.selectedFor organizerId store).
    destruct (Math_ceil_div_isCeiling (Z.of_nat (length selected)) limit Hlimit)
      as (c & Hc & Hceil).
    exists (Props.pageOver selected page limit), (Z.of_nat (length selected)), c.
    split; [apply getUserActivities_pageOver | split; [reflexivity |]].
    assert (Hlen : Z.of_nat (length (activities (Props.pageOver selected page limit)))
                   = Props.pageLength (Z.of_nat (length selected)) page limit).
    { cbn [activities Props.pageOver]. unfold Props.pageLength.
      apply slice_page_length; [| exact Hlimit].
      apply Z.mul_nonneg_nonneg; lia. }
    split; [| split; [exact Hceil | split; [exact Hlen |]]].
    + cbn [pagination Props.pageOver]. unfold paginationOf. rewrite Hc.
      reflexivity.
    + rewrite Hlen. unfold Props.pageLength. lia.
  - intros filters response Hget. unfold getActivities. rewrite Hget.
    eexists. split; [reflexivity | split; [reflexivity |]].
    assert (Hread : forall contentRange,
               header "content-range" response = Some contentRange ->
               contentRange <> "" ->
               total (pagination (listingOfResponse now page limit response))
               = JS.parseInt_opt (JS.split "/" contentRange !! 1%nat)).
    { intros contentRange Hheader Hfilled.
      cbn [pagination listingOfResponse]. unfold paginationOf. cbn [total].
      rewrite Hheader. unfold JS.truthy.
      replace (String.eqb contentRange "") with false
        by (symmetry; apply String.eqb_neq; exact Hfilled).
      reflexivity. }
    split; [| split; [exact Hread | split]].
    + intros [Hnone | Hempty]; cbn [pagination listingOfResponse];
        unfold paginationOf; cbn [total]; [rewrite Hnone | rewrite Hempty];
        reflexivity.
    + intros range n Hheader Hfree Hn.
      rewrite (Hread _ Hheader) by (destruct range; discriminate).
      apply contentRange_total; assumption.
    + intros total Htotal. cbn [pagination listingOfResponse] in *.
      unfold paginationOf in *.
      cbn [ActivitiesApi.total totalPages hasNext hasPrevious] in *.
      rewrite Htotal.
      destruct (Math_ceil_div_isCeiling total limit Hlimit) as (c & Hc & Hceil).
      exists c. rewrite Hc. repeat split; try reflexivity; apply Hceil.
Qed.

End Listings.

(** No record of the initial mock array is soft-deleted, so none of the
    items of user-1's first page is; the page holds the four records that
    user-1 owns, the fourth of them at index 3. *)
Lemma getUserActivities_lists_stored_witness :
  exists l,
    ActivitiesApi.getUserActivities (H := Examples.offline) Examples.march2024
      MockData.mockActivities "user-1" 1 10 = ActivitiesApi.Resolved l
    /\ ActivitiesApi.activities l
       = Props.selectedFor "user-1" MockData.mockActivities
    /\ (exists a, Activity.id a = "activity-5"
                  /\ In a (ActivitiesApi.activities l))
    /\ forall a, In a (ActivitiesApi.activities l) ->
                 Activity.isDeleted a = false.
Proof.
  destruct (getUserActivities_lists_stored (H := Examples.offline)
              Examples.march2024 MockData.mockActivities "user-1" 1 10)
    as (l & Hl & _ & _ & Hrange & Hall & Hclean).
  exists l. split; [exact Hl | split; [| split]].
  - apply Hall; [reflexivity | vm_compute; discriminate].
  - eexists. split; [| apply (Hrange ltac:(lia) ltac:(lia) 3%nat);
                        [reflexivity | lia]].
    reflexivity.
  - apply Hclean. intros a Hin. cbn in Hin.
    repeat (destruct Hin as [<- | Hin]; [reflexivity |]). contradiction.
Defined.

(** C2, as the specification words it, fails: user-1 soft-deletes
    activity-1 and then lists their activities; the first page still holds
    the record, with [isDeleted = true]. *)
Lemma getUserActivities_lists_deleted :
  let store :=
    snd (ActivitiesApi.deleteActivity Examples.march2024
           MockData.mockActivities "activity-1" "user-1") in
  exists l a,
    ActivitiesApi.getUserActivities (H := Examples.offline) Examples.april2024
      store "user-1" 1 10 = ActivitiesApi.Resolved l
    /\ In a (ActivitiesApi.activities l)
    /\ Activity.id a = "activity-1"
    /\ Activity.isDeleted a = true.
Proof.
  cbv zeta. eexists. eexists.
  split; [vm_compute; reflexivity |].
  split; [left; reflexivity | split; reflexivity].
Qed.

(** user-2 owns one record of the mock array and sees only that one; an id
    that owns nothing sees every record. *)
Lemma getUserActivities_selection_witness :
  (exists l,
     ActivitiesApi.getUserActivities (H := Examples.offline) Examples.march2024
       MockData.mockActivities "user-2" 1 10 = ActivitiesApi.Resolved l
     /\ forall a, In a (ActivitiesApi.activities l) ->
                  Activity.userId a = "user-2")
  /\ ActivitiesApi.getUserActivities (H := Examples.offline) Examples.march2024
       MockData.mockActivities "nobody" 1 10
     = ActivitiesApi.Resolved (Props.pageOver MockData.mockActivities 1 10)
  /\ ActivitiesApi.getUserActivities (H := Examples.offline) Examples.march2024
       MockData.mockActivities "current-user" 1 10
     = ActivitiesApi.Resolved (Props.pageOver MockData.mockActivities 1 10).
Proof.
  split; [| split].
  - destruct (proj1 (proj2 (getUserActivities_selection (H := Examples.offline)
                              Examples.march2024 MockData.mockActivities
                              "user-2" 1 10))
                ltac:(vm_compute; discriminate) ltac:(discriminate))
      as (l & Hl & _ & Hown).
    exists l. split; [exact Hl | exact Hown].
  - exact (proj1 (getUserActivities_selection (H := Examples.offline)
                    Examples.march2024 MockData.mockActivities "nobody" 1 10)
             eq_refl).
  - exact (proj2 (proj2 (getUserActivities_selection (H := Examples.offline)
                           Examples.march2024 MockData.mockActivities
                           "current-user" 1 10))
             eq_refl).
Defined.

(** C7, as the specification words it, fails for the literal id
    current-user: after an activity is created under that id, the id
    matches a stored record, yet its listing also returns the records of
    user-1. *)
Lemma getUserActivities_current_user :
  let store :=
    snd (ActivitiesApi.createActivity (H := Examples.offline) 1710000000000
           Examples.march2024 Examples.march2024 MockData.mockActivities
           Examples.chessForm "current-user") in
  Props.ownedBy "current-user" store <> []
  /\ exists l a,
       ActivitiesApi.getUserActivities (H := Examples.offline)
         Examples.april2024 store "current-user" 1 10
       = ActivitiesApi.Resolved l
       /\ In a (ActivitiesApi.activities l)
       /\ Activity.userId a = "user-1"
       /\ Activity.userId a <> "current-user".
Proof.
  cbv zeta. split; [vm_compute; discriminate |].
  eexists. eexists. split; [vm_compute; reflexivity |].
  split; [left; reflexivity | split; [reflexivity | discriminate]].
Qed.

(** Page 2 of user-1's four mock activities, three to a page; and the same
    page asked of a backend that reports a total of 4 in its header. *)
Lemma listing_pagination_witness :
  (exists l,
     ActivitiesApi.getUserActivities (H := Examples.headerless)
       Examples.march2024 MockData.mockActivities "user-1" 2 3
     = ActivitiesApi.Resolved l
     /\ ActivitiesApi.pagination l
        = ActivitiesApi.mkPagination 2 3 (JS.Int 4) (JS.Int 2) false true
     /\ Z.of_nat (length (ActivitiesApi.activities l)) = 1)
  /\ (exists l,
        ActivitiesApi.getActivities (H := Examples.ranged) Examples.march2024
          ActivityFilters.empty 2 3 = ActivitiesApi.Resolved l
        /\ ActivitiesApi.total (ActivitiesApi.pagination l) = JS.Int 4
        /\ ActivitiesApi.totalPages (ActivitiesApi.pagination l) = JS.Int 2
        /\ ActivitiesApi.hasNext (ActivitiesApi.pagination l) = false
        /\ ActivitiesApi.hasPrevious (ActivitiesApi.pagination l) = true).
Proof.
  split.
  - destruct (proj1 (listing_pagination (H := Examples.headerless)
                       Examples.march2024 MockData.mockActivities "user-1" 2 3
                       ltac:(lia) ltac:(lia)))
      as (l & total & c & Hl & Htotal & Hpag & Hceil & Hlen & _).
    vm_compute in Htotal. subst total.
    assert (Hc : c = 2) by (unfold Props.isCeiling in Hceil; lia). subst c.
    exists l. split; [exact Hl | split; [exact Hpag | exact Hlen]].
  - destruct (proj2 (listing_pagination (H := Examples.ranged)
                       Examples.march2024 MockData.mockActivities "user-1" 2 3
                       ltac:(lia) ltac:(lia))
                ActivityFilters.empty _ eq_refl)
      as (l & Hl & _ & _ & _ & Hrange & Hmeta).
    assert (Htotal : ActivitiesApi.total (ActivitiesApi.pagination l)
                     = JS.Int 4).
    { apply (Hrange "3-3" 4); [reflexivity | reflexivity | lia]. }
    destruct (Hmeta 4 Htotal) as (c & Hceil & Hpages & Hnext & Hprev).
    assert (Hc : c = 2) by (unfold Props.isCeiling in Hceil; lia). subst c.
    exists l.
    split; [exact Hl | split; [exact Htotal | split; [exact Hpages |]]].
    split; assumption.
Defined.

(** C3, as the specification words it for every listing call, fails on the
    remote listing: the backend answers page 2 of a one-per-page listing
    with one record and no [Content-Range] header. The total then is the
    number of returned records, 1, and the page holds one item, where
    [min(limit, total - (page - 1) * limit)] is 0. *)
Lemma getActivities_items_counterexample :
  exists l,
    ActivitiesApi.getActivities (H := Examples.headerless) Examples.march2024
      ActivityFilters.empty 2 1 = ActivitiesApi.Resolved l
    /\ ActivitiesApi.total (ActivitiesApi.pagination l) = JS.Int 1
    /\ Z.of_nat (length (ActivitiesApi.activities l)) = 1
    /\ Z.of_nat (length (ActivitiesApi.activities l)) <> Props.pageLength 1 2 1.
Proof.
  eexists. split; [vm_compute; reflexivity |].
  split; [reflexivity | split; [reflexivity | discriminate]].
Qed.

(** ** The query of the public listing *)

Section Query.
Import ActivitiesApi.
Context `{Collaborators}.

Lemma getAll_setIfTruthy_other (name name' : string) (x : option string)
  (value : string -> string) (q : JS.URLSearchParams) :
  name <> name' ->
  JS.URLSearchParams_getAll name (setIfTruthy name' x value q)
  = JS.URLSearchParams_getAll name q.
Proof.
  intros Hne. unfold setIfTruthy. destruct x as [s |]; [| reflexivity].
  destruct (JS.truthy s); [| reflexivity]. apply getAll_set_other, Hne.
Qed.

Lemma In_getAll (name value : string) (q : JS.URLSearchParams) :
  In (name, value) q -> In value (JS.URLSearchParams_getAll name q).
Proof.
  intros Hin. unfold JS.URLSearchParams_getAll.
  apply (in_map snd _ (name, value)). apply List.filter_In.
  split; [exact Hin | apply String.eqb_refl].
Qed.

(** C9 on the code. With both [minPrice] and [maxPrice] set, the query that
    [getActivities] issues carries a single price constraint, the upper
    bound: the second [set] replaces the lower bound that the first one
    stored. *)
Theorem getActivities_price_overwritten (filters : ActivityFilters.t)
  (page limit lo hi : Z) :
  ActivityFilters.minPrice filters = Some lo ->
  ActivityFilters.maxPrice filters = Some hi ->
  let query := getActivities_queryParams filters page limit in
  JS.URLSearchParams_getAll "price" query = ["lte." ++ JS.numberToString hi]
  /\ ~ In ("price", "gte." ++ JS.numberToString lo) query.
Proof.
  intros Hlo Hhi query.
  assert (Hall : JS.URLSearchParams_getAll "price" query
                 = ["lte." ++ JS.numberToString hi]).
  { subst query. unfold getActivities_queryParams. rewrite Hlo, Hhi.
    rewrite !getAll_set_other by discriminate.
    rewrite getAll_setIfTruthy_other by discriminate.
    apply getAll_set_same. }
  split; [exact Hall |].
  intros Hin. apply In_getAll in Hin. rewrite Hall in Hin.
  destruct Hin as [Heq | []]. discriminate Heq.
Qed.

End Query.

(** The query for prices between 10 and 50, first page of ten. *)
Lemma getActivities_price_overwritten_witness :
  ActivitiesApi.getActivities_queryParams (H := Examples.offline)
    Examples.priceRange 1 10
  = [ ("select",
       "*,category:categories(*),organizer:users(full_name,organization_name,email)");
      ("price", "lte.50");
      ("is_deleted", "eq.false");
      ("order", "created_at.desc");
      ("limit", "10");
      ("offset", "0") ]
  /\ JS.URLSearchParams_getAll "price"
       (ActivitiesApi.getActivities_queryParams (H := Examples.offline)
          Examples.priceRange 1 10) = ["lte.50"].
Proof.
  split; [reflexivity |].
  exact (proj1 (getActivities_price_overwritten (H := Examples.offline)
                  Examples.priceRange 1 10 10 50 eq_refl eq_refl)).
Defined.

(** ** The statistics *)

Section Statistics.
Import ActivitiesApi.



End Statistics.


(** * Further properties of the code *)

(** ** The gate: identities, hierarchy and letter case *)

Section GateMore.
Import ProtectedRoute.

Lemma gate_Children_iff (u : User.t) (requiredRoles : option (list string))
  (requiredRole redirectTo : option string) :
  (ProtectedRoute (Some u) false requiredRoles requiredRole redirectTo = Children
   <-> rolesToCheck requiredRoles requiredRole = []
       \/ hasRequiredRole u (rolesToCheck requiredRoles requiredRole) = true)
  /\ (ProtectedRoute (Some u) false requiredRoles requiredRole redirectTo
      = Navigate "/unauthorized"
      <-> rolesToCheck requiredRoles requiredRole <> []
          /\ hasRequiredRole u (rolesToCheck requiredRoles requiredRole) = false).
Proof.
  unfold ProtectedRoute.
  destruct (rolesToCheck requiredRoles requiredRole) as [| r roles'].
  - cbn. split; split.
    + intros _. left. reflexivity.
    + intros _. reflexivity.
    + discriminate.
    + intros [Hne _]. congruence.
  - change (0 <? Z.of_nat (length (r :: roles'))) with true. cbv iota.
    destruct (hasRequiredRole u (r :: roles')); cbn [negb]; split; split.
    + intros _. right. reflexivity.
    + intros _. reflexivity.
    + discriminate.
    + intros [_ Hf]. discriminate.
    + discriminate.
    + intros [Hnil | Hf]; discriminate.
    + intros _. split; [discriminate | reflexivity].
    + intros _. reflexivity.
Qed.

(** The gate renders its children only for a loaded session that carries an
    identity, and then only when no role is required or the identity is
    allowed. Without an identity a loaded gate navigates to [redirectTo],
    /login by default; while loading it shows the loading screen whatever
    the identity. *)
Theorem gate_renders_only_identities (user : option User.t) (loading : bool)
  (requiredRoles : option (list string)) (requiredRole redirectTo : option string) :
  (ProtectedRoute user loading requiredRoles requiredRole redirectTo = Children ->
   loading = false
   /\ exists u, user = Some u
        /\ (rolesToCheck requiredRoles requiredRole = []
            \/ Props.allowed (JS.toLowerCase <$> User.role u)
                 (rolesToCheck requiredRoles requiredRole)))
  /\ ProtectedRoute None false requiredRoles requiredRole redirectTo
     = Navigate (default "/login" redirectTo)
  /\ ProtectedRoute user true requiredRoles requiredRole redirectTo
     = LoadingScreen.
Proof.
  split; [| split; reflexivity].
  destruct loading; [discriminate |]. destruct user as [u |]; [| discriminate].
  intros Hc. split; [reflexivity |]. exists u. split; [reflexivity |].
  apply gate_Children_iff in Hc. destruct Hc as [Hnil | Hhas]; [now left |].
  destruct (rolesToCheck requiredRoles requiredRole) as [| r roles] eqn:E;
    [now left | right].
  apply hasRequiredRole_allowed; [discriminate | exact Hhas].
Qed.

Lemma gate_renders_only_identities_witness :
  exists u, Some Examples.organizerUser = Some u
    /\ (rolesToCheck (Some ["user"]) None = []
        \/ Props.allowed (JS.toLowerCase <$> User.role u)
             (rolesToCheck (Some ["user"]) None)).
Proof.
  exact (proj2 (proj1 (gate_renders_only_identities
                         (Some Examples.organizerUser) false (Some ["user"])
                         None None) eq_refl)).
Defined.

(** The role hierarchy admin over organizer over user: under the same
    requirement, whatever admits an identity of role user admits one of role
    organizer, and an identity of role admin is always admitted. *)
Theorem gate_hierarchy (asUser asOrganizer asAdmin : User.t)
  (requiredRoles : option (list string)) (requiredRole redirectTo : option string) :
  JS.toLowerCase <$> User.role asUser = Some "user" ->
  JS.toLowerCase <$> User.role asOrganizer = Some "organizer" ->
  JS.toLowerCase <$> User.role asAdmin = Some "admin" ->
  (ProtectedRoute (Some asUser) false requiredRoles requiredRole redirectTo
   = Children ->
   ProtectedRoute (Some asOrganizer) false requiredRoles requiredRole redirectTo
   = Children)
  /\ ProtectedRoute (Some asAdmin) false requiredRoles requiredRole redirectTo
     = Children.
Proof.
  intros Huser Horg Hadmin.
  destruct (rolesToCheck requiredRoles requiredRole) as [| r0 roles0] eqn:E.
  - split; [intros _ |]; apply gate_Children_iff; left; exact E.
  - assert (Hne : r0 :: roles0 <> []) by discriminate.
    split.
    + intros Hc. apply gate_Children_iff in Hc. rewrite E in Hc.
      destruct Hc as [Hc | Hc]; [discriminate |].
      apply gate_Children_iff. right. rewrite E.
      apply hasRequiredRole_allowed in Hc; [| exact Hne].
      apply hasRequiredRole_allowed; [exact Hne |].
      rewrite Huser in Hc. rewrite Horg.
      destruct Hc as [Hc | [[Hc _] | (r & Hin & Hr)]]; try discriminate.
      right. left. split; [reflexivity |]. exists r. split; [exact Hin |].
      right. congruence.
    + apply gate_Children_iff. right. rewrite E.
      apply hasRequiredRole_allowed; [exact Hne |]. left. exact Hadmin.
Qed.

Lemma gate_hierarchy_witness :
  (ProtectedRoute
     (Some (User.mk "u" "u@x.fi" (Some "User") None None None Examples.epoch
              Examples.epoch))
     false (Some ["user"; "admin"]) None None = Children ->
   ProtectedRoute (Some Examples.organizerUser) false (Some ["user"; "admin"])
     None None = Children)
  /\ ProtectedRoute
       (Some (User.mk "a" "a@x.fi" (Some "ADMIN") None None None Examples.epoch
                Examples.epoch))
       false (Some ["user"; "admin"]) None None = Children.
Proof.
  exact (gate_hierarchy
           (User.mk "u" "u@x.fi" (Some "User") None None None Examples.epoch
              Examples.epoch)
           Examples.organizerUser
           (User.mk "a" "a@x.fi" (Some "ADMIN") None None None Examples.epoch
              Examples.epoch)
           (Some ["user"; "admin"]) None None eq_refl eq_refl eq_refl).
Defined.

Lemma existsb_roleGrants_lower (userRole : option string) (roles : list string) :
  forall roles',
    JS.toLowerCase <$> roles = JS.toLowerCase <$> roles' ->
    existsb (roleGrants userRole) roles = existsb (roleGrants userRole) roles'.
Proof.
  induction roles as [| r roles IH]; intros [| r' roles'] Heq;
    try discriminate; [reflexivity |].
  cbn in Heq. injection Heq as Hr Hrest. cbn [existsb].
  rewrite (IH roles' Hrest). f_equal. unfold roleGrants. rewrite Hr.
  reflexivity.
Qed.

(** The gate compares roles without regard to letter case: two calls whose
    identities have the same role, and whose roles to check are the same,
    once all are put in lower case, decide alike. *)
Theorem gate_ignores_case (u u' : User.t) (loading : bool)
  (requiredRoles requiredRoles' : option (list string))
  (requiredRole requiredRole' redirectTo : option string) :
  JS.toLowerCase <$> User.role u = JS.toLowerCase <$> User.role u' ->
  JS.toLowerCase <$> rolesToCheck requiredRoles requiredRole
  = JS.toLowerCase <$> rolesToCheck requiredRoles' requiredRole' ->
  ProtectedRoute (Some u) loading requiredRoles requiredRole redirectTo
  = ProtectedRoute (Some u') loading requiredRoles' requiredRole' redirectTo.
Proof.
  intros Hrole Hroles. unfold ProtectedRoute. destruct loading; [reflexivity |].
  unfold hasRequiredRole. rewrite Hrole.
  rewrite (existsb_roleGrants_lower _ _ _ Hroles).
  apply (f_equal (@length string)) in Hroles. rewrite !length_fmap in Hroles.
  rewrite Hroles. reflexivity.
Qed.

Lemma gate_ignores_case_witness :
  ProtectedRoute
    (Some (User.mk "u" "u@x.fi" (Some "ORGANIZER") None None None
             Examples.epoch Examples.epoch))
    false (Some ["Organizer"]) None None
  = ProtectedRoute (Some Examples.organizerUser) false None (Some "organizer")
      None.
Proof.
  exact (gate_ignores_case
           (User.mk "u" "u@x.fi" (Some "ORGANIZER") None None None
              Examples.epoch Examples.epoch)
           Examples.organizerUser false (Some ["Organizer"]) None None
           (Some "organizer") None eq_refl eq_refl).
Defined.

(** An identity that carries no role is refused wherever a role is
    required: the gate navigates to /unauthorized. *)
Theorem gate_refuses_missing_role (u : User.t)
  (requiredRoles : option (list string)) (requiredRole redirectTo : option string) :
  User.role u = None ->
  rolesToCheck requiredRoles requiredRole <> [] ->
  ProtectedRoute (Some u) false requiredRoles requiredRole redirectTo
  = Navigate "/unauthorized".
Proof.
  intros Hrole Hne. apply gate_Children_iff. split; [exact Hne |].
  unfold hasRequiredRole. rewrite Hrole. cbn [fmap option_fmap option_map].
  induction (rolesToCheck requiredRoles requiredRole) as [| r roles IH];
    [reflexivity |].
  cbn [existsb]. unfold roleGrants at 1.
  rewrite !bool_decide_eq_false_2 by discriminate. cbn [andb orb].
  destruct roles as [| r' roles']; [reflexivity |].
  apply IH. discriminate.
Qed.

Lemma gate_refuses_missing_role_witness :
  ProtectedRoute
    (Some (User.mk "u" "u@x.fi" None None None None Examples.epoch
             Examples.epoch))
    false (Some ["user"]) None None = Navigate "/unauthorized".
Proof.
  exact (gate_refuses_missing_role
           (User.mk "u" "u@x.fi" None None None None Examples.epoch
              Examples.epoch)
           (Some ["user"]) None None eq_refl ltac:(discriminate)).
Defined.

(** The admin panel of [App.tsx] opens exactly for the identities whose
    role, in lower case, is admin or organizer; every other identity is
    sent to /unauthorized, and a visitor without identity to /login. *)
Theorem adminRoute_access (u : User.t) :
  let role := JS.toLowerCase <$> User.role u in
  (App.adminRoute (Some u) false = Children
   <-> role = Some "admin" \/ role = Some "organizer")
  /\ (App.adminRoute (Some u) false = Navigate "/unauthorized"
      <-> role <> Some "admin" /\ role <> Some "organizer")
  /\ App.adminRoute None false = Navigate "/login".
Proof.
  intros role. unfold App.adminRoute.
  pose proof (gate_Children_iff u None (Some "organizer") None) as [Hc Hu].
  change (rolesToCheck None (Some "organizer")) with ["organizer"] in Hc, Hu.
  assert (Hhas : hasRequiredRole u ["organizer"] = true
                 <-> role = Some "admin" \/ role = Some "organizer").
  { rewrite hasRequiredRole_allowed by discriminate. fold role.
    unfold Props.allowed. split.
    - intros [Ha | [[Ho _] | (r & [<- | []] & Hr)]]; auto.
    - intros [Ha | Ho]; [left; exact Ha |].
      right. right. exists "organizer". split; [left; reflexivity | exact Ho]. }
  split; [| split; [| reflexivity]].
  - rewrite Hc, Hhas. split; [intros [Hnil | H]; [discriminate | exact H] | auto].
  - rewrite Hu. split.
    + intros [_ Hf]. split; intros Hr;
        (assert (Ht : hasRequiredRole u ["organizer"] = true)
           by (apply Hhas; auto)); congruence.
    + intros [Hna Hno]. split; [discriminate |].
      apply not_true_is_false. intros Ht. apply Hhas in Ht. tauto.
Qed.

End GateMore.

(** ** Arrays written in place *)

Section HelpersMore.
Context {A : Type}.

Lemma length_set_at (l : list A) (i : Z) (x : A) :
  length (JS.set_at l i x) = length l.
Proof. unfold JS.set_at. destruct (i <? 0); [reflexivity | apply length_insert]. Qed.

Lemma find_app_none (p : A -> bool) (l l' : list A) :
  List.find p l = None -> List.find p (l ++ l') = List.find p l'.
Proof.
  induction l as [| h t IH]; [reflexivity |]. cbn.
  destruct (p h); [discriminate | exact IH].
Qed.

Lemma find_app_some (p : A -> bool) (l l' : list A) (x : A) :
  List.find p l = Some x -> List.find p (l ++ l') = Some x.
Proof.
  induction l as [| h t IH]; [discriminate |]. cbn.
  destruct (p h); [tauto | exact IH].
Qed.

(** Replacing an element that a predicate rejects by another that it
    rejects does not change what [find] returns. *)
Lemma find_set_at_rejected (p : A -> bool) (l : list A) (i : Z) (x y : A) :
  JS.get l i = Some x -> p x = false -> p y = false ->
  List.find p (JS.set_at l i y) = List.find p l.
Proof.
  unfold JS.get, JS.set_at. destruct (i <? 0); [discriminate |].
  generalize (Z.to_nat i). clear i. intros n. revert n.
  induction l as [| h t IH]; intros [| n] Hget Hx Hy; try discriminate.
  - cbn in Hget. injection Hget as ->. simpl. rewrite Hx, Hy. reflexivity.
  - cbn in Hget. simpl. rewrite (IH n Hget Hx Hy). reflexivity.
Qed.

(** Counting the elements that satisfy a predicate, before and after one
    element is replaced. *)
Lemma filter_set_at_length (p : A -> bool) (l : list A) (i : Z) (x y : A) :
  JS.get l i = Some x ->
  (length (List.filter p (JS.set_at l i y)) + (if p x then 1 else 0)
   = length (List.filter p l) + (if p y then 1 else 0))%nat.
Proof.
  unfold JS.get, JS.set_at. destruct (i <? 0); [discriminate |].
  generalize (Z.to_nat i). clear i. intros n. revert n.
  induction l as [| h t IH]; intros [| n] Hget; try discriminate.
  - cbn in Hget. injection Hget as ->. simpl.
    destruct (p x), (p y); simpl; lia.
  - cbn in Hget. specialize (IH n Hget). simpl.
    destruct (p h); simpl; lia.
Qed.

Lemma filter_filter_andb (p q : A -> bool) (l : list A) :
  List.filter p (List.filter q l) = List.filter (fun x => q x && p x) l.
Proof.
  induction l as [| h t IH]; [reflexivity |]. cbn.
  destruct (q h); cbn; [destruct (p h) |]; rewrite IH; reflexivity.
Qed.

End HelpersMore.

(** ** Creating, reading, updating and deleting *)

Section Crud.
Import ActivitiesApi.
Context `{Collaborators}.

Lemma stored_id (id : string) (store : list Activity.t) (a : Activity.t) :
  Props.stored id store = Some a -> Activity.id a = id /\ In a store.
Proof.
  unfold Props.stored. intros Hfind. apply find_some in Hfind.
  destruct Hfind as [Hin Hid]. apply String.eqb_eq in Hid. tauto.
Qed.

Lemma stored_index (id : string) (store : list Activity.t) (a : Activity.t) :
  Props.stored id store = Some a ->
  JS.get store (JS.findIndex (fun a => String.eqb (Activity.id a) id) store)
  = Some a
  /\ (JS.findIndex (fun a => String.eqb (Activity.id a) id) store =? -1) = false.
Proof.
  unfold Props.stored. intros Hfind.
  pose proof (findIndex_find (fun a => String.eqb (Activity.id a) id) store)
    as Hidx.
  rewrite Hfind in Hidx. destruct Hidx as [Hpos Hget].
  split; [exact Hget | apply Z.eqb_neq; lia].
Qed.

(** [getActivityById] rejects with the not-found error exactly when no
    stored record has the id; when it resolves, the record is the first
    stored one with that id. *)
Theorem getActivityById_spec (store : list Activity.t) (id : string) :
  (getActivityById store id = Rejected NotFound
   <-> forall a, In a store -> Activity.id a <> id)
  /\ (forall a, getActivityById store id = Resolved a ->
        In a store /\ Activity.id a = id
        /\ exists before after,
             store = (before ++ a :: after)%list
             /\ forall b, In b before -> Activity.id b <> id).
Proof.
  unfold getActivityById, USE_MOCK_DATA.
  destruct (List.find _ store) as [a |] eqn:Hfind.
  - split.
    + split; [discriminate |]. intros Habsent. exfalso.
      apply find_some in Hfind. destruct Hfind as [Hin Hid].
      apply String.eqb_eq in Hid. exact (Habsent a Hin Hid).
    + intros a' Ha'. injection Ha' as <-.
      pose proof (find_some _ _ Hfind) as [Hin Hid].
      apply String.eqb_eq in Hid. split; [exact Hin | split; [exact Hid |]].
      clear Hin. revert Hfind. induction store as [| h t IH]; [discriminate |].
      cbn. destruct (String.eqb (Activity.id h) id) eqn:Hh.
      * intros Heq. injection Heq as ->. exists [], t.
        split; [reflexivity | intros b []].
      * intros Hfind. destruct (IH Hfind) as (before & after & -> & Hbefore).
        exists (h :: before), after. split; [reflexivity |].
        intros b [<- | Hb]; [apply String.eqb_neq, Hh | exact (Hbefore b Hb)].
  - split.
    + split; [| reflexivity]. intros _ a Hin.
      apply String.eqb_neq. exact (find_none _ _ Hfind a Hin).
    + discriminate.
Qed.


(** The first activity of an organizer ends the fallback: an organizer who
    owns no record is listed every record of the store, and once they have
    created one activity, that activity alone. *)
Theorem createActivity_ends_fallback (dateNow : Z) (created updated : Date.t)
  (store : list Activity.t) (formData : ActivityFormData.t)
  (organizerId : string) :
  organizerId <> "current-user" ->
  Props.ownedBy organizerId store = [] ->
  Props.selectedFor organizerId store = store
  /\ exists a,
       fst (createActivity dateNow created updated store formData organizerId)
       = Resolved a
       /\ Props.selectedFor organizerId
            (snd (createActivity dateNow created updated store formData
                    organizerId)) = [a].
Proof.
  intros Hid Hnone. unfold Props.selectedFor.
  replace (String.eqb organizerId "current-user") with false
    by (symmetry; apply String.eqb_neq; exact Hid).
  rewrite Hnone. split; [reflexivity |].
  eexists. split; [reflexivity |].
  unfold createActivity, USE_MOCK_DATA. cbn [snd]. unfold Props.ownedBy in *.
  rewrite List.filter_app, Hnone. cbn [List.filter Activity.userId app].
  rewrite String.eqb_refl. reflexivity.
Qed.

End Crud.

Section CrudWitnesses.
Import ActivitiesApi.

Lemma getActivityById_spec_witness :
  exists a, getActivityById MockData.mockActivities "activity-3" = Resolved a
    /\ In a MockData.mockActivities /\ Activity.id a = "activity-3".
Proof.
  eexists. split; [reflexivity |].
  destruct (proj2 (getActivityById_spec MockData.mockActivities "activity-3")
              _ eq_refl) as (Hin & Hid & _).
  split; [exact Hin | exact Hid].
Defined.


Lemma createActivity_ends_fallback_witness :
  Props.selectedFor "user-9" MockData.mockActivities = MockData.mockActivities
  /\ exists a,
       Props.selectedFor "user-9"
         (snd (createActivity (H := Examples.offline) 1710000000000
                 Examples.march2024 Examples.march2024
                 MockData.mockActivities Examples.chessForm "user-9")) = [a].
Proof.
  destruct (createActivity_ends_fallback (H := Examples.offline)
              1710000000000 Examples.march2024 Examples.march2024
              MockData.mockActivities Examples.chessForm
              "user-9" ltac:(discriminate) eq_refl)
    as (Hall & a & _ & Hone).
  split; [exact Hall | exists a; exact Hone].
Defined.

End CrudWitnesses.

Section Crud2.
Import ActivitiesApi.
Context `{Collaborators}.

Lemma createActivity_record (dateNow : Z) (created updated : Date.t)
  (store : list Activity.t) (formData : ActivityFormData.t)
  (organizerId : string) :
  exists a,
    createActivity dateNow created updated store formData organizerId
    = (Resolved a, (store ++ [a])%list)
    /\ Activity.id a = "activity-" ++ JS.numberToString dateNow
    /\ Activity.userId a = organizerId.
Proof. eexists. split; [reflexivity | split; reflexivity]. Qed.

Lemma updateActivity_denied_eq (now : Date.t) (store : list Activity.t)
  (id : string) (formData : ActivityFormData.t) (organizerId : string)
  (a : Activity.t) :
  Props.stored id store = Some a ->
  Activity.userId a <> organizerId ->
  updateActivity now store id formData organizerId
  = (Rejected PermissionDenied_update, store).
Proof.
  intros Hfind Hother. destruct (stored_index id store a Hfind) as [Hget Hidx].
  unfold updateActivity, USE_MOCK_DATA. rewrite Hidx, Hget.
  replace (String.eqb (Activity.userId a) organizerId) with false
    by (symmetry; apply String.eqb_neq; exact Hother).
  reflexivity.
Qed.

(** Two creations whose [Date.now()] read the same millisecond give two
    records with one id, whatever their time stamps. Every operation by id
    then addresses the first: it is the one read by id, and the creator of
    the second, when another organizer, is denied the edition of what they
    have just created. *)
Theorem createActivity_same_millisecond (dateNow dateNow' : Z)
  (created updated created' updated' later : Date.t)
  (store : list Activity.t) (form1 form2 form : ActivityFormData.t)
  (organizer1 organizer2 : string) :
  dateNow = dateNow' ->
  (forall b, In b store ->
     Activity.id b <> "activity-" ++ JS.numberToString dateNow) ->
  organizer1 <> organizer2 ->
  let first := createActivity dateNow created updated store form1 organizer1 in
  let second :=
    createActivity dateNow' created' updated' (snd first) form2 organizer2 in
  exists a1 a2,
    fst first = Resolved a1
    /\ fst second = Resolved a2
    /\ snd second = (store ++ [a1; a2])%list
    /\ Activity.id a1 = Activity.id a2
    /\ Activity.userId a2 = organizer2
    /\ getActivityById (snd second) (Activity.id a2) = Resolved a1
    /\ updateActivity later (snd second) (Activity.id a2) form organizer2
       = (Rejected PermissionDenied_update, snd second).
Proof.
  intros Htime Hfresh Hother first second.
  destruct (createActivity_record dateNow created updated store form1
              organizer1)
    as (a1 & Hfirst & Hid1 & Howner1).
  fold first in Hfirst.
  destruct (createActivity_record dateNow' created' updated' (snd first) form2
              organizer2)
    as (a2 & Hsecond & Hid2 & Howner2).
  fold second in Hsecond.
  exists a1, a2. rewrite Hsecond, Hfirst. cbn [fst snd].
  assert (Hsame : Activity.id a1 = Activity.id a2) by congruence.
  assert (Hstored : Props.stored (Activity.id a2) ((store ++ [a1]) ++ [a2])%list
                    = Some a1).
  { unfold Props.stored. apply find_app_some. rewrite find_app_none.
    - cbn. rewrite Hsame, String.eqb_refl. reflexivity.
    - apply find_none_iff. intros b Hb. apply String.eqb_neq.
      rewrite <- Hsame, Hid1. exact (Hfresh b Hb). }
  split; [reflexivity |]. split; [reflexivity |].
  split; [rewrite <- app_assoc; reflexivity |].
  split; [exact Hsame |]. split; [exact Howner2 |]. split.
  - unfold getActivityById, USE_MOCK_DATA. unfold Props.stored in Hstored.
    rewrite Hstored. reflexivity.
  - apply updateActivity_denied_eq with (a := a1); [exact Hstored |].
    congruence.
Qed.

(** An update by the owner resolves with the new record and writes it in
    place of the old one. The new record keeps the id, the owner, the
    organizer, the currency, the creation time and the [isDeleted] flag of
    the old one, takes title and price from the form and the time of the
    call as [updatedAt]; the store keeps its length, and every other id
    still addresses the record it addressed. *)
Theorem updateActivity_by_owner (now : Date.t) (store : list Activity.t)
  (id : string) (formData : ActivityFormData.t) (a : Activity.t) :
  Props.stored id store = Some a ->
  exists a',
    fst (updateActivity now store id formData (Activity.userId a)) = Resolved a'
    /\ Props.stored id
         (snd (updateActivity now store id formData (Activity.userId a)))
       = Some a'
    /\ length (snd (updateActivity now store id formData (Activity.userId a)))
       = length store
    /\ Activity.id a' = Activity.id a
    /\ Activity.userId a' = Activity.userId a
    /\ Activity.organizer a' = Activity.organizer a
    /\ Activity.currency a' = Activity.currency a
    /\ Activity.createdAt a' = Activity.createdAt a
    /\ Activity.isDeleted a' = Activity.isDeleted a
    /\ Activity.updatedAt a' = now
    /\ Activity.title a' = ActivityFormData.title formData
    /\ Activity.price a' = default 0 (ActivityFormData.price formData)
    /\ (forall id', id' <> id ->
          Props.stored id'
            (snd (updateActivity now store id formData (Activity.userId a)))
          = Props.stored id' store).
Proof.
  intros Hfind. destruct (stored_index id store a Hfind) as [Hget Hidx].
  destruct (stored_id id store a Hfind) as [Hid _].
  unfold updateActivity, USE_MOCK_DATA. rewrite Hidx, Hget.
  rewrite String.eqb_refl. cbn [negb fst snd].
  eexists. split; [reflexivity |]. split; [| split].
  - unfold Props.stored in *.
    apply find_set_at_findIndex with (x := a); [exact Hfind |].
    cbn [Activity.id]. apply String.eqb_eq, Hid.
  - apply length_set_at.
  - repeat (split; [reflexivity |]).
    intros id' Hne. unfold Props.stored.
    apply find_set_at_rejected with (x := a); [exact Hget | |];
      cbn [Activity.id]; apply String.eqb_neq; congruence.
Qed.

(** A deletion by the owner or by the admin id leaves the record readable
    by id, now with [isDeleted = true] and otherwise the fields it had,
    [updatedAt] apart; the store keeps its length and every other id still
    addresses the record it addressed. *)
Theorem deleteActivity_keeps_record (now : Date.t) (store : list Activity.t)
  (id callerId : string) (a : Activity.t) :
  Props.stored id store = Some a ->
  Activity.userId a = callerId \/ callerId = "admin-user" ->
  let store' := snd (deleteActivity now store id callerId) in
  (exists a', getActivityById store' id = Resolved a'
              /\ Activity.isDeleted a' = true
              /\ Props2.sameButDeletion a a')
  /\ length store' = length store
  /\ (forall id', id' <> id -> Props.stored id' store' = Props.stored id' store).
Proof.
  intros Hfind Hauth store'.
  pose proof (deleteActivity_stored now store id callerId a Hfind Hauth)
    as Hstored.
  fold store' in Hstored. split; [| split].
  - exists (markDeleted now a). unfold getActivityById, USE_MOCK_DATA.
    unfold Props.stored in Hstored. rewrite Hstored.
    split; [reflexivity | split; reflexivity].
  - subst store'.
    rewrite (deleteActivity_authorized now store id callerId a Hfind Hauth).
    apply length_set_at.
  - intros id' Hne. subst store'.
    rewrite (deleteActivity_authorized now store id callerId a Hfind Hauth).
    cbn [snd]. destruct (stored_index id store a Hfind) as [Hget _].
    destruct (stored_id id store a Hfind) as [Hid _].
    unfold Props.stored.
    apply find_set_at_rejected with (x := a); [exact Hget | |];
      cbn [Activity.id markDeleted]; apply String.eqb_neq; congruence.
Qed.

(** A deletion of an id that no stored record has rejects with the
    not-found error, whoever asks, and leaves the store as it was. *)
Theorem deleteActivity_not_found (now : Date.t) (store : list Activity.t)
  (id callerId : string) :
  (forall a, In a store -> Activity.id a <> id) ->
  deleteActivity now store id callerId = (Rejected NotFound, store).
Proof.
  intros Habsent.
  pose proof (findIndex_find (fun a => String.eqb (Activity.id a) id) store)
    as Hidx.
  pose proof (stored_none id store Habsent) as Hnone.
  unfold Props.stored in Hnone. rewrite Hnone in Hidx.
  unfold deleteActivity, USE_MOCK_DATA. rewrite Hidx. reflexivity.
Qed.


End Crud2.

Section Crud2Witnesses.
Import ActivitiesApi.

Lemma createActivity_same_millisecond_witness :
  exists a1 a2,
    Activity.userId a1 = "user-1" /\ Activity.userId a2 = "user-2"
    /\ Activity.id a1 = Activity.id a2
    /\ getActivityById
         (snd (createActivity (H := Examples.offline) 1710000000000
                 Examples.march2024 Examples.march2024
                 (snd (createActivity (H := Examples.offline) 1710000000000
                         Examples.march2024 Examples.march2024
                         MockData.mockActivities Examples.chessForm "user-1"))
                 Examples.chessForm "user-2"))
         (Activity.id a2) = Resolved a1.
Proof.
  destruct (createActivity_same_millisecond (H := Examples.offline)
              1710000000000 1710000000000
              Examples.march2024 Examples.march2024 Examples.march2024
              Examples.march2024 Examples.april2024
              MockData.mockActivities Examples.chessForm Examples.chessForm
              Examples.chessForm "user-1" "user-2" eq_refl)
    as (a1 & a2 & Hfirst & _ & _ & Hsame & Howner2 & Hread & _).
  - intros b Hb. cbn in Hb.
    repeat (destruct Hb as [<- | Hb]; [discriminate |]). contradiction.
  - discriminate.
  - exists a1, a2. injection Hfirst as <-.
    split; [reflexivity | split; [exact Howner2 | split; [exact Hsame |]]].
    exact Hread.
Defined.

Lemma updateActivity_by_owner_witness :
  exists a',
    fst (updateActivity (H := Examples.offline) Examples.march2024
           MockData.mockActivities "activity-4" Examples.chessForm "user-2")
    = Resolved a'
    /\ Activity.title a' = "Chess club"
    /\ Activity.userId a' = "user-2"
    /\ Activity.updatedAt a' = Examples.march2024.
Proof.
  destruct (updateActivity_by_owner (H := Examples.offline) Examples.march2024
              MockData.mockActivities "activity-4" Examples.chessForm _ eq_refl)
    as (a' & Hres & _ & _ & _ & Howner & _ & _ & _ & _ & Hupdated & Htitle & _).
  exists a'. split; [exact Hres |].
  split; [exact Htitle | split; [exact Howner | exact Hupdated]].
Defined.

Lemma deleteActivity_keeps_record_witness :
  exists a',
    getActivityById
      (snd (deleteActivity Examples.march2024 MockData.mockActivities
              "activity-2" "admin-user")) "activity-2" = Resolved a'
    /\ Activity.isDeleted a' = true.
Proof.
  destruct (deleteActivity_keeps_record Examples.march2024
              MockData.mockActivities "activity-2" "admin-user" _ eq_refl
              (or_intror eq_refl))
    as ((a' & Hread & Hdeleted & _) & _).
  exists a'. split; [exact Hread | exact Hdeleted].
Defined.

Lemma deleteActivity_not_found_witness :
  deleteActivity Examples.march2024 MockData.mockActivities "activity-0"
    "admin-user" = (Rejected NotFound, MockData.mockActivities).
Proof.
  apply deleteActivity_not_found. intros a Hin. cbn in Hin.
  repeat (destruct Hin as [<- | Hin]; [discriminate |]). contradiction.
Defined.


End Crud2Witnesses.

(** ** Pages of the owner's listing *)

Section Pages.
Import ActivitiesApi.
Context `{Collaborators}.

Lemma slice_take_drop {A : Type} (l : list A) (offset limit : Z) :
  0 <= offset -> 1 <= limit ->
  JS.slice l offset (offset + limit)
  = take (Z.to_nat limit) (drop (Z.to_nat offset) l).
Proof.
  intros Hoff Hlim. unfold JS.slice, JS.relativeIndex.
  replace (offset <? 0) with false by (symmetry; apply Z.ltb_ge; lia).
  replace (offset + limit <? 0) with false by (symmetry; apply Z.ltb_ge; lia).
  destruct (Z.le_gt_cases (Z.of_nat (length l)) offset) as [Hout | Hin].
  - rewrite !drop_ge by lia. rewrite !take_nil. reflexivity.
  - replace (Z.to_nat (Z.min offset (Z.of_nat (length l))))
      with (Z.to_nat offset) by lia.
    destruct (Z.le_gt_cases (offset + limit) (Z.of_nat (length l))).
    + f_equal. lia.
    + rewrite (take_ge _ (Z.to_nat limit)) by (rewrite length_drop; lia).
      rewrite take_ge by (rewrite length_drop; lia). reflexivity.
Qed.

Lemma filter_length_bound {A : Type} (p : A -> bool) (l : list A) :
  (length (List.filter p l) <= length l)%nat.
Proof.
  induction l as [| h t IH]; [reflexivity |]. cbn.
  destruct (p h); cbn; lia.
Qed.

Lemma itemsOfPages_take (now : Date.t) (store : list Activity.t)
  (organizerId : string) (limit : Z) (count : nat) :
  1 <= limit ->
  forall first, 1 <= first ->
    Props2.itemsOfPages now store organizerId limit first count
    = take (count * Z.to_nat limit)
        (drop (Z.to_nat ((first - 1) * limit))
           (Props.selectedFor organizerId store)).
Proof.
  intros Hlim. induction count as [| count IH]; intros first Hfirst.
  - reflexivity.
  - cbn [Props2.itemsOfPages]. rewrite getUserActivities_pageOver.
    cbn [activities Props.pageOver].
    rewrite slice_take_drop by nia. rewrite IH by lia.
    replace (Z.to_nat ((first + 1 - 1) * limit))
      with (Z.to_nat ((first - 1) * limit) + Z.to_nat limit)%nat by nia.
    rewrite <- drop_drop. rewrite take_take_drop. reflexivity.
Qed.

(** The pages of the owner's listing cut the selected records without loss
    or repetition: for a limit of at least 1, the items of pages
    1, ..., totalPages, put one after the other, are the selected records in
    their order. *)
Theorem pages_partition_selection (now : Date.t) (store : list Activity.t)
  (organizerId : string) (limit : Z) :
  1 <= limit ->
  exists l pages,
    getUserActivities now store organizerId 1 limit = Resolved l
    /\ totalPages (pagination l) = JS.Int pages
    /\ 0 <= pages
    /\ Props2.itemsOfPages now store organizerId limit 1 (Z.to_nat pages)
       = Props.selectedFor organizerId store.
Proof.
  intros Hlim.
  set (selected := Props.selectedFor organizerId store).
  destruct (Math_ceil_div_isCeiling (Z.of_nat (length selected)) limit Hlim)
    as (c & Hc & Hceil).
  exists (Props.pageOver selected 1 limit), c.
  split; [apply getUserActivities_pageOver |].
  split; [cbn [pagination Props.pageOver]; unfold paginationOf;
          cbn [totalPages]; exact Hc |].
  assert (Hpos : 0 <= c) by (unfold Props.isCeiling in Hceil; nia).
  split; [exact Hpos |].
  rewrite itemsOfPages_take by lia. fold selected.
  change (Z.to_nat ((1 - 1) * limit)) with 0%nat. rewrite drop_0.
  apply take_ge. unfold Props.isCeiling in Hceil. nia.
Qed.

(** On the owner's listing, with [page >= 1] and [limit >= 1]: a page holds
    items exactly when it is not beyond [totalPages], and [hasNext] is true
    exactly when the next page holds items. *)
Theorem listing_next_page (now : Date.t) (store : list Activity.t)
  (organizerId : string) (page limit : Z) :
  1 <= page ->
  1 <= limit ->
  exists l next pages,
    getUserActivities now store organizerId page limit = Resolved l
    /\ getUserActivities now store organizerId (page + 1) limit = Resolved next
    /\ totalPages (pagination l) = JS.Int pages
    /\ (activities l <> [] <-> page <= pages)
    /\ (hasNext (pagination l) = true <-> activities next <> []).
Proof.
  intros Hpage Hlim.
  set (selected := Props.selectedFor organizerId store).
  destruct (Math_ceil_div_isCeiling (Z.of_nat (length selected)) limit Hlim)
    as (c & Hc & Hceil).
  exists (Props.pageOver selected page limit),
    (Props.pageOver selected (page + 1) limit), c.
  split; [apply getUserActivities_pageOver |].
  split; [apply getUserActivities_pageOver |].
  split; [cbn [pagination Props.pageOver]; unfold paginationOf;
          cbn [totalPages]; exact Hc |].
  assert (Hnonempty : forall p, 1 <= p ->
             (activities (Props.pageOver selected p limit) <> [] <-> p <= c)).
  { intros p Hp. cbn [activities Props.pageOver].
    pose proof (slice_page_length selected ((p - 1) * limit) limit
                  ltac:(nia) Hlim) as Hlen.
    unfold Props.isCeiling in Hceil.
    destruct (JS.slice selected ((p - 1) * limit) ((p - 1) * limit + limit))
      as [| x items]; cbn [length] in Hlen.
    - split; [congruence |]. intros Hle. exfalso. nia.
    - split; [intros _ | discriminate]. nia. }
  split; [apply Hnonempty; exact Hpage |].
  rewrite (Hnonempty (page + 1)) by lia.
  cbn [pagination Props.pageOver]. unfold paginationOf. cbn [hasNext].
  rewrite Hc. cbn [JS.lt]. rewrite Z.ltb_lt. lia.
Qed.

End Pages.

Section PagesWitnesses.
Import ActivitiesApi.

Lemma pages_partition_selection_witness :
  Props2.itemsOfPages (H := Examples.offline) Examples.march2024
    MockData.mockActivities "user-1" 3 1 2
  = Props.selectedFor "user-1" MockData.mockActivities.
Proof.
  destruct (pages_partition_selection (H := Examples.offline)
              Examples.march2024 MockData.mockActivities "user-1" 3
              ltac:(lia)) as (l & pages & Hl & Hpages & _ & Hall).
  assert (Hp : pages = 2).
  { vm_compute in Hl. injection Hl as <-. vm_compute in Hpages.
    injection Hpages as <-. reflexivity. }
  subst pages. exact Hall.
Defined.

Lemma listing_next_page_witness :
  exists l next,
    getUserActivities (H := Examples.offline) Examples.march2024
      MockData.mockActivities "user-1" 1 3 = Resolved l
    /\ getUserActivities (H := Examples.offline) Examples.march2024
         MockData.mockActivities "user-1" 2 3 = Resolved next
    /\ (hasNext (pagination l) = true <-> activities next <> []).
Proof.
  destruct (listing_next_page (H := Examples.offline) Examples.march2024
              MockData.mockActivities "user-1" 1 3 ltac:(lia) ltac:(lia))
    as (l & next & pages & Hl & Hnext & _ & _ & Hiff).
  exists l, next. split; [exact Hl | split; [exact Hnext | exact Hiff]].
Defined.

End PagesWitnesses.

(** ** The public listing and its query *)

Section Remote.
Import ActivitiesApi.
Context `{Collaborators}.

(** [getActivities] passes a failure of the backend on unchanged. When the
    backend answers, the listing holds one activity per record of the body,
    none for a missing body, and every one of them has [isDeleted = false]
    and the owner and id of its record, whatever the backend sent. *)
Theorem getActivities_outcome (now : Date.t) (filters : ActivityFilters.t)
  (page limit : Z) :
  (forall error,
     apiClient_get "/activities" (getActivities_queryParams filters page limit)
       (buildPaginationConfig page limit) = Rejected error ->
     getActivities now filters page limit = Rejected error)
  /\ (forall response,
        apiClient_get "/activities"
          (getActivities_queryParams filters page limit)
          (buildPaginationConfig page limit) = Resolved response ->
        exists l,
          getActivities now filters page limit = Resolved l
          /\ length (activities l) = length (default [] (data response))
          /\ (forall a, In a (activities l) ->
                Activity.isDeleted a = false
                /\ exists raw, In raw (default [] (data response))
                     /\ Activity.id a = RawActivityData.id raw
                     /\ Activity.userId a = RawActivityData.organizer_id raw)
          /\ (header "content-range" response = None ->
              total (pagination l)
              = JS.Int (Z.of_nat (length (default [] (data response)))))).
Proof.
  split.
  - intros error Hget. unfold getActivities. rewrite Hget. reflexivity.
  - intros response Hget. unfold getActivities. rewrite Hget.
    eexists. split; [reflexivity |].
    cbn [activities pagination listingOfResponse].
    destruct (data response) as [body |]; cbn [fmap option_fmap option_map default].
    + split; [apply length_map | split].
      * intros a Hin. apply in_map_iff in Hin. destruct Hin as (raw & <- & Hraw).
        split; [reflexivity |]. exists raw. repeat split. exact Hraw.
      * intros Hnone. rewrite Hnone. cbv beta iota. unfold paginationOf.
        cbn [total]. unfold id. rewrite length_map. reflexivity.
    + split; [reflexivity | split].
      * intros a [].
      * intros Hnone. rewrite Hnone. reflexivity.
Qed.

Lemma In_keys_set (name value key : string) (q : JS.URLSearchParams) :
  In key (List.map fst (JS.URLSearchParams_set name value q)) ->
  key = name \/ In key (List.map fst q).
Proof.
  induction q as [| [k v] q IH]; cbn [JS.URLSearchParams_set].
  - cbn. intros [<- | []]. left. reflexivity.
  - destruct (String.eqb_spec k name) as [-> | Hk].
    + cbn [List.map fst]. intros [<- | Hin]; [left; reflexivity |].
      right. right. apply in_map_iff in Hin. destruct Hin as (p & <- & Hp).
      apply List.filter_In in Hp. apply in_map. tauto.
    + cbn [List.map fst]. intros [<- | Hin]; [right; left; reflexivity |].
      destruct (IH Hin); [left | right; right]; assumption.
Qed.

(** [set] keeps the names of the parameters distinct. *)
Lemma NoDup_keys_set (name value : string) (q : JS.URLSearchParams) :
  List.NoDup (List.map fst q) ->
  List.NoDup (List.map fst (JS.URLSearchParams_set name value q)).
Proof.
  induction q as [| [k v] q IH]; cbn [JS.URLSearchParams_set]; intros Hnd.
  - cbn. apply List.NoDup_cons; [intros [] | apply List.NoDup_nil].
  - cbn [List.map fst] in Hnd. apply List.NoDup_cons_iff in Hnd.
    destruct Hnd as [Hk Hnd].
    destruct (String.eqb_spec k name) as [-> | Hne].
    + cbn [List.map fst]. apply List.NoDup_cons.
      * intros Hin. apply in_map_iff in Hin.
        destruct Hin as (p & Hp & Hin). apply List.filter_In in Hin.
        destruct Hin as [_ Hin]. rewrite Hp, String.eqb_refl in Hin.
        discriminate.
      * clear Hk IH.
        induction q as [| [k' v'] q IHq]; [apply List.NoDup_nil |].
        cbn [List.map fst] in Hnd. apply List.NoDup_cons_iff in Hnd.
        destruct Hnd as [Hk' Hnd]. cbn [List.filter fst].
        destruct (String.eqb k' name); cbn [negb]; [exact (IHq Hnd) |].
        cbn [List.map fst]. apply List.NoDup_cons; [| exact (IHq Hnd)].
        intros Hin. apply Hk'. apply in_map_iff in Hin.
        destruct Hin as (p & Hp & Hin). apply List.filter_In in Hin.
        apply in_map_iff. exists p. tauto.
    + cbn [List.map fst]. apply List.NoDup_cons; [| exact (IH Hnd)].
      intros Hin. apply In_keys_set in Hin.
      destruct Hin as [Heq | Hin]; [congruence |].
      apply Hk, Hin.
Qed.

Lemma NoDup_keys_setIfTruthy (name : string) (x : option string)
  (value : string -> string) (q : JS.URLSearchParams) :
  List.NoDup (List.map fst q) ->
  List.NoDup (List.map fst (setIfTruthy name x value q)).
Proof.
  intros Hnd. unfold setIfTruthy. destruct x as [s |]; [| exact Hnd].
  destruct (JS.truthy s); [apply NoDup_keys_set |]; exact Hnd.
Qed.

(** Whatever the filters, the query of [getActivities] asks for records
    that are not deleted, newest first, with the limit and the offset
    [(page - 1) * limit] of the page, and names no parameter twice. *)
Theorem getActivities_query_shape (filters : ActivityFilters.t)
  (page limit : Z) :
  let query := getActivities_queryParams filters page limit in
  JS.URLSearchParams_getAll "is_deleted" query = ["eq.false"]
  /\ JS.URLSearchParams_getAll "order" query = ["created_at.desc"]
  /\ JS.URLSearchParams_getAll "limit" query = [JS.numberToString limit]
  /\ JS.URLSearchParams_getAll "offset" query
     = [JS.numberToString ((page - 1) * limit)]
  /\ List.NoDup (List.map fst query).
Proof.
  intros query. subst query. unfold getActivities_queryParams.
  repeat split.
  - rewrite !getAll_set_other by discriminate. apply getAll_set_same.
  - rewrite !getAll_set_other by discriminate. apply getAll_set_same.
  - rewrite !getAll_set_other by discriminate. apply getAll_set_same.
  - apply getAll_set_same.
  - repeat first [ apply NoDup_keys_set | apply NoDup_keys_setIfTruthy ].
    destruct (ActivityFilters.maxPrice filters);
      repeat first [ apply NoDup_keys_set | apply NoDup_keys_setIfTruthy ];
      destruct (ActivityFilters.minPrice filters);
      repeat first [ apply NoDup_keys_set | apply NoDup_keys_setIfTruthy ];
      destruct (ActivityFilters.type filters);
      repeat first [ apply NoDup_keys_set | apply NoDup_keys_setIfTruthy ];
      apply List.NoDup_nil.
Qed.

(** The text filters constrain the query exactly when they are non-empty
    strings: the category by equality, the location by a case-insensitive
    pattern, the search text by a pattern on title or description. An
    absent or empty filter adds no parameter. *)
Theorem getActivities_text_filters (filters : ActivityFilters.t)
  (page limit : Z) :
  let query := getActivities_queryParams filters page limit in
  let given (x : option string) (value : string -> string) : list string :=
    match x with
    | Some s => if JS.truthy s then [value s] else []
    | None => []
    end in
  JS.URLSearchParams_getAll "category_id" query
  = given (ActivityFilters.categoryId filters) (fun s => "eq." ++ s)
  /\ JS.URLSearchParams_getAll "location" query
     = given (ActivityFilters.location filters) (fun s => "ilike.*" ++ s ++ "*")
  /\ JS.URLSearchParams_getAll "or" query
     = given (ActivityFilters.search filters)
         (fun s => "(title.ilike.*" ++ s ++ "*,description.ilike.*" ++ s ++ "*)").
Proof.
  intros query given. subst query given. cbv beta.
  unfold getActivities_queryParams.
  destruct filters as [ty cat loc lo hi se].
  cbn [ActivityFilters.type ActivityFilters.categoryId ActivityFilters.location
       ActivityFilters.minPrice ActivityFilters.maxPrice ActivityFilters.search].
  assert (Hskip : forall name x value q,
             JS.URLSearchParams_getAll name (setIfTruthy name x value q)
             = match x with
               | Some s => if JS.truthy s then [value s]
                           else JS.URLSearchParams_getAll name q
               | None => JS.URLSearchParams_getAll name q
               end).
  { intros name x value q. unfold setIfTruthy. destruct x as [s |]; [| reflexivity].
    destruct (JS.truthy s); [apply getAll_set_same | reflexivity]. }
  split; [| split].
  - rewrite !getAll_set_other by discriminate.
    rewrite getAll_setIfTruthy_other by discriminate.
    destruct hi, lo; rewrite ?getAll_set_other by discriminate;
      rewrite getAll_setIfTruthy_other by discriminate;
      rewrite Hskip; destruct cat as [c |]; try destruct (JS.truthy c);
      try reflexivity; destruct ty;
      rewrite ?getAll_set_other by discriminate; reflexivity.
  - rewrite !getAll_set_other by discriminate.
    rewrite getAll_setIfTruthy_other by discriminate.
    destruct hi, lo; rewrite ?getAll_set_other by discriminate;
      rewrite Hskip; destruct loc as [l |]; try destruct (JS.truthy l);
      try reflexivity; rewrite getAll_setIfTruthy_other by discriminate;
      destruct ty; rewrite ?getAll_set_other by discriminate; reflexivity.
  - rewrite !getAll_set_other by discriminate. rewrite Hskip.
    destruct se as [s |]; try destruct (JS.truthy s); try reflexivity;
      destruct hi, lo; rewrite ?getAll_set_other by discriminate;
      rewrite !getAll_setIfTruthy_other by discriminate;
      destruct ty; rewrite ?getAll_set_other by discriminate; reflexivity.
Qed.

End Remote.

Section RemoteWitnesses.
Import ActivitiesApi.

Lemma getActivities_outcome_witness :
  getActivities (H := Examples.offline) Examples.march2024
    Examples.priceRange 1 10 = Rejected (mkError "Network Error")
  /\ exists l,
       getActivities (H := Examples.headerless) Examples.march2024
         Examples.priceRange 1 10 = Resolved l
       /\ length (activities l) = 1%nat
       /\ total (pagination l) = JS.Int 1.
Proof.
  split.
  - exact (proj1 (getActivities_outcome (H := Examples.offline)
                    Examples.march2024 Examples.priceRange 1 10) _ eq_refl).
  - destruct (proj2 (getActivities_outcome (H := Examples.headerless)
                       Examples.march2024 Examples.priceRange 1 10) _ eq_refl)
      as (l & Hl & Hlen & _ & Htotal).
    exists l. split; [exact Hl | split; [exact Hlen | exact (Htotal eq_refl)]].
Defined.

End RemoteWitnesses.

(** ** Statistics and the listing *)

Section StatsMore.
Import ActivitiesApi.
Context `{Collaborators}.

(** The statistics count over the records that the owner's listing pages
    over. *)
Lemma stats_selection (store : list Activity.t) (organizerId : string) :
  (let userActivities :=
     List.filter (fun activity =>
                    String.eqb (Activity.userId activity) organizerId
                    || String.eqb organizerId "current-user") store in
   if 0 <? Z.of_nat (length userActivities) then userActivities else store)
  = Props.selectedFor organizerId store.
Proof.
  cbv zeta. unfold Props.selectedFor, Props.ownedBy.
  destruct (String.eqb organizerId "current-user").
  - rewrite filter_all by (intros x; apply orb_true_r).
    destruct (0 <? Z.of_nat (length store)); reflexivity.
  - rewrite (List.filter_ext
               (fun activity =>
                  String.eqb (Activity.userId activity) organizerId || false)
               (fun a => String.eqb (Activity.userId a) organizerId))
      by (intros a; apply orb_false_r).
    destruct (List.filter _ store) as [| a owned]; reflexivity.
Qed.

(** The counts of the statistics: the total is the number of records that
    the owner's listing pages over, so it is the total that the listing
    reports; the active and the this-month counts lie between 0 and the
    total; and the total is positive as soon as the store holds a record. *)
Theorem stats_counts (now now' : Date.t) (random : Q)
  (store : list Activity.t) (organizerId : string) (page limit : Z) :
  let stats := getUserActivityStats now random store organizerId in
  total_activities stats
  = Z.of_nat (length (Props.selectedFor organizerId store))
  /\ 0 <= active_activities stats <= total_activities stats
  /\ 0 <= this_month_activities stats <= total_activities stats
  /\ (store <> [] -> 0 < total_activities stats)
  /\ exists l,
       getUserActivities now' store organizerId page limit = Resolved l
       /\ total (pagination l) = JS.Int (total_activities stats).
Proof.
  intros stats. subst stats. unfold getUserActivityStats, USE_MOCK_DATA.
  cbn [total_activities active_activities this_month_activities].
  pose proof (stats_selection store organizerId) as Hsel. cbv zeta in Hsel.
  rewrite Hsel. set (selected := Props.selectedFor organizerId store).
  split; [reflexivity |].
  split; [pose proof (filter_length_bound
                        (fun a => negb (Activity.isDeleted a)) selected); lia |].
  split.
  { match goal with
    | |- context [List.filter ?p selected] =>
        pose proof (filter_length_bound p selected)
    end. lia. }
  split.
  - intros Hne. subst selected. unfold Props.selectedFor.
    assert (Hstore : 0 < Z.of_nat (length store))
      by (destruct store; [congruence | cbn [length]; lia]).
    destruct (String.eqb organizerId "current-user"); [exact Hstore |].
    destruct (Props.ownedBy organizerId store) as [| a owned];
      [exact Hstore | cbn [length]; lia].
  - eexists. split; [apply getUserActivities_pageOver | reflexivity].
Qed.

(** A soft deletion changes the statistics of the record's owner in one
    place: when the record was active, the active count drops by one; the
    total and the this-month count stay. *)
Theorem deleteActivity_stats (now now' : Date.t) (random : Q)
  (store : list Activity.t) (id callerId : string) (a : Activity.t) :
  Props.stored id store = Some a ->
  Activity.userId a = callerId \/ callerId = "admin-user" ->
  Activity.isDeleted a = false ->
  let store' := snd (deleteActivity now store id callerId) in
  let before := getUserActivityStats now' random store (Activity.userId a) in
  let after := getUserActivityStats now' random store' (Activity.userId a) in
  total_activities after = total_activities before
  /\ this_month_activities after = this_month_activities before
  /\ active_activities after = active_activities before - 1.
Proof.
  intros Hfind Hauth Hactive store' before after.
  subst before after store'.
  rewrite (deleteActivity_authorized now store id callerId a Hfind Hauth).
  cbn [snd]. destruct (stored_index id store a Hfind) as [Hget _].
  set (i := JS.findIndex (fun a0 => String.eqb (Activity.id a0) id) store) in *.
  set (owner := Activity.userId a).
  set (q := fun activity : Activity.t =>
              String.eqb (Activity.userId activity) owner
              || String.eqb owner "current-user").
  assert (Hqa : q a = true)
    by (unfold q, owner; rewrite String.eqb_refl; reflexivity).
  assert (Hqa' : q (markDeleted now a) = true) by exact Hqa.
  pose proof (filter_set_at_length q store i a (markDeleted now a) Hget) as Hq.
  rewrite Hqa, Hqa' in Hq.
  assert (Hin : In a (List.filter q store)).
  { apply List.filter_In. split; [| exact Hqa].
    exact (proj2 (stored_id id store a Hfind)). }
  assert (Hpos : (0 < length (List.filter q store))%nat)
    by (destruct (List.filter q store); [destruct Hin | cbn; lia]).
  unfold getUserActivityStats, USE_MOCK_DATA.
  cbn [total_activities active_activities this_month_activities]. fold q.
  replace (0 <? Z.of_nat (length (List.filter q (JS.set_at store i (markDeleted now a)))))
    with true by (symmetry; apply Z.ltb_lt; lia).
  replace (0 <? Z.of_nat (length (List.filter q store)))
    with true by (symmetry; apply Z.ltb_lt; lia).
  rewrite !filter_filter_andb.
  split; [lia | split].
  - match goal with
    | |- context [List.filter ?p (JS.set_at store i (markDeleted now a))] =>
        pose proof (filter_set_at_length p store i a (markDeleted now a) Hget)
          as Hm; cbv beta in Hm
    end.
    change (Activity.createdAt (markDeleted now a)) with (Activity.createdAt a)
      in Hm.
    rewrite Hqa' in Hm. rewrite Hqa in Hm.
    destruct (_ && _) in Hm; lia.
  - pose proof (filter_set_at_length
                  (fun x => q x && negb (Activity.isDeleted x)) store i a
                  (markDeleted now a) Hget) as Hact.
    cbv beta in Hact. rewrite Hqa, Hqa', Hactive in Hact.
    cbn [Activity.isDeleted markDeleted negb andb] in Hact. lia.
Qed.

End StatsMore.

Section StatsWitnesses.
Import ActivitiesApi.

Lemma deleteActivity_stats_witness :
  active_activities
    (getUserActivityStats Examples.april2024 0
       (snd (deleteActivity Examples.march2024 MockData.mockActivities
               "activity-1" "user-1")) "user-1")
  = active_activities
      (getUserActivityStats Examples.april2024 0 MockData.mockActivities
         "user-1") - 1.
Proof.
  exact (proj2 (proj2 (deleteActivity_stats Examples.march2024
                         Examples.april2024 0 MockData.mockActivities
                         "activity-1" "user-1" _ eq_refl (or_introl eq_refl)
                         eq_refl))).
Defined.

End StatsWitnesses.

(** ** The page buttons *)

Section Buttons.
Import Table ActivitiesApi.
Context `{Collaborators}.

Lemma pushPages_In (fuel : nat) :
  forall (i end_ : Z) (pages : list Z) (p : Z),
    In p (pushPages fuel i end_ pages) -> In p pages \/ i <= p <= end_.
Proof.
  induction fuel as [| fuel IH]; intros i end_ pages p Hin; [left; exact Hin |].
  cbn [pushPages] in Hin. destruct (Z.leb_spec i end_); [| left; exact Hin].
  apply IH in Hin. destruct Hin as [Hin | Hin]; [| right; lia].
  apply in_app_or in Hin. destruct Hin as [Hin | [<- | []]];
    [left; exact Hin | right; lia].
Qed.

Lemma getPageNumbers_bounds_aux (currentPage totalPages maxPageButtons p : Z) :
  (In p (getPageNumbers currentPage totalPages maxPageButtons) ->
   1 <= p <= totalPages)
  /\ (totalPages <= 0 ->
      getPageNumbers currentPage totalPages maxPageButtons = []).
Proof.
  unfold getPageNumbers. split.
  - intros Hin. apply pushPages_In in Hin. destruct Hin as [[] | Hin].
    destruct (_ <? _) in Hin; lia.
  - intros Hnone.
    match goal with
    | |- pushPages ?fuel _ _ _ = _ =>
        assert (Hfuel : fuel = 0%nat); [| rewrite Hfuel; reflexivity]
    end.
    destruct (_ <? _); lia.
Qed.

(** Whatever the current page, the number of pages and the window size,
    every page number that [Pagination] shows lies between 1 and
    [totalPages]; without pages it shows none. *)
Theorem getPageNumbers_within (currentPage totalPages maxPageButtons p : Z) :
  (In p (getPageNumbers currentPage totalPages maxPageButtons) ->
   1 <= p <= totalPages)
  /\ (totalPages <= 0 ->
      getPageNumbers currentPage totalPages maxPageButtons = []).
Proof. apply getPageNumbers_bounds_aux. Qed.

Lemma getPageNumbers_within_witness : 1 <= 7 <= 10.
Proof.
  apply (proj1 (getPageNumbers_within 42 10 5 7)). vm_compute. tauto.
Defined.

(** For a current page within [1, totalPages] and a window size w >= 1,
    [Pagination] shows exactly min(w, totalPages) page numbers, all
    different; when the pages are no more than w it shows them all. *)
Theorem getPageNumbers_count (currentPage totalPages w : Z) :
  1 <= currentPage <= totalPages ->
  1 <= w ->
  let pages := getPageNumbers currentPage totalPages w in
  Z.of_nat (length pages) = Z.min w totalPages
  /\ List.NoDup pages
  /\ (totalPages <= w -> pages = seqZ 1 totalPages).
Proof.
  intros Hcur Hw pages.
  assert (Hhalf : 0 <= w / 2 <= w - 1).
  { split; [apply Z.div_pos; lia |].
    assert (w / 2 < w) by (apply Z.div_lt; lia). lia. }
  set (start0 := Z.max 1 (currentPage - w / 2)).
  set (end_ := Z.min totalPages (start0 + w - 1)).
  set (start := Z.max 1 (end_ - w + 1)).
  assert (Hpages : pages = seqZ start (end_ - start + 1)).
  { subst pages. unfold getPageNumbers. fold start0. fold end_.
    assert (Hs : (if end_ - start0 + 1 <? w
                  then Z.max 1 (end_ - w + 1) else start0) = start).
    { destruct (Z.ltb_spec (end_ - start0 + 1) w); [reflexivity | lia]. }
    rewrite Hs, pushPages_seqZ by lia.
    cbn [app]. f_equal. lia. }
  rewrite Hpages. split; [rewrite length_seqZ; lia | split].
  - apply NoDup_ListNoDup, NoDup_seqZ.
  - intros Hall. f_equal; lia.
Qed.

Lemma getPageNumbers_count_witness :
  Z.of_nat (length (getPageNumbers 2 3 5)) = 3
  /\ getPageNumbers 2 3 5 = seqZ 1 3.
Proof.
  destruct (getPageNumbers_count 2 3 5 ltac:(lia) ltac:(lia))
    as (Hlen & _ & Hall).
  split; [exact Hlen | apply Hall; lia].
Defined.

Lemma page_holds_items (selected : list Activity.t) (p limit c : Z) :
  1 <= p -> 1 <= limit ->
  Props.isCeiling (Z.of_nat (length selected)) limit c ->
  (activities (Props.pageOver selected p limit) <> [] <-> p <= c).
Proof.
  intros Hp Hlim Hceil. cbn [activities Props.pageOver].
  pose proof (slice_page_length selected ((p - 1) * limit) limit
                ltac:(nia) Hlim) as Hlen.
  unfold Props.isCeiling in Hceil.
  destruct (JS.slice selected ((p - 1) * limit) ((p - 1) * limit + limit))
    as [| x items]; cbn [length] in Hlen.
  - split; [congruence |]. intros Hle. exfalso. nia.
  - split; [intros _ | discriminate]. nia.
Qed.

(** The buttons of [Pagination] agree with the owner's listing they are
    fed: for a listing of page [page >= 1] with [limit >= 1], Previous is
    disabled exactly when [hasPrevious] is false; on a page within
    [totalPages], Next is disabled exactly when [hasNext] is false; and
    every page number shown, whatever the window size, leads to a page that
    holds items. *)
Theorem pagination_agrees_with_listing (now : Date.t)
  (store : list Activity.t) (organizerId : string) (page limit w : Z) :
  1 <= page ->
  1 <= limit ->
  exists l pages,
    getUserActivities now store organizerId page limit = Resolved l
    /\ totalPages (pagination l) = JS.Int pages
    /\ previousDisabled page = negb (hasPrevious (pagination l))
    /\ (page <= pages ->
        nextDisabled page pages = negb (hasNext (pagination l)))
    /\ (forall p, In p (getPageNumbers page pages w) ->
          exists l', getUserActivities now store organizerId p limit = Resolved l'
                     /\ activities l' <> []).
Proof.
  intros Hpage Hlim.
  set (selected := Props.selectedFor organizerId store).
  destruct (Math_ceil_div_isCeiling (Z.of_nat (length selected)) limit Hlim)
    as (c & Hc & Hceil).
  exists (Props.pageOver selected page limit), c.
  split; [apply getUserActivities_pageOver |].
  cbn [pagination Props.pageOver]. unfold paginationOf.
  cbn [totalPages hasPrevious hasNext]. rewrite Hc. cbn [JS.lt].
  split; [reflexivity |]. unfold previousDisabled, nextDisabled.
  split; [| split].
  - destruct (Z.eqb_spec page 1), (Z.ltb_spec 1 page); cbn; lia || reflexivity.
  - intros Hle.
    destruct (Z.eqb_spec page c), (Z.ltb_spec page c); cbn; lia || reflexivity.
  - intros p Hin.
    apply (proj1 (getPageNumbers_bounds_aux page c w p)) in Hin.
    eexists. split; [apply getUserActivities_pageOver |].
    apply (page_holds_items selected p limit c); [lia | exact Hlim | exact Hceil | lia].
Qed.

End Buttons.

Section ButtonsWitnesses.
Import Table ActivitiesApi.

Lemma pagination_agrees_with_listing_witness :
  exists l,
    getUserActivities (H := Examples.offline) Examples.march2024
      MockData.mockActivities "user-1" 2 3 = Resolved l
    /\ previousDisabled 2 = negb (hasPrevious (pagination l))
    /\ nextDisabled 2 2 = negb (hasNext (pagination l)).
Proof.
  destruct (pagination_agrees_with_listing (H := Examples.offline)
              Examples.march2024 MockData.mockActivities "user-1" 2 3 5
              ltac:(lia) ltac:(lia))
    as (l & pages & Hl & Hpages & Hprev & Hnext & _).
  assert (Hp : pages = 2).
  { pose proof Hl as Hv. vm_compute in Hv. injection Hv as Hv.
    rewrite <- Hv in Hpages. vm_compute in Hpages.
    injection Hpages as <-. reflexivity. }
  subst pages. exists l.
  split; [exact Hl | split; [exact Hprev | apply Hnext; lia]].
Defined.

End ButtonsWitnesses.

(** ** The activities page *)

Section PageProps.
Import ActivitiesApi ActivitiesPage.
Context `{Collaborators}.
Variable toLocaleDateString : Date.t -> string.

(** Loading the page of a signed-in user fills the table from the owner's
    listing, five to a page: one row per listed activity, in order, with
    the activity's id; a row is Rejected exactly when its activity is
    soft-deleted and Approved otherwise, never Pending. The error is
    cleared and the loading flag dropped. Without a user id nothing
    changes. *)
Theorem loadActivities_rows (now : Date.t) (user : option User.t)
  (store : list Activity.t) (st : State) :
  (userId user = None -> loadActivities toLocaleDateString now user store st = st)
  /\ (forall uid, userId user = Some uid ->
        let st' := loadActivities toLocaleDateString now user store st in
        getUserActivities now store uid (currentPage st) 5
        = Resolved {| ActivitiesApi.activities := rawActivities st';
                      pagination :=
                        paginationOf (currentPage st) 5
                          (JS.Int (Z.of_nat
                                     (length (Props.selectedFor uid store)))) |}
        /\ ActivitiesPage.activities st' = List.map (transformActivityForDisplay toLocaleDateString)
             (rawActivities st')
        /\ (1 <= currentPage st ->
            Z.of_nat (length (ActivitiesPage.activities st')) <= 5)
        /\ (forall a, In a (rawActivities st') ->
              id (transformActivityForDisplay toLocaleDateString a) = Activity.id a
              /\ (status (transformActivityForDisplay toLocaleDateString a) = Status.Rejected
                  <-> Activity.isDeleted a = true)
              /\ (status (transformActivityForDisplay toLocaleDateString a) = Status.Approved
                  <-> Activity.isDeleted a = false))
        /\ error st' = ""
        /\ isLoading st' = false
        /\ currentPage st' = currentPage st).
Proof.
  split.
  - intros Hnone. unfold loadActivities. rewrite Hnone. reflexivity.
  - intros uid Huid st'. subst st'. unfold loadActivities. rewrite Huid.
    rewrite getUserActivities_pageOver.
    cbn [rawActivities ActivitiesPage.activities error isLoading currentPage
         ActivitiesApi.activities Props.pageOver].
    split; [reflexivity | split; [reflexivity | split]].
    + intros Hpage. rewrite length_map.
      rewrite slice_page_length by nia. lia.
    + split; [| repeat split].
      intros a _. cbn [id status transformActivityForDisplay].
      destruct (Activity.isDeleted a); repeat split; congruence.
Qed.

(** Deleting from the page. When the user declines the confirmation,
    nothing changes. When the deletion is refused, the store and the rows
    stay, and the page shows the message of the error. When it succeeds,
    the page is reloaded from the store after the deletion, where the record
    is kept: if it is on the current page it is still listed, now with the
    status Rejected. *)
Theorem handleDeleteActivity_outcomes (now now' : Date.t) (user : User.t)
  (store : list Activity.t) (activityId : string) (st : State)
  (a : Activity.t) :
  JS.truthy (User.id user) = true ->
  Props.stored activityId store = Some a ->
  handleDeleteActivity toLocaleDateString now now' (Some user) false store
    activityId st = (st, store)
  /\ (Activity.userId a <> User.id user -> User.id user <> "admin-user" ->
      let '(st', store') :=
        handleDeleteActivity toLocaleDateString now now' (Some user) true
          store activityId st in
      store' = store
      /\ ActivitiesPage.activities st' = ActivitiesPage.activities st
      /\ error st' = "You do not have permission to delete this activity"
      /\ isLoading st' = false)
  /\ (Activity.userId a = User.id user \/ User.id user = "admin-user" ->
      let '(st', store') :=
        handleDeleteActivity toLocaleDateString now now' (Some user) true
          store activityId st in
      store' = snd (deleteActivity now store activityId (User.id user))
      /\ st' = loadActivities toLocaleDateString now' (Some user) store' st
      /\ Props.stored activityId store' = Some (markDeleted now a)
      /\ (In (markDeleted now a) (rawActivities st') ->
          In (transformActivityForDisplay toLocaleDateString (markDeleted now a)) (ActivitiesPage.activities st')
          /\ status (transformActivityForDisplay toLocaleDateString (markDeleted now a)) = Status.Rejected)).
Proof.
  intros Hid Hfind.
  assert (Huid : userId (Some user) = Some (User.id user))
    by (unfold userId; rewrite Hid; reflexivity).
  split; [| split].
  - unfold handleDeleteActivity. rewrite Huid. reflexivity.
  - intros Hother Hnotadmin. unfold handleDeleteActivity. rewrite Huid.
    destruct (stored_index activityId store a Hfind) as [Hget Hidx].
    unfold deleteActivity, USE_MOCK_DATA. rewrite Hidx, Hget.
    replace (String.eqb (Activity.userId a) (User.id user)) with false
      by (symmetry; apply String.eqb_neq; exact Hother).
    replace (String.eqb (User.id user) "admin-user") with false
      by (symmetry; apply String.eqb_neq; exact Hnotadmin).
    cbn [negb andb]. repeat split.
  - intros Hauth. unfold handleDeleteActivity. rewrite Huid.
    pose proof (deleteActivity_authorized now store activityId (User.id user)
                  a Hfind Hauth) as Hdel.
    pose proof (deleteActivity_stored now store activityId (User.id user)
                  a Hfind Hauth) as Hstored.
    rewrite Hdel in *. cbn [snd] in *.
    split; [reflexivity | split; [reflexivity | split; [exact Hstored |]]].
    intros Hin. split; [| reflexivity].
    unfold loadActivities in *. rewrite Huid in *.
    rewrite getUserActivities_pageOver in *.
    cbn [rawActivities ActivitiesPage.activities] in *.
    apply in_map. exact Hin.
Qed.

End PageProps.

(** ** The side bar *)

Section SidebarProps.
Import Sidebar.

Lemma substring_prefix_of (n : nat) :
  forall (m : nat) (s : string),
    (n <= m)%nat ->
    String.substring 0 n (String.substring 0 m s) = String.substring 0 n s.
Proof.
  induction n as [| n IH]; intros m s Hle.
  - destruct (String.substring 0 m s), s; reflexivity.
  - destruct m as [| m]; [lia |]. destruct s as [| c s]; [reflexivity |].
    cbn. rewrite IH by lia. reflexivity.
Qed.

Lemma prefix_slash (path pathname : string) :
  String.prefix (path ++ "/") pathname = true ->
  String.prefix path pathname = true.
Proof.
  revert pathname. induction path as [| c path IH]; intros pathname Hp.
  - destruct pathname; reflexivity.
  - destruct pathname as [| d pathname]; [discriminate |]. simpl in *.
    destruct (ascii_dec c d); [apply IH; exact Hp | discriminate].
Qed.

(** An active item and the path name agree on their first eight
    characters, when the item's path has that many. *)
Lemma isActive_head (pathname path : string) :
  isActive pathname path = true ->
  (8 <= String.length path)%nat ->
  String.substring 0 8 pathname = String.substring 0 8 path.
Proof.
  unfold isActive. intros Hact Hlen.
  assert (Hp : String.prefix path pathname = true).
  { apply orb_true_iff in Hact. destruct Hact as [Heq | Hpre].
    - apply String.eqb_eq in Heq. subst. apply String.prefix_correct.
      clear Hlen. induction path as [| c path IH]; [reflexivity |].
      cbn. rewrite IH. reflexivity.
    - apply prefix_slash, Hpre. }
  apply String.prefix_correct in Hp.
  transitivity (String.substring 0 8
                  (String.substring 0 (String.length path) pathname)).
  - symmetry. apply substring_prefix_of. exact Hlen.
  - rewrite Hp. reflexivity.
Qed.

(** With the default menu, the side bar highlights at most one item,
    whatever the path name; it highlights an item on the item's own path and
    on every path below it. *)
Theorem sidebar_highlights_one (pathname rest : string) (item : MenuItem) :
  (length (activeItems pathname None) <= 1)%nat
  /\ (In item (renderedItems None) ->
      In item (activeItems (path item) None)
      /\ In item (activeItems (path item ++ "/" ++ rest) None)).
Proof.
  split.
  - unfold activeItems, renderedItems, defaultMenuItems, bottomMenuItems.
    cbn [default app List.filter path].
    repeat match goal with
           | |- context [isActive pathname ?p] =>
               let E := fresh "E" in
               destruct (isActive pathname p) eqn:E;
               [apply isActive_head in E; [| cbn; lia]; cbn in E |]
           end;
      cbn [length]; try lia; exfalso; congruence.
  - intros Hin.
    assert (Hself : forall p, isActive p p = true)
      by (intros p; unfold isActive; rewrite String.eqb_refl; reflexivity).
    assert (Hbelow : forall p, isActive (p ++ "/" ++ rest) p = true).
    { intros p. unfold isActive. apply orb_true_iff. right.
      induction p as [| c p IH]; simpl.
      - destruct (ascii_dec "/" "/"); [| congruence].
        destruct rest; reflexivity.
      - destruct (ascii_dec c c); [exact IH | congruence]. }
    unfold activeItems. split; apply List.filter_In; split; auto.
Qed.

Lemma sidebar_highlights_one_witness :
  In (mkMenuItem "users" "Users" "user" "/admin/users" None)
    (activeItems "/admin/users/42" None).
Proof.
  apply (proj2 (proj2 (sidebar_highlights_one "" "42"
                         (mkMenuItem "users" "Users" "user" "/admin/users" None))
                  ltac:(vm_compute; tauto))).
Defined.

End SidebarProps.

Section PageWitnesses.
Import ActivitiesApi ActivitiesPage.

Lemma loadActivities_rows_witness :
  let st' :=
    loadActivities (H := Examples.offline) (fun _ => "01.02.2024")
      Examples.march2024 (Some Examples.organizerUser) MockData.mockActivities
      initialState in
  Z.of_nat (length (ActivitiesPage.activities st')) <= 5
  /\ error st' = ""
  /\ isLoading st' = false.
Proof.
  destruct (proj2 (loadActivities_rows (H := Examples.offline)
                     (fun _ => "01.02.2024") Examples.march2024
                     (Some Examples.organizerUser) MockData.mockActivities
                     initialState) "user-1" eq_refl)
    as (_ & _ & Hrows & _ & Herror & Hloading & _).
  split; [apply Hrows; cbn; lia | split; [exact Herror | exact Hloading]].
Defined.

Lemma handleDeleteActivity_outcomes_witness :
  handleDeleteActivity (H := Examples.offline) (fun _ => "01.02.2024")
    Examples.march2024 Examples.april2024 (Some Examples.organizerUser) false
    MockData.mockActivities "activity-1" initialState
  = (initialState, MockData.mockActivities)
  /\ exists a,
       Props.stored "activity-1"
         (snd (handleDeleteActivity (H := Examples.offline)
                 (fun _ => "01.02.2024") Examples.march2024 Examples.april2024
                 (Some Examples.organizerUser) true MockData.mockActivities
                 "activity-1" initialState))
       = Some (markDeleted Examples.march2024 a).
Proof.
  destruct (handleDeleteActivity_outcomes (H := Examples.offline)
              (fun _ => "01.02.2024") Examples.march2024 Examples.april2024
              Examples.organizerUser MockData.mockActivities "activity-1"
              initialState _ eq_refl eq_refl)
    as (Hcancel & _ & Hok).
  split; [exact Hcancel |].
  specialize (Hok (or_introl eq_refl)).
  destruct (handleDeleteActivity _ _ _ _ true _ _ _) as [st' store'].
  destruct Hok as (_ & _ & Hstored & _).
  eexists. exact Hstored.
Defined.

End PageWitnesses.

(** ** Searching on the activities page *)

Section SearchProps.
Import ActivitiesApi ActivitiesPage.
Context `{Collaborators}.
Variable toLocaleDateString : Date.t -> string.


End SearchProps.

(** ** Signing up and logging in *)

Example trim_spaces :
  UTF16.trim (UTF16.ofAscii "  ab c  ") = UTF16.ofAscii "ab c"
  /\ UTF16.trim [160; 97; 8232] = [97].
Proof. split; reflexivity. Qed.

Example emailRegex_examples :
  Regex.test Regex.emailRegex (UTF16.ofAscii "anna@hobbly.fi") = true
  /\ Regex.test Regex.emailRegex (UTF16.ofAscii "anna@hobbly") = false
  /\ Regex.test Regex.emailRegex (UTF16.ofAscii "an na@hobbly.fi") = false
  /\ Regex.test Regex.emailRegex (UTF16.ofAscii "@hobbly.fi") = false
  /\ Regex.test Regex.emailRegex (UTF16.ofAscii "a@b@c.d") = false
  /\ Regex.test Regex.emailRegex (1103 :: UTF16.ofAscii "@hobbly.fi") = true
  /\ Regex.test Regex.emailRegex (160 :: UTF16.ofAscii "@hobbly.fi") = false.
Proof. repeat split. Qed.

Example phoneRegex_examples :
  Regex.test Regex.phoneRegex (UTF16.ofAscii "+358401234567") = true
  /\ Regex.test Regex.phoneRegex (UTF16.ofAscii "0401234567") = false
  /\ Regex.test Regex.phoneRegex (UTF16.ofAscii "5") = false
  /\ Regex.test Regex.phoneRegex (UTF16.ofAscii "1234567890123456") = false
  /\ Regex.test Regex.phoneRegex
       (UTF16.removeAll SignUp.isPhoneSeparator
          (UTF16.ofAscii "+358 (40) 123-4567")) = true.
Proof. repeat split. Qed.

Example includes_examples :
  JSMore.includes "not confirmed" "Email not confirmed yet" = true
  /\ JSMore.includes "x" "" = false
  /\ JSMore.includes "" "" = true.
Proof. repeat split. Qed.

(** A full name of one Cyrillic letter is one code unit long and is
    refused; the same letter twice is accepted. *)
Example fullName_code_units :
  let form (name : UTF16.t) :=
    SignUp.mkForm name [] [] [] None [] false [] [] [] [] None in
  SignUp.fullNameError (SignUp.validationErrors (form [1071]))
  = Some "Full name must be at least 2 characters"
  /\ SignUp.fullNameError (SignUp.validationErrors (form [1071; 1071])) = None.
Proof. split; reflexivity. Qed.

Section SignUpProps.
Import SignUp.
Variable toLowerCase : UTF16.t -> UTF16.t.

Lemma truthy_length (s : UTF16.t) :
  UTF16.truthy s = true <-> 1 <= UTF16.length s.
Proof.
  unfold UTF16.length.
  destruct s; cbn; split; intros; try discriminate; try lia; reflexivity.
Qed.

Lemma trim_truthy (s : UTF16.t) :
  UTF16.truthy (UTF16.trim s) = true -> UTF16.truthy s = true.
Proof. destruct s; [discriminate | reflexivity]. Qed.

(** [handleSubmit] calls [signUp] only with a form that [validateForm]
    accepts, and then with the email trimmed and in lower case.
    [validateForm] accepts a form exactly when: the trimmed full name has
    two code units or more; the email, not blank, matches the email
    pattern; the password has eight code units or more, a digit and a
    special character; the confirmation equals the password; the phone
    number, unless blank, matches the phone pattern once its separators are
    removed; any organization address or number comes with an organization
    name that is not blank; and the terms are agreed to. *)
Theorem validateForm_accepts (formData : FormData) :
  (forall data, handleSubmit_request toLowerCase formData = Some data ->
     snd (validateForm formData) = true
     /\ dataEmail data = toLowerCase (UTF16.trim (email formData))
     /\ dataPassword data = password formData
     /\ dataFullName data = UTF16.trim (fullName formData))
  /\ (snd (validateForm formData) = false ->
      handleSubmit_request toLowerCase formData = None)
  /\ (snd (validateForm formData) = true
  <-> 2 <= UTF16.length (UTF16.trim (fullName formData))
      /\ UTF16.truthy (UTF16.trim (email formData)) = true
      /\ Regex.test Regex.emailRegex (email formData) = true
      /\ 8 <= UTF16.length (password formData)
      /\ UTF16.containsClass UTF16.isDigit (password formData) = true
      /\ UTF16.containsClass isSpecial (password formData) = true
      /\ confirmPassword formData = password formData
      /\ (UTF16.truthy (UTF16.trim (phoneNumber formData)) = true ->
          Regex.test Regex.phoneRegex
            (UTF16.removeAll isPhoneSeparator (phoneNumber formData)) = true)
      /\ (UTF16.truthy (organizationAddress formData) = true
          \/ UTF16.truthy (organizationNumber formData) = true ->
          exists name, organizationName formData = Some name
                       /\ UTF16.truthy (UTF16.trim name) = true)
      /\ agreeToTerms formData = true).
Proof.
  split; [| split].
  { intros data. unfold handleSubmit_request.
    destruct (snd (validateForm formData)); cbn [negb]; [| discriminate].
    intros Hdata. injection Hdata as <-. repeat split. }
  { intros Hno. unfold handleSubmit_request. rewrite Hno. reflexivity. }
  unfold validateForm. cbn [snd].
  assert (Hname : fullNameError (validationErrors formData) = None
                  <-> 2 <= UTF16.length (UTF16.trim (fullName formData))).
  { cbn [fullNameError validationErrors].
    destruct (UTF16.truthy (UTF16.trim (fullName formData))) eqn:Et;
      cbn [negb].
    - destruct (Z.ltb_spec (UTF16.length (UTF16.trim (fullName formData))) 2)
        as [Hlt | Hge].
      + split; [discriminate | lia].
      + split; [intros _; exact Hge | reflexivity].
    - split; [discriminate |]. intros Hlen.
      assert (UTF16.truthy (UTF16.trim (fullName formData)) = true)
        by (apply truthy_length; lia).
      congruence. }
  assert (Hemail : emailError (validationErrors formData) = None
                   <-> UTF16.truthy (UTF16.trim (email formData)) = true
                       /\ Regex.test Regex.emailRegex (email formData) = true).
  { cbn [emailError validationErrors].
    destruct (UTF16.truthy (UTF16.trim (email formData))); cbn [negb].
    - destruct (Regex.test Regex.emailRegex (email formData)); cbn [negb].
      + split; [intros _; split; reflexivity | reflexivity].
      + split; [discriminate | intros [_ Hf]; discriminate].
    - split; [discriminate | intros [Hf _]; discriminate]. }
  assert (Hpass : passwordError (validationErrors formData) = None
                  <-> 8 <= UTF16.length (password formData)
                      /\ UTF16.containsClass UTF16.isDigit (password formData)
                         = true
                      /\ UTF16.containsClass isSpecial (password formData)
                         = true).
  { cbn [passwordError validationErrors].
    destruct (UTF16.truthy (password formData)) eqn:Et; cbn [negb].
    - destruct (Z.ltb_spec (UTF16.length (password formData)) 8)
        as [Hlt | Hge].
      + split; [discriminate | intros [Hlen _]; lia].
      + destruct (UTF16.containsClass UTF16.isDigit (password formData));
          cbn [negb].
        * destruct (UTF16.containsClass isSpecial (password formData));
            cbn [negb].
          -- split; [intros _; repeat split; exact Hge | reflexivity].
          -- split; [discriminate | intros (_ & _ & Hf); discriminate].
        * split; [discriminate | intros (_ & Hf & _); discriminate].
    - split; [discriminate |]. intros [Hlen _].
      assert (UTF16.truthy (password formData) = true)
        by (apply truthy_length; lia).
      congruence. }
  assert (Hphone : phoneNumberError (validationErrors formData) = None
                   <-> (UTF16.truthy (UTF16.trim (phoneNumber formData)) = true ->
                        Regex.test Regex.phoneRegex
                          (UTF16.removeAll isPhoneSeparator
                             (phoneNumber formData)) = true)).
  { cbn [phoneNumberError validationErrors].
    destruct (UTF16.truthy (UTF16.trim (phoneNumber formData))) eqn:Et.
    - rewrite (trim_truthy _ Et). cbn [andb].
      destruct (Regex.test Regex.phoneRegex _); cbn [negb].
      + split; [intros _ _; reflexivity | reflexivity].
      + split; [discriminate | intros Hf; specialize (Hf eq_refl); discriminate].
    - rewrite andb_false_r. split; [discriminate | reflexivity]. }
  assert (Horg : organizationNameError (validationErrors formData) = None
                 <-> (UTF16.truthy (organizationAddress formData) = true
                      \/ UTF16.truthy (organizationNumber formData) = true ->
                      exists name, organizationName formData = Some name
                                   /\ UTF16.truthy (UTF16.trim name) = true)).
  { cbn [organizationNameError validationErrors]. cbv zeta.
    destruct (UTF16.truthy (organizationAddress formData) ||
              UTF16.truthy (organizationNumber formData)) eqn:Eorg; cbn [andb].
    - apply orb_true_iff in Eorg.
      destruct (organizationName formData) as [name |].
      + destruct (UTF16.truthy (UTF16.trim name)) eqn:Et.
        * rewrite (trim_truthy _ Et). cbn [negb orb].
          split; [| reflexivity]. intros _ _. exists name. split; [reflexivity | exact Et].
        * rewrite orb_true_r. split; [discriminate |]. intros Hex.
          destruct (Hex Eorg) as (name' & Heq & Ht). injection Heq as <-.
          congruence.
      + split; [discriminate |]. intros Hex.
        destruct (Hex Eorg) as (name' & Heq & _). discriminate.
    - apply orb_false_iff in Eorg. destruct Eorg as [Ea En].
      split; [| reflexivity]. intros _ [Hf | Hf]; congruence. }
  assert (Hconfirm : passwordError (validationErrors formData) = None ->
                     (confirmPasswordError (validationErrors formData) = None
                      <-> confirmPassword formData = password formData)).
  { intros Hp. apply Hpass in Hp. destruct Hp as [Hlen _].
    cbn [confirmPasswordError validationErrors]. unfold UTF16.eqb.
    destruct (decide (password formData = confirmPassword formData))
      as [Heq | Hne].
    - rewrite bool_decide_eq_true_2 by exact Heq. rewrite <- Heq.
      replace (UTF16.truthy (password formData)) with true
        by (symmetry; apply truthy_length; lia).
      cbn [negb]. split; reflexivity.
    - rewrite bool_decide_eq_false_2 by exact Hne.
      destruct (UTF16.truthy (confirmPassword formData)); cbn [negb];
        (split; [discriminate | congruence]). }
  assert (Hterms : agreeToTermsError (validationErrors formData) = None
                   <-> agreeToTerms formData = true).
  { cbn [agreeToTermsError validationErrors].
    destruct (agreeToTerms formData); cbn [negb];
      (split; [try discriminate; reflexivity | try discriminate; reflexivity]). }
  assert (Hall : noErrors (validationErrors formData) = true
                 <-> fullNameError (validationErrors formData) = None
                     /\ emailError (validationErrors formData) = None
                     /\ passwordError (validationErrors formData) = None
                     /\ confirmPasswordError (validationErrors formData) = None
                     /\ phoneNumberError (validationErrors formData) = None
                     /\ organizationNameError (validationErrors formData) = None
                     /\ agreeToTermsError (validationErrors formData) = None).
  { destruct (validationErrors formData) as [[] [] [] [] [] [] []];
      cbn; (split; [try discriminate; intros _; repeat split
                   | try reflexivity;
                     intros (H1 & H2 & H3 & H4 & H5 & H6 & H7); discriminate]). }
  rewrite Hall. split.
  - intros (H1 & H2 & H3 & H4 & H5 & H6 & H7).
    pose proof (proj1 (Hconfirm H3) H4) as Hc.
    pose proof (proj1 Hname H1) as G1. pose proof (proj1 Hemail H2) as G2.
    pose proof (proj1 Hpass H3) as G3. pose proof (proj1 Hphone H5) as G5.
    pose proof (proj1 Horg H6) as G6. pose proof (proj1 Hterms H7) as G7.
    tauto.
  - intros (H1 & H2 & H3 & H4 & H5 & H6 & H7 & H8 & H9 & H10).
    assert (Hp : passwordError (validationErrors formData) = None)
      by (apply Hpass; tauto).
    split; [apply Hname; exact H1 |]. split; [apply Hemail; tauto |].
    split; [exact Hp |]. split; [apply (Hconfirm Hp); exact H7 |].
    split; [apply Hphone; exact H8 |]. split; [apply Horg; exact H9 |].
    apply Hterms; exact H10.
Qed.

End SignUpProps.

Section SignUpWitness.
Import SignUp.

(** A form in ASCII, for which lower-casing folds the letters A to Z. *)
Lemma validateForm_accepts_witness :
  let lower := List.map (fun c => if (65 <=? c) && (c <=? 90) then c + 32 else c) in
  let form :=
    mkForm (UTF16.ofAscii " Anna Admin ") (UTF16.ofAscii "Anna@Hobbly.fi")
      (UTF16.ofAscii "s3cret!pass") (UTF16.ofAscii "s3cret!pass")
      (Some (UTF16.ofAscii "Hobbly Oy")) [] true []
      (UTF16.ofAscii "+358 (40) 987-6543") (UTF16.ofAscii "Street 1") []
      None in
  exists data,
    handleSubmit_request lower form = Some data
    /\ dataEmail data = UTF16.ofAscii "anna@hobbly.fi"
    /\ dataFullName data = UTF16.ofAscii "Anna Admin".
Proof.
  intros lower form. eexists. split; [reflexivity |].
  destruct (proj1 (validateForm_accepts lower form) _ eq_refl)
    as (_ & Hemail & _ & Hname).
  split; [exact Hemail | exact Hname].
Defined.

End SignUpWitness.

Section LoginProps.
Import ActivitiesApi Login.

(** Remember me. After a login that succeeds with the box ticked, the
    storage holds the flag and the email, and a login form that mounts
    afterwards starts with that email and the box ticked. After one that
    succeeds with the box clear, both keys are gone from the storage, and a
    form that mounts afterwards starts blank, whatever the storage held
    before. In both cases the other keys of the storage are untouched. A
    login that fails leaves the storage as it was and shows the message
    mapped from the error. *)
Theorem remember_me_round_trip
  (signIn : UTF16.t -> UTF16.t -> Outcome unit)
  (localStorage : gmap string UTF16.t) (st : State) :
  UTF16.truthy (email (formData st)) = true ->
  UTF16.truthy (password (formData st)) = true ->
  Regex.test Regex.emailRegex (email (formData st)) = true ->
  (signIn (email (formData st)) (password (formData st)) = Resolved tt ->
   let '(st', storage') := handleSubmit signIn localStorage st in
   error st' = ""
   /\ isLoading st' = false
   /\ (rememberMe (formData st) = true ->
       storage' !! "hobbly_remember_me" = Some (UTF16.ofAscii "true")
       /\ storage' !! "hobbly_email" = Some (email (formData st))
       /\ formData (loadRemembered storage' initialState)
          = mkForm (email (formData st)) [] true)
   /\ (rememberMe (formData st) = false ->
       storage' !! "hobbly_remember_me" = None
       /\ storage' !! "hobbly_email" = None
       /\ loadRemembered storage' initialState = initialState)
   /\ (forall key, key <> "hobbly_remember_me" -> key <> "hobbly_email" ->
         storage' !! key = localStorage !! key))
  /\ (forall message,
        signIn (email (formData st)) (password (formData st))
        = Rejected (mkError message) ->
        let '(st', storage') := handleSubmit signIn localStorage st in
        storage' = localStorage
        /\ error st' = errorMessageOf message
        /\ isLoading st' = false).
Proof.
  intros Hemail Hpassword Hformat. unfold handleSubmit.
  rewrite Hemail, Hpassword, Hformat. cbn [negb orb].
  split.
  - intros Hin. rewrite Hin. split; [reflexivity | split; [reflexivity |]].
    split; [| split].
    + intros Hremember. rewrite Hremember.
      assert (Hflag : (<["hobbly_email" := email (formData st)]>
                         (<["hobbly_remember_me" := UTF16.ofAscii "true"]>
                            localStorage)) !! "hobbly_remember_me"
                      = Some (UTF16.ofAscii "true")).
      { rewrite lookup_insert_ne by discriminate. apply lookup_insert_eq. }
      split; [exact Hflag | split; [apply lookup_insert_eq |]].
      unfold loadRemembered. rewrite Hflag, lookup_insert_eq.
      rewrite bool_decide_eq_true_2 by reflexivity. rewrite Hemail.
      reflexivity.
    + intros Hremember. rewrite Hremember.
      assert (Hflag : delete "hobbly_email"
                        (delete "hobbly_remember_me" localStorage)
                        !! "hobbly_remember_me" = None).
      { rewrite lookup_delete_ne by discriminate. apply lookup_delete_eq. }
      split; [exact Hflag | split; [apply lookup_delete_eq |]].
      unfold loadRemembered. rewrite lookup_delete_eq. reflexivity.
    + intros key Hflag Hmail. destruct (rememberMe (formData st)).
      * rewrite !lookup_insert_ne by congruence. reflexivity.
      * rewrite !lookup_delete_ne by congruence. reflexivity.
  - intros message Hin. rewrite Hin. repeat split.
Qed.

Lemma remember_me_round_trip_witness :
  formData
    (loadRemembered
       (snd (handleSubmit (fun _ _ => Resolved tt) ∅
               (mkState (mkForm (UTF16.ofAscii "anna@hobbly.fi")
                           (UTF16.ofAscii "s3cret!pass") true) false "")))
       initialState)
  = mkForm (UTF16.ofAscii "anna@hobbly.fi") [] true.
Proof.
  pose proof (proj1 (remember_me_round_trip (fun _ _ => Resolved tt) ∅
                       (mkState (mkForm (UTF16.ofAscii "anna@hobbly.fi")
                                   (UTF16.ofAscii "s3cret!pass") true)
                          false "")
                       eq_refl eq_refl eq_refl) eq_refl) as Hround.
  destruct (handleSubmit _ _ _) as [st' storage'].
  destruct Hround as (_ & _ & Hyes & _).
  exact (proj2 (proj2 (Hyes eq_refl))).
Defined.

End LoginProps.

(** ** The authentication context and the gate *)

Section AuthProps.
Import AuthContext.
Context `{ActivitiesApi.Collaborators}.

Lemma guarded_organizer (st : State) (u : User.t) :
  loading st = false ->
  contextUser st = Some u ->
  JS.toLowerCase <$> User.role u = Some "organizer"
  \/ JS.toLowerCase <$> User.role u = Some "admin" ->
  guarded st None (Some "organizer") None = ProtectedRoute.Children.
Proof.
  intros Hloading Huser Hrole. unfold guarded. rewrite Hloading, Huser.
  apply gate_Children_iff. right.
  change (ProtectedRoute.rolesToCheck None (Some "organizer"))
    with ["organizer"].
  apply hasRequiredRole_allowed; [discriminate |].
  destruct Hrole as [Ho | Ha]; [| left; exact Ha].
  right. right. exists "organizer". split; [left; reflexivity | exact Ho].
Qed.

(** The context offers an identity exactly when it holds a profile. So a
    sign-out, which clears the profile, makes every gate navigate to its
    redirect path, /login by default; a session whose profile cannot be
    fetched does the same; and so does the start of the application, whose
    [initAuth] clears the loading flag before the mock user arrives, after
    which the admin panel opens. *)
Theorem context_identity_needs_profile (st : State)
  (sessionUser : SessionUser) (nowISO : string)
  (requiredRoles : option (list string)) (requiredRole redirectTo : option string) :
  (contextUser st = None <-> profile st = None)
  /\ guarded (step st (AuthStateChange None)) requiredRoles requiredRole
       redirectTo
     = ProtectedRoute.Navigate (default "/login" redirectTo)
  /\ guarded (run [AuthStateChange None; AuthStateChange (Some sessionUser);
                   ProfileFetched None] st)
       requiredRoles requiredRole redirectTo
     = ProtectedRoute.Navigate (default "/login" redirectTo)
  /\ guarded (step initialState InitAuth) requiredRoles requiredRole redirectTo
     = ProtectedRoute.Navigate (default "/login" redirectTo)
  /\ guarded (run [InitAuth; MockTimer nowISO] initialState) None
       (Some "organizer") None
     = ProtectedRoute.Children.
Proof.
  split; [| repeat split].
  unfold contextUser. destruct (profile st); split; congruence.
Qed.

(** A profile that arrives after the sign-out brings the identity back: the
    context then holds no session user, yet offers an identity with the
    role of the late profile and an empty id, for which the activities page
    loads nothing, while the admin panel opens if the role is organizer or
    admin. *)
Theorem late_profile_restores_identity (st : State)
  (sessionUser : SessionUser) (late : Profile)
  (toLocaleDateString : Date.t -> string) (now : Date.t)
  (store : list Activity.t) (page : ActivitiesPage.State) :
  let st' := run [AuthStateChange (Some sessionUser); AuthStateChange None;
                  ProfileFetched (Some late)] st in
  user st' = None
  /\ (exists u, contextUser st' = Some u
                /\ User.id u = ""
                /\ User.role u = profile_role late)
  /\ ActivitiesPage.loadActivities toLocaleDateString now (contextUser st')
       store page = page
  /\ (JS.toLowerCase <$> profile_role late = Some "organizer"
      \/ JS.toLowerCase <$> profile_role late = Some "admin" ->
      guarded st' None (Some "organizer") None = ProtectedRoute.Children).
Proof.
  cbv zeta. split; [reflexivity |].
  split; [eexists; split; [reflexivity | split; reflexivity] |].
  split; [reflexivity |].
  intros Hrole. eapply guarded_organizer; [reflexivity | reflexivity |].
  exact Hrole.
Qed.

End AuthProps.

Section AuthWitness.
Import AuthContext.

Lemma late_profile_restores_identity_witness :
  guarded (H := Examples.offline)
    (run [AuthStateChange (Some (MOCK_USER "2024-03-09T16:00:00Z"));
          AuthStateChange None;
          ProfileFetched (Some (MOCK_PROFILE "2024-03-09T16:00:00Z"))]
       initialState)
    None (Some "organizer") None = ProtectedRoute.Children.
Proof.
  exact (proj2 (proj2 (proj2
           (late_profile_restores_identity (H := Examples.offline) initialState
              (MOCK_USER "2024-03-09T16:00:00Z")
              (MOCK_PROFILE "2024-03-09T16:00:00Z")
              (fun _ => "") Examples.epoch [] ActivitiesPage.initialState)))
           (or_introl eq_refl)).
Defined.

End AuthWitness.
